(** * ProfileDTO.pb.go: the profile messages of the turbo-go-sdk proto package

    A shallow embedding of
    [vendor/github.com/turbonomic/turbo-go-sdk/pkg/proto/ProfileDTO.pb.go]:
    the message structs, their getters and the three oneof hooks of
    [EntityProfileDTO], together with a model of the wire codec of
    [github.com/golang/protobuf/proto] that the generated code plugs into. *)

From Stdlib Require Import String ZArith List Lia Bool.
From Stdlib Require Import Strings.Byte.
From Stdlib Require Import Floats.SpecFloat.
Import ListNotations.

Local Open Scope Z_scope.

(** ** Go values *)

(** A Go [byte] / [uint8]. *)
Abbreviation byte := Byte.byte.

Definition Z_of_byte (b : byte) : Z := Z.of_N (Byte.to_N b).

(** The conversion [uint8(x)]: the low eight bits of [x]. *)
Definition uint8 (x : Z) : byte :=
  match Byte.of_N (Z.to_N (x mod 256)) with
  | Some b => b
  | None => Byte.x00
  end.

(** The conversions [uint64(x)] and [int32(x)] of Go, on mathematical
    integers: the value modulo [2 ^ 64], and the value wrapped into the signed
    32-bit range. *)
Definition uint64 (x : Z) : Z := x mod 2 ^ 64.
Definition int32 (x : Z) : Z := (x + 2 ^ 31) mod 2 ^ 32 - 2 ^ 31.

(** A Go [string] is a sequence of bytes; proto2 strings are not checked for
    UTF-8 by this generation of the library. *)
Definition gostring := list byte.

(** A [float32] is carried as its IEEE 754 binary32 bit pattern, which is what
    the fixed32 wire form transports. *)
Definition float32 := Z.

(** ** Errors *)

(** The [error] values that can reach a caller.  The first five are the decode
    errors of the protocol; [ErrInternalBadWireType] is the sentinel of the
    proto package that the generated oneof unmarshaler returns; [ErrNil] is
    the proto package's error for a nil message; [Errorf] is an error built by
    [fmt.Errorf]. *)
Inductive error : Type :=
| MISSING_REQUIRED_FIELD (fieldName : string)
| MALFORMED_VARINT
| MALFORMED_VARIANT
| UNEXPECTED_WIRE_TYPE (fieldNumber : Z)
| TRUNCATED_MESSAGE
| ErrInternalBadWireType
| ErrNil
| Errorf (msg : string).

Inductive result (A : Type) : Type :=
| Ok (a : A)
| Err (e : error).
Arguments Ok {A} a.
Arguments Err {A} e.

Definition bind {A B : Type} (r : result A) (k : A -> result B) : result B :=
  match r with
  | Ok a => k a
  | Err e => Err e
  end.

Notation "x <- r ;; k" := (bind r (fun x => k))
  (at level 61, r at next level, right associativity).
Notation "' pat <- r ;; k" := (bind r (fun x => match x with pat => k end))
  (at level 61, pat pattern, r at next level, right associativity).

(** ** Wire primitives of the proto package *)

Module Wire.

(** Modelled from the spec: the wire-type constants [proto.WireVarint],
    [proto.WireBytes] and [proto.WireFixed32] are declared in the proto
    package, not in this file.  They stand for the three payload shapes of
    section 4.3 (varint, length-delimited, 32-bit fixed-width), with the
    numbers these have in the low three bits of a key. *)
Definition WireVarint : Z := 0.
Definition WireBytes : Z := 2.
Definition WireFixed32 : Z := 5.

(** Modelled from the spec: [proto.Buffer.EncodeVarint] is not in this file of
    the repository.  The spec's "varint-encoded key" (section 4.3) is the
    base-128 form: seven bits per byte, least significant group first, the top
    bit set on every byte but the last.  The argument is a [uint64], so at most
    nine continuation bytes are written. *)
Fixpoint EncodeVarint_loop (n : nat) (x : Z) : list byte :=
  match n with
  | O => [uint8 x]
  | S n' =>
      if 128 <=? x
      then uint8 (Z.lor (Z.land x 127) 128) :: EncodeVarint_loop n' (Z.shiftr x 7)
      else [uint8 x]
  end.

(** Modelled from the spec: [proto.Buffer.EncodeVarint(x uint64)], as the
    bytes it appends to the buffer. *)
Definition EncodeVarint (x : Z) : list byte := EncodeVarint_loop 9 (uint64 x).

(** Modelled from the spec: the loop of [proto.Buffer.DecodeVarint], the
    inverse of [EncodeVarint]; it reads at most ten bytes and accumulates in a
    [uint64].  The buffer is represented by its unread part [buf[index:]]; the
    result carries the remaining input.  Running out of input or of the ten
    bytes is [MALFORMED_VARINT] (section 7). *)
Fixpoint DecodeVarint_loop (n : nat) (shift : Z) (x : Z) (buf : list byte)
  : result (Z * list byte) :=
  match n with
  | O => Err MALFORMED_VARINT
  | S n' =>
      match buf with
      | [] => Err MALFORMED_VARINT
      | b :: buf' =>
          let x' := Z.lor x (uint64 (Z.shiftl (Z.land (Z_of_byte b) 127) shift)) in
          if Z_of_byte b <? 128
          then Ok (x', buf')
          else DecodeVarint_loop n' (shift + 7) x' buf'
      end
  end.

(** Modelled from the spec: [proto.Buffer.DecodeVarint]. *)
Definition DecodeVarint (buf : list byte) : result (Z * list byte) :=
  DecodeVarint_loop 10 0 0 buf.

(** Modelled from the spec: the "32-bit fixed-width" payload (section 4.3),
    four bytes, least significant first. *)
Definition EncodeFixed32 (x : Z) : list byte :=
  [uint8 x; uint8 (Z.shiftr x 8); uint8 (Z.shiftr x 16); uint8 (Z.shiftr x 24)].

(** Modelled from the spec: reading a "32-bit fixed-width" payload; fewer
    than four bytes left is [TRUNCATED_MESSAGE] (section 7). *)
Definition DecodeFixed32 (buf : list byte) : result (Z * list byte) :=
  match buf with
  | b0 :: b1 :: b2 :: b3 :: buf' =>
      Ok (Z.lor (Z_of_byte b0)
            (Z.lor (Z.shiftl (Z_of_byte b1) 8)
               (Z.lor (Z.shiftl (Z_of_byte b2) 16) (Z.shiftl (Z_of_byte b3) 24))),
          buf')
  | _ => Err TRUNCATED_MESSAGE
  end.

(** Modelled from the spec: the "length-delimited" payload (section 4.3): a
    varint length followed by that many bytes.  A declared length exceeding
    the remaining bytes is [TRUNCATED_MESSAGE] (section 7). *)
Definition EncodeRawBytes (b : list byte) : list byte :=
  EncodeVarint (Z.of_nat (length b)) ++ b.

(** Modelled from the spec: reading a "length-delimited" payload: the bytes
    counted by the length, and the input after them. *)
Definition DecodeRawBytes (buf : list byte) : result (list byte * list byte) :=
  '(n, buf1) <- DecodeVarint buf ;;
  if n <=? Z.of_nat (length buf1)
  then Ok (firstn (Z.to_nat n) buf1, skipn (Z.to_nat n) buf1)
  else Err TRUNCATED_MESSAGE.

(** Modelled from the spec: the key of a field,
    [(fieldNumber << 3) | wireType] (section 4.3). *)
Definition key (tag wire : Z) : Z := Z.lor (Z.shiftl tag 3) wire.

(** A key that the decoder splits back into its field number and wire type. *)
Definition key_ok (tag wire : Z) : Prop :=
  Z.shiftr (uint64 (key tag wire)) 3 = tag
  /\ Z.land (uint64 (key tag wire)) 7 = wire.

End Wire.

(** A call either returns or panics (a nil pointer dereference, or an
    explicit [panic]). *)
Inductive outcome (A : Type) : Type :=
| Return (a : A)
| Panic (msg : string).
Arguments Return {A} a.
Arguments Panic {A} msg.

(** ** The messages of ProfileDTO.pb.go *)

(** The enumerations are declared in another file of the package; they are
    generated as [int32]. *)
Definition EntityDTO_EntityType : Type := Z.
Definition CommodityDTO_CommodityType : Type := Z.

(** A pointer [*T] is an [option T], [nil] being [None].  A slice of strings
    or of message pointers is a list; the elements of a message slice are taken
    to be non-nil. *)

(** [type EntityProfileDTO_VMProfileDTO struct]. *)
Module VMProfileDTO.
Record t : Type := Build {
  NumVCPUs : option Z;
  VCPUSpeed : option float32;
  NumStorageConsumed : option Z;
  XXX_unrecognized : list byte
}.

(** [new(EntityProfileDTO_VMProfileDTO)]. *)
Definition new : t := Build None None None [].

Definition GetNumVCPUs (m : option t) : Z :=
  match m with
  | Some m' => match NumVCPUs m' with Some v => v | None => 0 end
  | None => 0
  end.

Definition GetVCPUSpeed (m : option t) : float32 :=
  match m with
  | Some m' => match VCPUSpeed m' with Some v => v | None => 0 end
  | None => 0
  end.

Definition GetNumStorageConsumed (m : option t) : Z :=
  match m with
  | Some m' => match NumStorageConsumed m' with Some v => v | None => 0 end
  | None => 0
  end.
End VMProfileDTO.

(** [type EntityProfileDTO_PMProfileDTO struct]. *)
Module PMProfileDTO.
Record t : Type := Build {
  NumCores : option Z;
  CpuCoreSpeed : option float32;
  XXX_unrecognized : list byte
}.

Definition new : t := Build None None [].

Definition GetNumCores (m : option t) : Z :=
  match m with
  | Some m' => match NumCores m' with Some v => v | None => 0 end
  | None => 0
  end.

Definition GetCpuCoreSpeed (m : option t) : float32 :=
  match m with
  | Some m' => match CpuCoreSpeed m' with Some v => v | None => 0 end
  | None => 0
  end.
End PMProfileDTO.

(** [type CommodityProfileDTO struct]. *)
Module CommodityProfileDTO.
Record t : Type := Build {
  CommodityType : option CommodityDTO_CommodityType;
  Capacity : option float32;
  ConsumedFactor : option float32;
  Consumed : option float32;
  Reservation : option float32;
  Overhead : option float32;
  XXX_unrecognized : list byte
}.

Definition new : t := Build None None None None None None [].

Section Getters.
(** The constant [CommodityDTO_CLUSTER] is declared with the enumeration,
    outside this file. *)
Variable CommodityDTO_CLUSTER : CommodityDTO_CommodityType.

Definition GetCommodityType (m : option t) : CommodityDTO_CommodityType :=
  match m with
  | Some m' =>
      match CommodityType m' with Some v => v | None => CommodityDTO_CLUSTER end
  | None => CommodityDTO_CLUSTER
  end.
End Getters.

Definition GetCapacity (m : option t) : float32 :=
  match m with
  | Some m' => match Capacity m' with Some v => v | None => 0 end
  | None => 0
  end.

Definition GetConsumedFactor (m : option t) : float32 :=
  match m with
  | Some m' => match ConsumedFactor m' with Some v => v | None => 0 end
  | None => 0
  end.

Definition GetConsumed (m : option t) : float32 :=
  match m with
  | Some m' => match Consumed m' with Some v => v | None => 0 end
  | None => 0
  end.

Definition GetReservation (m : option t) : float32 :=
  match m with
  | Some m' => match Reservation m' with Some v => v | None => 0 end
  | None => 0
  end.

Definition GetOverhead (m : option t) : float32 :=
  match m with
  | Some m' => match Overhead m' with Some v => v | None => 0 end
  | None => 0
  end.
End CommodityProfileDTO.

(** [type EntityProfileDTO struct], with the oneof field [VMOrPMProfileData]. *)
Module EntityProfileDTO.

(** The two wrapper structs of the oneof. *)
Record EntityProfileDTO_VmProfileDTO : Type :=
  { VmProfileDTO : option VMProfileDTO.t }.
Record EntityProfileDTO_PmProfileDTO : Type :=
  { PmProfileDTO : option PMProfileDTO.t }.

(** A non-nil value of the interface [isEntityProfileDTO_VMOrPMProfileData],
    by dynamic type: a pointer to one of the two wrappers (possibly a nil
    pointer), or a value of some other type, named as [%T] prints it.  The
    last case is the one the [default] branches of the oneof hooks are
    written for. *)
Inductive isEntityProfileDTO_VMOrPMProfileData : Type :=
| is_VmProfileDTO (x : option EntityProfileDTO_VmProfileDTO)
| is_PmProfileDTO (x : option EntityProfileDTO_PmProfileDTO)
| is_unexpected (T : string).

Section Externals.
(** [EntityDTO_EntityProperty] is a message declared in another file of the
    package. *)
Variable EntityDTO_EntityProperty : Type.

Record t : Type := Build {
  Id : option gostring;
  DisplayName : option gostring;
  EntityType : option EntityDTO_EntityType;
  CommodityProfile : list CommodityProfileDTO.t;
  Model : option gostring;
  Vendor : option gostring;
  Description : option gostring;
  VMOrPMProfileData : option isEntityProfileDTO_VMOrPMProfileData;
  EnableProvisionMatch : option bool;
  EnableResizeMatch : option bool;
  EntityProperties : list EntityDTO_EntityProperty;
  XXX_unrecognized : list byte
}.

(** [EntityProfileDTO{}], what [Reset] stores. *)
Definition new : t :=
  Build None None None [] None None None None None None [] [].

Definition GetVMOrPMProfileData (m : option t)
  : option isEntityProfileDTO_VMOrPMProfileData :=
  match m with
  | Some m' => VMOrPMProfileData m'
  | None => None
  end.

Definition GetId (m : option t) : gostring :=
  match m with
  | Some m' => match Id m' with Some v => v | None => [] end
  | None => []
  end.

Definition GetDisplayName (m : option t) : gostring :=
  match m with
  | Some m' => match DisplayName m' with Some v => v | None => [] end
  | None => []
  end.

Section Getters.
(** The constant [EntityDTO_SWITCH] is declared with the enumeration,
    outside this file. *)
Variable EntityDTO_SWITCH : EntityDTO_EntityType.

Definition GetEntityType (m : option t) : EntityDTO_EntityType :=
  match m with
  | Some m' =>
      match EntityType m' with Some v => v | None => EntityDTO_SWITCH end
  | None => EntityDTO_SWITCH
  end.
End Getters.

Definition GetCommodityProfile (m : option t) : list CommodityProfileDTO.t :=
  match m with
  | Some m' => CommodityProfile m'
  | None => []
  end.

Definition GetModel (m : option t) : gostring :=
  match m with
  | Some m' => match Model m' with Some v => v | None => [] end
  | None => []
  end.

Definition GetVendor (m : option t) : gostring :=
  match m with
  | Some m' => match Vendor m' with Some v => v | None => [] end
  | None => []
  end.

Definition GetDescription (m : option t) : gostring :=
  match m with
  | Some m' => match Description m' with Some v => v | None => [] end
  | None => []
  end.

(** The type assertion succeeds on a nil wrapper pointer too, and the
    field access then dereferences it. *)
Definition GetVmProfileDTO (m : option t) : outcome (option VMProfileDTO.t) :=
  match GetVMOrPMProfileData m with
  | Some (is_VmProfileDTO x) =>
      match x with
      | Some x' => Return (VmProfileDTO x')
      | None => Panic "invalid memory address or nil pointer dereference"
      end
  | _ => Return None
  end.

Definition GetPmProfileDTO (m : option t) : outcome (option PMProfileDTO.t) :=
  match GetVMOrPMProfileData m with
  | Some (is_PmProfileDTO x) =>
      match x with
      | Some x' => Return (PmProfileDTO x')
      | None => Panic "invalid memory address or nil pointer dereference"
      end
  | _ => Return None
  end.

Definition GetEnableProvisionMatch (m : option t) : bool :=
  match m with
  | Some m' => match EnableProvisionMatch m' with Some v => v | None => false end
  | None => false
  end.

Definition GetEnableResizeMatch (m : option t) : bool :=
  match m with
  | Some m' => match EnableResizeMatch m' with Some v => v | None => false end
  | None => false
  end.

Definition GetEntityProperties (m : option t) : list EntityDTO_EntityProperty :=
  match m with
  | Some m' => EntityProperties m'
  | None => []
  end.
End Externals.

Arguments Build {EntityDTO_EntityProperty}.
Arguments Id {EntityDTO_EntityProperty}.
Arguments DisplayName {EntityDTO_EntityProperty}.
Arguments EntityType {EntityDTO_EntityProperty}.
Arguments CommodityProfile {EntityDTO_EntityProperty}.
Arguments Model {EntityDTO_EntityProperty}.
Arguments Vendor {EntityDTO_EntityProperty}.
Arguments Description {EntityDTO_EntityProperty}.
Arguments VMOrPMProfileData {EntityDTO_EntityProperty}.
Arguments EnableProvisionMatch {EntityDTO_EntityProperty}.
Arguments EnableResizeMatch {EntityDTO_EntityProperty}.
Arguments EntityProperties {EntityDTO_EntityProperty}.
Arguments XXX_unrecognized {EntityDTO_EntityProperty}.
Arguments new {EntityDTO_EntityProperty}.
Arguments GetVMOrPMProfileData {EntityDTO_EntityProperty}.
Arguments GetId {EntityDTO_EntityProperty}.
Arguments GetDisplayName {EntityDTO_EntityProperty}.
Arguments GetEntityType {EntityDTO_EntityProperty}.
Arguments GetCommodityProfile {EntityDTO_EntityProperty}.
Arguments GetModel {EntityDTO_EntityProperty}.
Arguments GetVendor {EntityDTO_EntityProperty}.
Arguments GetDescription {EntityDTO_EntityProperty}.
Arguments GetVmProfileDTO {EntityDTO_EntityProperty}.
Arguments GetPmProfileDTO {EntityDTO_EntityProperty}.
Arguments GetEnableProvisionMatch {EntityDTO_EntityProperty}.
Arguments GetEnableResizeMatch {EntityDTO_EntityProperty}.
Arguments GetEntityProperties {EntityDTO_EntityProperty}.
End EntityProfileDTO.

(** [type DeploymentProfileDTO struct]. *)
Module DeploymentProfileDTO.
Section Externals.
(** [ContextData] is a message declared in another file of the package. *)
Variable ContextData : Type.

Record t : Type := Build {
  Id : option gostring;
  ProfileName : option gostring;
ContextData_ : list ContextData;
RelatedEntityProfileId : list gostring;
RelatedScopeId : list gostring;
XXX_unrecognized : list byte
    }.

Definition new : t := Build None None [] [] [] [].

Definition GetId (m : option t) : gostring :=
  match m with
  | Some m' => match Id m' with Some v => v | None => [] end
  | None => []
  end.

Definition GetProfileName (m : option t) : gostring :=
  match m with
  | Some m' => match ProfileName m' with Some v => v | None => [] end
  | None => []
  end.

Definition GetContextData (m : option t) : list ContextData :=
  match m with
  | Some m' => ContextData_ m'
  | None => []
  end.

Definition GetRelatedEntityProfileId (m : option t) : list gostring :=
  match m with
  | Some m' => RelatedEntityProfileId m'
  | None => []
  end.

Definition GetRelatedScopeId (m : option t) : list gostring :=
  match m with
  | Some m' => RelatedScopeId m'
  | None => []
  end.
End Externals.

Arguments Build {ContextData}.
Arguments Id {ContextData}.
Arguments ProfileName {ContextData}.
Arguments ContextData_ {ContextData}.
Arguments RelatedEntityProfileId {ContextData}.
Arguments RelatedScopeId {ContextData}.
Arguments XXX_unrecognized {ContextData}.
Arguments new {ContextData}.
Arguments GetId {ContextData}.
Arguments GetProfileName {ContextData}.
Arguments GetContextData {ContextData}.
Arguments GetRelatedEntityProfileId {ContextData}.
Arguments GetRelatedScopeId {ContextData}.
End DeploymentProfileDTO.

(** ** The codec of the proto package, for these messages *)

Module Codec.
Import Wire.

(** *** Encoding of single fields *)

(** Modelled from the spec: the encoders of the proto package are not in this
    file of the repository.  Per section 4.3 a field is its key followed by a
    varint, fixed32 or length-delimited payload, and "absent optional fields
    are omitted entirely". *)
Definition enc_bytes (tag : Z) (v : option gostring) : list byte :=
  match v with
  | Some s => EncodeVarint (key tag WireBytes) ++ EncodeRawBytes s
  | None => []
  end.

(** Modelled from the spec: a varint field holding an [int32] or an
    enumeration (section 4.3); the value is widened to [uint64]. *)
Definition enc_int32 (tag : Z) (v : option Z) : list byte :=
  match v with
  | Some x => EncodeVarint (key tag WireVarint) ++ EncodeVarint (uint64 x)
  | None => []
  end.

(** Modelled from the spec: a varint field holding a boolean (section 4.3),
    1 or 0. *)
Definition enc_bool (tag : Z) (v : option bool) : list byte :=
  match v with
  | Some x => EncodeVarint (key tag WireVarint) ++ EncodeVarint (if x then 1 else 0)
  | None => []
  end.

(** Modelled from the spec: a fixed32 field holding a single-precision float
    (section 4.3). *)
Definition enc_float32 (tag : Z) (v : option float32) : list byte :=
  match v with
  | Some x => EncodeVarint (key tag WireFixed32) ++ EncodeFixed32 x
  | None => []
  end.

(** Modelled from the spec: a repeated string field, one keyed element after
    the other in slice order (sections 4.3 and 4.5: order and duplicates are
    kept). *)
Definition enc_repeated_bytes (tag : Z) (l : list gostring) : list byte :=
  flat_map (fun s => EncodeVarint (key tag WireBytes) ++ EncodeRawBytes s) l.

(** Modelled from the spec: a repeated field of nested messages, each
    length-delimited (section 4.3). *)
Definition enc_repeated_message {A : Type} (marshal : A -> list byte) (tag : Z)
  (l : list A) : list byte :=
  flat_map (fun x => EncodeVarint (key tag WireBytes) ++ EncodeRawBytes (marshal x)) l.

(** *** Decoding of single fields *)

(** Modelled from the spec: the payload decoders.  A declared field met with
    another wire kind is [UNEXPECTED_WIRE_TYPE] (section 7).  Each takes the
    message, the setter of the field and the input after the key, and gives
    the message, the remaining input and the error. *)
Definition dec_bytes {M : Type} (tag wire : Z) (set : gostring -> M) (m : M)
  (b : list byte) : M * list byte * option error :=
  if wire =? WireBytes then
    match DecodeRawBytes b with
    | Ok (s, b') => (set s, b', None)
    | Err e => (m, b, Some e)
    end
  else (m, b, Some (UNEXPECTED_WIRE_TYPE tag)).

(** Modelled from the spec: the decoder of a varint field holding an [int32] or
    an enumeration; the [uint64] read is cut to 32 bits. *)
Definition dec_int32 {M : Type} (tag wire : Z) (set : Z -> M) (m : M)
  (b : list byte) : M * list byte * option error :=
  if wire =? WireVarint then
    match DecodeVarint b with
    | Ok (u, b') => (set (int32 u), b', None)
    | Err e => (m, b, Some e)
    end
  else (m, b, Some (UNEXPECTED_WIRE_TYPE tag)).

(** Modelled from the spec: the decoder of a boolean field; any non-zero
    varint is [true]. *)
Definition dec_bool {M : Type} (tag wire : Z) (set : bool -> M) (m : M)
  (b : list byte) : M * list byte * option error :=
  if wire =? WireVarint then
    match DecodeVarint b with
    | Ok (u, b') => (set (negb (u =? 0)), b', None)
    | Err e => (m, b, Some e)
    end
  else (m, b, Some (UNEXPECTED_WIRE_TYPE tag)).

(** Modelled from the spec: the decoder of a fixed32 field holding a float. *)
Definition dec_float32 {M : Type} (tag wire : Z) (set : float32 -> M) (m : M)
  (b : list byte) : M * list byte * option error :=
  if wire =? WireFixed32 then
    match DecodeFixed32 b with
    | Ok (x, b') => (set x, b', None)
    | Err e => (m, b, Some e)
    end
  else (m, b, Some (UNEXPECTED_WIRE_TYPE tag)).

(** Modelled from the spec: the decoder of a nested message: the
    length-delimited body is cut out and decoded by [unmarshal], which gives
    the message it built and its error. *)
Definition dec_message {M A : Type} (tag wire : Z)
  (unmarshal : list byte -> A * option error) (set : A -> M) (m : M)
  (b : list byte) : M * list byte * option error :=
  if wire =? WireBytes then
    match DecodeRawBytes b with
    | Ok (body, b') =>
        match unmarshal body with
        | (x, None) => (set x, b', None)
        | (_, Some e) => (m, b', Some e)
        end
    | Err e => (m, b, Some e)
    end
  else (m, b, Some (UNEXPECTED_WIRE_TYPE tag)).

(** Modelled from the spec: skipping the payload of a field that is not in the
    schema, by its wire kind alone; the three payload shapes of section 4.3
    are the ones understood. *)
Definition skip (tag wire : Z) (b : list byte) : result (list byte) :=
  if wire =? WireVarint then
    '(_, b') <- DecodeVarint b ;; Ok b'
  else if wire =? WireFixed32 then
    '(_, b') <- DecodeFixed32 b ;; Ok b'
  else if wire =? WireBytes then
    '(_, b') <- DecodeRawBytes b ;; Ok b'
  else Err (UNEXPECTED_WIRE_TYPE tag).

(** *** The decoding loop *)

Section UnmarshalType.
Variable M : Type.
(** [dec m tag wire b]: the decoder of the field [tag], when the message
    has one (a declared field, or a oneof case); [b] is the input after the
    key. *)
Variable dec : M -> Z -> Z -> list byte -> option (M * list byte * option error).
(** [save m raw]: append [raw] to [m.XXX_unrecognized]. *)
Variable save : M -> list byte -> M.

(** Modelled from the spec: the field loop of the decoder (section 4.3):
    "parses fields by tag"; the raw tag and payload bytes of an unknown field
    number are retained in the message.  Every error is terminal for the
    message (section 7).  The loop runs while input remains; every round
    consumes at least the key, so [fuel] equal to the length of the input
    is never used up (see [unmarshalType_fuel]). *)
Fixpoint unmarshalType (fuel : nat) (m : M) (b : list byte) : M * option error :=
  match b with
  | [] => (m, None)
  | _ :: _ =>
      match fuel with
      | O => (m, Some TRUNCATED_MESSAGE)
      | S fuel' =>
          match DecodeVarint b with
          | Err e => (m, Some e)
          | Ok (u, b1) =>
              let wire := Z.land u 7 in
              let tag := Z.shiftr u 3 in
              match dec m tag wire b1 with
              | Some (m', b2, None) => unmarshalType fuel' m' b2
              | Some (m', _, Some e) => (m', Some e)
              | None =>
                  match skip tag wire b1 with
                  | Err e => (m, Some e)
                  | Ok b2 =>
                      unmarshalType fuel'
                        (save m (firstn (length b - length b2) b)) b2
                  end
              end
          end
      end
  end.

(** Modelled from the spec: the loop on a whole buffer. *)
Definition run (m : M) (b : list byte) : M * option error :=
  unmarshalType (length b) m b.

(** The required-field check that follows the loop. *)
Variable required : M -> option error.

(** Modelled from the spec: decoding into the message [m]: the loop, then the
    "required-field check: after parsing" (section 4.3). *)
Definition unmarshalMerge (m : M) (b : list byte) : M * option error :=
  match run m b with
  | (m', None) => (m', required m')
  | (m', Some e) => (m', Some e)
  end.
End UnmarshalType.

Arguments unmarshalType {M}.
Arguments run {M}.
Arguments unmarshalMerge {M}.

(** Modelled from the spec: the result of [decode] as the caller sees it,
    "aggregate | error" (section 4.3). *)
Definition to_result {M : Type} (r : M * option error) : result M :=
  match r with
  | (m, None) => Ok m
  | (_, Some e) => Err e
  end.

(** Modelled from the spec: [MISSING_REQUIRED_FIELD(fieldName)] for a required
    field that is absent, else the check [k] of the next ones. *)
Definition require {A : Type} (name : string) (v : option A) (k : option error)
  : option error :=
  match v with
  | Some _ => k
  | None => Some (MISSING_REQUIRED_FIELD name)
  end.

(** Modelled from the spec: [proto.Buffer.EncodeMessage], which the generated
    marshaler calls: the length-delimited form of a nested message (section
    4.3), appended to the buffer; a nil message is refused with an error. *)
Definition EncodeMessage {M : Type} (marshal : M -> list byte) (b : list byte)
  (pb : option M) : list byte * option error :=
  match pb with
  | Some m => (b ++ EncodeRawBytes (marshal m), None)
  | None => (b, Some ErrNil)
  end.

(** Modelled from the spec: [proto.Buffer.DecodeMessage], which the generated
    unmarshaler calls: it cuts the length-delimited body out of the buffer and
    fills [msg] from it; the message comes back as the decode left it, with
    the error if any. *)
Definition DecodeMessage {M : Type} (unmarshal : M -> list byte -> M * option error)
  (msg : M) (b : list byte) : M * list byte * option error :=
  match DecodeRawBytes b with
  | Ok (body, b') => let (msg', err) := unmarshal msg body in (msg', b', err)
  | Err e => (msg, b, Some e)
  end.

(** Modelled from the spec: [proto.SizeVarint], the number of bytes of a
    varint. *)
Definition SizeVarint (x : Z) : Z := Z.of_nat (length (EncodeVarint x)).

(** The conversion to Go's [int], 64 bits wide. *)
Definition int (x : Z) : Z := (x + 2 ^ 63) mod 2 ^ 64 - 2 ^ 63.

(** *** VMProfileDTO *)

(** Modelled from the spec: the encoder of a [VMProfileDTO]: the present
    fields by the field table of section 6, then the unknown-field bytes,
    verbatim (section 4.3). *)
Definition Marshal_VMProfileDTO (m : VMProfileDTO.t) : list byte :=
  enc_int32 1 (VMProfileDTO.NumVCPUs m)
  ++ enc_float32 2 (VMProfileDTO.VCPUSpeed m)
  ++ enc_int32 3 (VMProfileDTO.NumStorageConsumed m)
  ++ VMProfileDTO.XXX_unrecognized m.

(** Modelled from the spec: the field decoders of [VMProfileDTO] by tag
    (section 6); a repeated occurrence of a field overwrites it. *)
Definition dec_VMProfileDTO (m : VMProfileDTO.t) (tag wire : Z) (b : list byte)
  : option (VMProfileDTO.t * list byte * option error) :=
  let '(VMProfileDTO.Build f1 f2 f3 u) := m in
  if tag =? 1 then
    Some (dec_int32 tag wire (fun v => VMProfileDTO.Build (Some v) f2 f3 u) m b)
  else if tag =? 2 then
    Some (dec_float32 tag wire (fun v => VMProfileDTO.Build f1 (Some v) f3 u) m b)
  else if tag =? 3 then
    Some (dec_int32 tag wire (fun v => VMProfileDTO.Build f1 f2 (Some v) u) m b)
  else None.

(** Modelled from the spec: the raw bytes of an unknown field are retained in
    [XXX_unrecognized] (section 4.3). *)
Definition save_VMProfileDTO (m : VMProfileDTO.t) (raw : list byte) : VMProfileDTO.t :=
  let '(VMProfileDTO.Build f1 f2 f3 u) := m in
  VMProfileDTO.Build f1 f2 f3 (u ++ raw).

(** Modelled from the spec: decoding a [VMProfileDTO] into [m]. *)
Definition UnmarshalMerge_VMProfileDTO (m : VMProfileDTO.t) (b : list byte)
  : VMProfileDTO.t * option error :=
  unmarshalMerge dec_VMProfileDTO save_VMProfileDTO (fun _ => None) m b.

(** Modelled from the spec: [decode] of a [VMProfileDTO], from the empty
    message. *)
Definition Unmarshal_VMProfileDTO (b : list byte) : result VMProfileDTO.t :=
  to_result (UnmarshalMerge_VMProfileDTO VMProfileDTO.new b).

(** *** PMProfileDTO *)

(** Modelled from the spec: the encoder of a [PMProfileDTO] (sections 4.3
    and 6). *)
Definition Marshal_PMProfileDTO (m : PMProfileDTO.t) : list byte :=
  enc_int32 1 (PMProfileDTO.NumCores m)
  ++ enc_float32 2 (PMProfileDTO.CpuCoreSpeed m)
  ++ PMProfileDTO.XXX_unrecognized m.

(** Modelled from the spec: the field decoders of [PMProfileDTO] by tag
    (section 6); a repeated occurrence of a field overwrites it. *)
Definition dec_PMProfileDTO (m : PMProfileDTO.t) (tag wire : Z) (b : list byte)
  : option (PMProfileDTO.t * list byte * option error) :=
  let '(PMProfileDTO.Build f1 f2 u) := m in
  if tag =? 1 then
    Some (dec_int32 tag wire (fun v => PMProfileDTO.Build (Some v) f2 u) m b)
  else if tag =? 2 then
    Some (dec_float32 tag wire (fun v => PMProfileDTO.Build f1 (Some v) u) m b)
  else None.

(** Modelled from the spec: the raw bytes of an unknown field are retained in
    [XXX_unrecognized] (section 4.3). *)
Definition save_PMProfileDTO (m : PMProfileDTO.t) (raw : list byte) : PMProfileDTO.t :=
  let '(PMProfileDTO.Build f1 f2 u) := m in
  PMProfileDTO.Build f1 f2 (u ++ raw).

(** Modelled from the spec: decoding a [PMProfileDTO] into [m]. *)
Definition UnmarshalMerge_PMProfileDTO (m : PMProfileDTO.t) (b : list byte)
  : PMProfileDTO.t * option error :=
  unmarshalMerge dec_PMProfileDTO save_PMProfileDTO (fun _ => None) m b.

(** Modelled from the spec: [decode] of a [PMProfileDTO], from the empty
    message. *)
Definition Unmarshal_PMProfileDTO (b : list byte) : result PMProfileDTO.t :=
  to_result (UnmarshalMerge_PMProfileDTO PMProfileDTO.new b).

(** *** CommodityProfileDTO *)

(** Modelled from the spec: the encoder of a [CommodityProfileDTO] (sections 4.3
    and 6). *)
Definition Marshal_CommodityProfileDTO (m : CommodityProfileDTO.t) : list byte :=
  enc_int32 1 (CommodityProfileDTO.CommodityType m)
  ++ enc_float32 2 (CommodityProfileDTO.Capacity m)
  ++ enc_float32 3 (CommodityProfileDTO.ConsumedFactor m)
  ++ enc_float32 4 (CommodityProfileDTO.Consumed m)
  ++ enc_float32 5 (CommodityProfileDTO.Reservation m)
  ++ enc_float32 6 (CommodityProfileDTO.Overhead m)
  ++ CommodityProfileDTO.XXX_unrecognized m.

(** Modelled from the spec: the field decoders of [CommodityProfileDTO] by tag
    (section 6); a repeated occurrence of a field overwrites it. *)
Definition dec_CommodityProfileDTO (m : CommodityProfileDTO.t) (tag wire : Z)
  (b : list byte) : option (CommodityProfileDTO.t * list byte * option error) :=
  let '(CommodityProfileDTO.Build f1 f2 f3 f4 f5 f6 u) := m in
  if tag =? 1 then
    Some (dec_int32 tag wire
            (fun v => CommodityProfileDTO.Build (Some v) f2 f3 f4 f5 f6 u) m b)
  else if tag =? 2 then
    Some (dec_float32 tag wire
            (fun v => CommodityProfileDTO.Build f1 (Some v) f3 f4 f5 f6 u) m b)
  else if tag =? 3 then
    Some (dec_float32 tag wire
            (fun v => CommodityProfileDTO.Build f1 f2 (Some v) f4 f5 f6 u) m b)
  else if tag =? 4 then
    Some (dec_float32 tag wire
            (fun v => CommodityProfileDTO.Build f1 f2 f3 (Some v) f5 f6 u) m b)
  else if tag =? 5 then
    Some (dec_float32 tag wire
            (fun v => CommodityProfileDTO.Build f1 f2 f3 f4 (Some v) f6 u) m b)
  else if tag =? 6 then
    Some (dec_float32 tag wire
            (fun v => CommodityProfileDTO.Build f1 f2 f3 f4 f5 (Some v) u) m b)
  else None.

(** Modelled from the spec: the raw bytes of an unknown field are retained in
    [XXX_unrecognized] (section 4.3). *)
Definition save_CommodityProfileDTO (m : CommodityProfileDTO.t) (raw : list byte)
  : CommodityProfileDTO.t :=
  let '(CommodityProfileDTO.Build f1 f2 f3 f4 f5 f6 u) := m in
  CommodityProfileDTO.Build f1 f2 f3 f4 f5 f6 (u ++ raw).

(** Modelled from the spec: the required fields of [CommodityProfileDTO]
    (section 3). *)
Definition required_CommodityProfileDTO (m : CommodityProfileDTO.t) : option error :=
  require "commodityType" (CommodityProfileDTO.CommodityType m) None.

(** Modelled from the spec: decoding a [CommodityProfileDTO] into [m]. *)
Definition UnmarshalMerge_CommodityProfileDTO (m : CommodityProfileDTO.t)
  (b : list byte) : CommodityProfileDTO.t * option error :=
  unmarshalMerge dec_CommodityProfileDTO save_CommodityProfileDTO
    required_CommodityProfileDTO m b.

(** Modelled from the spec: [decode] of a [CommodityProfileDTO], from the empty
    message. *)
Definition Unmarshal_CommodityProfileDTO (b : list byte) : result CommodityProfileDTO.t :=
  to_result (UnmarshalMerge_CommodityProfileDTO CommodityProfileDTO.new b).

(** Modelled from the spec: [proto.Size], the length of the encoding; a nil
    message has size 0. *)
Definition Size {M : Type} (marshal : M -> list byte) (pb : option M) : Z :=
  match pb with
  | Some m => int (Z.of_nat (length (marshal m)))
  | None => 0
  end.

(** *** EntityProfileDTO *)

Section Entity.
Import EntityProfileDTO.

(** The codec of the message [EntityDTO_EntityProperty], generated in
    another file of the package. *)
Variable EntityDTO_EntityProperty : Type.
Variable Marshal_EntityProperty : EntityDTO_EntityProperty -> list byte.
Variable UnmarshalMerge_EntityProperty :
  list byte -> EntityDTO_EntityProperty * option error.

Let EntityProfileDTO : Type := EntityProfileDTO.t EntityDTO_EntityProperty.

(** [func _EntityProfileDTO_OneofMarshaler(msg proto.Message, b *proto.Buffer) error].
    The buffer is passed in and returned; [msg] is the non-nil
    [*EntityProfileDTO] the library calls the hook with. *)
Definition _EntityProfileDTO_OneofMarshaler (m : EntityProfileDTO) (b : list byte)
  : outcome (list byte * option error) :=
  match VMOrPMProfileData m with
  | Some (is_VmProfileDTO x) =>
      let b := b ++ EncodeVarint (Z.lor (Z.shiftl 8 3) WireBytes) in
      match x with
      | None => Panic "invalid memory address or nil pointer dereference"
      | Some x' =>
          match EncodeMessage Marshal_VMProfileDTO b (VmProfileDTO x') with
          | (b, Some err) => Return (b, Some err)
          | (b, None) => Return (b, None)
          end
      end
  | Some (is_PmProfileDTO x) =>
      let b := b ++ EncodeVarint (Z.lor (Z.shiftl 9 3) WireBytes) in
      match x with
      | None => Panic "invalid memory address or nil pointer dereference"
      | Some x' =>
          match EncodeMessage Marshal_PMProfileDTO b (PmProfileDTO x') with
          | (b, Some err) => Return (b, Some err)
          | (b, None) => Return (b, None)
          end
      end
  | None => Return (b, None)
  | Some (is_unexpected T) =>
      Return (b, Some (Errorf
        ("EntityProfileDTO.VMOrPMProfileData has unexpected type " ++ T)))
  end.

(** [func _EntityProfileDTO_OneofUnmarshaler(msg proto.Message, tag, wire int, b *proto.Buffer) (bool, error)].
    The message and the buffer are passed in and returned with the
    results. *)
Definition _EntityProfileDTO_OneofUnmarshaler (m : EntityProfileDTO)
  (tag wire : Z) (b : list byte)
  : EntityProfileDTO * list byte * (bool * option error) :=
  let '(Build f1 f2 f3 f4 f5 f6 f7 _ f10 f11 f12 u) := m in
  if tag =? 8 then
    if negb (wire =? WireBytes) then (m, b, (true, Some ErrInternalBadWireType))
    else
      let '(msg, b', err) :=
        DecodeMessage UnmarshalMerge_VMProfileDTO VMProfileDTO.new b in
      (Build f1 f2 f3 f4 f5 f6 f7
         (Some (is_VmProfileDTO (Some {| VmProfileDTO := Some msg |})))
         f10 f11 f12 u,
       b', (true, err))
  else if tag =? 9 then
    if negb (wire =? WireBytes) then (m, b, (true, Some ErrInternalBadWireType))
    else
      let '(msg, b', err) :=
        DecodeMessage UnmarshalMerge_PMProfileDTO PMProfileDTO.new b in
      (Build f1 f2 f3 f4 f5 f6 f7
         (Some (is_PmProfileDTO (Some {| PmProfileDTO := Some msg |})))
         f10 f11 f12 u,
       b', (true, err))
  else (m, b, (false, None)).

(** [func _EntityProfileDTO_OneofSizer(msg proto.Message) (n int)]. *)
Definition _EntityProfileDTO_OneofSizer (m : EntityProfileDTO) : outcome Z :=
  let n := 0 in
  match VMOrPMProfileData m with
  | Some (is_VmProfileDTO x) =>
      match x with
      | None => Panic "invalid memory address or nil pointer dereference"
      | Some x' =>
          let s := Size Marshal_VMProfileDTO (VmProfileDTO x') in
          let n := int (n + SizeVarint (Z.lor (Z.shiftl 8 3) WireBytes)) in
          let n := int (n + SizeVarint (uint64 s)) in
          let n := int (n + s) in
          Return n
      end
  | Some (is_PmProfileDTO x) =>
      match x with
      | None => Panic "invalid memory address or nil pointer dereference"
      | Some x' =>
          let s := Size Marshal_PMProfileDTO (PmProfileDTO x') in
          let n := int (n + SizeVarint (Z.lor (Z.shiftl 9 3) WireBytes)) in
          let n := int (n + SizeVarint (uint64 s)) in
          let n := int (n + s) in
          Return n
      end
  | None => Return n
  | Some (is_unexpected T) =>
      Panic ("proto: unexpected type " ++ T ++ " in oneof")
  end.

(** Modelled from the spec: [proto.Marshal] on an [*EntityProfileDTO]: the
    declared fields (section 6), then the oneof through the generated
    marshaler, then the unknown-field bytes.  An error of the oneof
    marshaler is the error of the call. *)
Definition Marshal_EntityProfileDTO (m : EntityProfileDTO)
  : outcome (result (list byte)) :=
  let b :=
    enc_bytes 1 (Id m)
    ++ enc_bytes 2 (DisplayName m)
    ++ enc_int32 3 (EntityType m)
    ++ enc_repeated_message Marshal_CommodityProfileDTO 4 (CommodityProfile m)
    ++ enc_bytes 5 (Model m)
    ++ enc_bytes 6 (Vendor m)
    ++ enc_bytes 7 (Description m)
    ++ enc_bool 10 (EnableProvisionMatch m)
    ++ enc_bool 11 (EnableResizeMatch m)
    ++ enc_repeated_message Marshal_EntityProperty 12 (EntityProperties m) in
  match _EntityProfileDTO_OneofMarshaler m b with
  | Panic msg => Panic msg
  | Return (_, Some err) => Return (Err err)
  | Return (b, None) => Return (Ok (b ++ XXX_unrecognized m))
  end.

(** Modelled from the spec: the field decoders of [EntityProfileDTO] by tag
    (section 6).  A tag that is not a declared field is offered to the
    generated oneof unmarshaler; when that reports the tag as its own, its
    error ends the decode, a bad wire type as [MALFORMED_VARIANT]
    (section 4.2); otherwise the field is unknown. *)
Definition dec_EntityProfileDTO (m : EntityProfileDTO) (tag wire : Z)
  (b : list byte) : option (EntityProfileDTO * list byte * option error) :=
  let '(Build f1 f2 f3 f4 f5 f6 f7 o f10 f11 f12 u) := m in
  if tag =? 1 then
    Some (dec_bytes tag wire
            (fun v => Build (Some v) f2 f3 f4 f5 f6 f7 o f10 f11 f12 u) m b)
  else if tag =? 2 then
    Some (dec_bytes tag wire
            (fun v => Build f1 (Some v) f3 f4 f5 f6 f7 o f10 f11 f12 u) m b)
  else if tag =? 3 then
    Some (dec_int32 tag wire
            (fun v => Build f1 f2 (Some v) f4 f5 f6 f7 o f10 f11 f12 u) m b)
  else if tag =? 4 then
    Some (dec_message tag wire
            (UnmarshalMerge_CommodityProfileDTO CommodityProfileDTO.new)
            (fun v => Build f1 f2 f3 (f4 ++ [v]) f5 f6 f7 o f10 f11 f12 u) m b)
  else if tag =? 5 then
    Some (dec_bytes tag wire
            (fun v => Build f1 f2 f3 f4 (Some v) f6 f7 o f10 f11 f12 u) m b)
  else if tag =? 6 then
    Some (dec_bytes tag wire
            (fun v => Build f1 f2 f3 f4 f5 (Some v) f7 o f10 f11 f12 u) m b)
  else if tag =? 7 then
    Some (dec_bytes tag wire
            (fun v => Build f1 f2 f3 f4 f5 f6 (Some v) o f10 f11 f12 u) m b)
  else if tag =? 10 then
    Some (dec_bool tag wire
            (fun v => Build f1 f2 f3 f4 f5 f6 f7 o (Some v) f11 f12 u) m b)
  else if tag =? 11 then
    Some (dec_bool tag wire
            (fun v => Build f1 f2 f3 f4 f5 f6 f7 o f10 (Some v) f12 u) m b)
  else if tag =? 12 then
    Some (dec_message tag wire UnmarshalMerge_EntityProperty
            (fun v => Build f1 f2 f3 f4 f5 f6 f7 o f10 f11 (f12 ++ [v]) u) m b)
  else
    match _EntityProfileDTO_OneofUnmarshaler m tag wire b with
    | (m', b', (true, None)) => Some (m', b', None)
    | (m', b', (true, Some ErrInternalBadWireType)) =>
        Some (m', b', Some MALFORMED_VARIANT)
    | (m', b', (true, Some err)) => Some (m', b', Some err)
    | (_, _, (false, _)) => None
    end.

(** Modelled from the spec: the raw bytes of an unknown field are retained in
    [XXX_unrecognized] (section 4.3). *)
Definition save_EntityProfileDTO (m : EntityProfileDTO) (raw : list byte)
  : EntityProfileDTO :=
  let '(Build f1 f2 f3 f4 f5 f6 f7 o f10 f11 f12 u) := m in
  Build f1 f2 f3 f4 f5 f6 f7 o f10 f11 f12 (u ++ raw).

(** Modelled from the spec: the required fields of [EntityProfileDTO]
    (section 3), checked in the order of their numbers. *)
Definition required_EntityProfileDTO (m : EntityProfileDTO) : option error :=
  require "id" (Id m)
    (require "displayName" (DisplayName m)
       (require "entityType" (EntityType m) None)).

(** Modelled from the spec: decoding an [EntityProfileDTO] into [m]. *)
Definition UnmarshalMerge_EntityProfileDTO (m : EntityProfileDTO) (b : list byte)
  : EntityProfileDTO * option error :=
  unmarshalMerge dec_EntityProfileDTO save_EntityProfileDTO
    required_EntityProfileDTO m b.

(** Modelled from the spec: [decode] of an [EntityProfileDTO];
    [proto.Unmarshal(buf, pb)] resets [pb] and fills it from [buf]. *)
Definition Unmarshal_EntityProfileDTO (b : list byte) : result EntityProfileDTO :=
  to_result (UnmarshalMerge_EntityProfileDTO new b).
End Entity.

(** *** DeploymentProfileDTO *)

Section Deployment.
Import DeploymentProfileDTO.

(** The codec of the message [ContextData], generated in another file of
    the package. *)
Variable ContextData : Type.
Variable Marshal_ContextData : ContextData -> list byte.
Variable UnmarshalMerge_ContextData : list byte -> ContextData * option error.

Let DeploymentProfileDTO : Type := DeploymentProfileDTO.t ContextData.

(** Modelled from the spec: the encoder of a [DeploymentProfileDTO] (sections
    4.3 and 6); the repeated fields keep order and duplicates (section 4.5). *)
Definition Marshal_DeploymentProfileDTO (m : DeploymentProfileDTO) : list byte :=
  enc_bytes 1 (Id m)
  ++ enc_bytes 2 (ProfileName m)
  ++ enc_repeated_message Marshal_ContextData 3 (ContextData_ m)
  ++ enc_repeated_bytes 4 (RelatedEntityProfileId m)
  ++ enc_repeated_bytes 5 (RelatedScopeId m)
  ++ XXX_unrecognized m.

(** Modelled from the spec: the field decoders of [DeploymentProfileDTO] by tag
    (section 6); "repeated fields accumulate in encounter order" (section 4.3). *)
Definition dec_DeploymentProfileDTO (m : DeploymentProfileDTO) (tag wire : Z)
  (b : list byte) : option (DeploymentProfileDTO * list byte * option error) :=
  let '(Build f1 f2 f3 f4 f5 u) := m in
  if tag =? 1 then
    Some (dec_bytes tag wire (fun v => Build (Some v) f2 f3 f4 f5 u) m b)
  else if tag =? 2 then
    Some (dec_bytes tag wire (fun v => Build f1 (Some v) f3 f4 f5 u) m b)
  else if tag =? 3 then
    Some (dec_message tag wire UnmarshalMerge_ContextData
            (fun v => Build f1 f2 (f3 ++ [v]) f4 f5 u) m b)
  else if tag =? 4 then
    Some (dec_bytes tag wire (fun v => Build f1 f2 f3 (f4 ++ [v]) f5 u) m b)
  else if tag =? 5 then
    Some (dec_bytes tag wire (fun v => Build f1 f2 f3 f4 (f5 ++ [v]) u) m b)
  else None.

(** Modelled from the spec: the raw bytes of an unknown field are retained in
    [XXX_unrecognized] (section 4.3). *)
Definition save_DeploymentProfileDTO (m : DeploymentProfileDTO) (raw : list byte)
  : DeploymentProfileDTO :=
  let '(Build f1 f2 f3 f4 f5 u) := m in
  Build f1 f2 f3 f4 f5 (u ++ raw).

(** Modelled from the spec: the required fields of [DeploymentProfileDTO]
    (section 3). *)
Definition required_DeploymentProfileDTO (m : DeploymentProfileDTO) : option error :=
  require "id" (Id m) (require "profileName" (ProfileName m) None).

(** Modelled from the spec: decoding a [DeploymentProfileDTO] into [m]. *)
Definition UnmarshalMerge_DeploymentProfileDTO (m : DeploymentProfileDTO)
  (b : list byte) : DeploymentProfileDTO * option error :=
  unmarshalMerge dec_DeploymentProfileDTO save_DeploymentProfileDTO
    required_DeploymentProfileDTO m b.

(** Modelled from the spec: [decode] of a [DeploymentProfileDTO], from the
    empty message. *)
Definition Unmarshal_DeploymentProfileDTO (b : list byte)
  : result DeploymentProfileDTO :=
  to_result (UnmarshalMerge_DeploymentProfileDTO new b).
End Deployment.

End Codec.

(** ** The fields of a byte stream *)

Module Stream.
Import Wire Codec.

(** One field of a stream as the decoding loop meets it: its number, its wire
    type, the input that follows its key, and its raw bytes (key and
    payload). *)
Record field : Type := Field {
  field_tag : Z;
  field_wire : Z;
  field_input : list byte;
  field_raw : list byte
}.

(** The fields of a stream, in order, up to the end of the stream or to the
    first field that cannot be delimited. *)
Fixpoint fields_loop (fuel : nat) (b : list byte) : list field :=
  match b with
  | [] => []
  | _ :: _ =>
      match fuel with
      | O => []
      | S fuel' =>
          match DecodeVarint b with
          | Err _ => []
          | Ok (u, b1) =>
              let wire := Z.land u 7 in
              let tag := Z.shiftr u 3 in
              match skip tag wire b1 with
              | Err _ => []
              | Ok b2 =>
                  Field tag wire b1 (firstn (length b - length b2) b)
                  :: fields_loop fuel' b2
              end
          end
      end
  end.

Definition fields (b : list byte) : list field := fields_loop (length b) b.

(** The field numbers whose key occurs in the stream. *)
Definition tags (b : list byte) : list Z := map field_tag (fields b).

(** The keys met when reading a stream field after field; unlike [tags], the
    key of a last field whose payload is cut short still counts. *)
Fixpoint keys_loop (fuel : nat) (b : list byte) : list Z :=
  match b with
  | [] => []
  | _ :: _ =>
      match fuel with
      | O => []
      | S fuel' =>
          match DecodeVarint b with
          | Err _ => []
          | Ok (u, b1) =>
              Z.shiftr u 3 ::
              match skip (Z.shiftr u 3) (Z.land u 7) b1 with
              | Err _ => []
              | Ok b2 => keys_loop fuel' b2
              end
          end
      end
  end.

Definition keys (b : list byte) : list Z := keys_loop (length b) b.

(** The two variant tags of [EntityProfileDTO]. *)
Definition variant_tag (tag : Z) : bool := (tag =? 8) || (tag =? 9).

(** The tag of an optional field, when it is set. *)
Definition opt_tag {A : Type} (tag : Z) (o : option A) : list Z :=
  match o with
  | Some _ => [tag]
  | None => []
  end.

(** The last field of the list that carries a variant tag, 8 or 9. *)
Definition is_variant (f : field) : bool :=
  (field_tag f =? 8) || (field_tag f =? 9).

Fixpoint last_variant (l : list field) : option field :=
  match l with
  | [] => None
  | f :: l' =>
      match last_variant l' with
      | Some g => Some g
      | None => if is_variant f then Some f else None
      end
  end.

(** The unknown-field bytes of a message are well formed when they are a
    sequence of fields none of which has a number of the schema. *)
Definition unknown_only (known : Z -> bool) (u : list byte) : bool :=
  forallb (fun f => negb (known (field_tag f))) (fields u)
  && (length (concat (map field_raw (fields u))) =? length u)%nat.

(** Whether a field number occurs in the stream. *)
Definition encountered (tag : Z) (b : list byte) : bool :=
  existsb (Z.eqb tag) (tags b).

(** The union that the oneof unmarshaler of [EntityProfileDTO] builds from a
    field with a variant tag: the wrapper of the tag around the message that
    [DecodeMessage] fills from the field's payload. *)
Definition variant_of_field (f : field)
  : option EntityProfileDTO.isEntityProfileDTO_VMOrPMProfileData :=
  if field_tag f =? 8 then
    let '(msg, _, _) :=
      DecodeMessage UnmarshalMerge_VMProfileDTO VMProfileDTO.new (field_input f) in
    Some (EntityProfileDTO.is_VmProfileDTO
            (Some {| EntityProfileDTO.VmProfileDTO := Some msg |}))
  else
    let '(msg, _, _) :=
      DecodeMessage UnmarshalMerge_PMProfileDTO PMProfileDTO.new (field_input f) in
    Some (EntityProfileDTO.is_PmProfileDTO
            (Some {| EntityProfileDTO.PmProfileDTO := Some msg |})).

(** The decoding loop as a relation: [steps dec save m l m'] when taking the
    fields [l] one after the other, each without error, leads from the message
    [m] to the message [m']. *)
Section Steps.
Variable M : Type.
Variable dec : M -> Z -> Z -> list byte -> option (M * list byte * option error).
Variable save : M -> list byte -> M.

Inductive steps : M -> list field -> M -> Prop :=
| steps_nil (m : M) : steps m [] m
| steps_field (m : M) (f : field) (m1 : M) (b2 : list byte) (l : list field)
    (m' : M) :
    dec m (field_tag f) (field_wire f) (field_input f) = Some (m1, b2, None) ->
    steps m1 l m' ->
    steps m (f :: l) m'
| steps_unknown (m : M) (f : field) (l : list field) (m' : M) :
    dec m (field_tag f) (field_wire f) (field_input f) = None ->
    steps (save m (field_raw f)) l m' ->
    steps m (f :: l) m'.
End Steps.

Arguments steps {M}.

End Stream.

(** ** Valid aggregates *)

Module Valid.
Import Wire Codec Stream.

(** A byte sequence is a Go slice or string: its length fits in an [int]. *)
Definition fits (l : list byte) : bool := Z.of_nat (length l) <? 2 ^ 63.

Definition is_int32b (x : Z) : bool := (- 2 ^ 31 <=? x) && (x <? 2 ^ 31).

(** A [float32] is a 32-bit pattern. *)
Definition is_float32b (x : Z) : bool := (0 <=? x) && (x <? 2 ^ 32).

Definition opt {A : Type} (P : A -> bool) (o : option A) : bool :=
  match o with
  | Some a => P a
  | None => true
  end.

Definition present {A : Type} (o : option A) : bool :=
  match o with
  | Some _ => true
  | None => false
  end.

(** The field numbers of each schema (section 6); for [EntityProfileDTO] the
    two variant tags are among them. *)
Definition known_VMProfileDTO (tag : Z) : bool := (1 <=? tag) && (tag <=? 3).
Definition known_PMProfileDTO (tag : Z) : bool := (1 <=? tag) && (tag <=? 2).
Definition known_CommodityProfileDTO (tag : Z) : bool := (1 <=? tag) && (tag <=? 6).
Definition known_EntityProfileDTO (tag : Z) : bool := (1 <=? tag) && (tag <=? 12).
Definition known_DeploymentProfileDTO (tag : Z) : bool := (1 <=? tag) && (tag <=? 5).

Definition valid_VMProfileDTO (m : VMProfileDTO.t) : bool :=
  opt is_int32b (VMProfileDTO.NumVCPUs m)
  && opt is_float32b (VMProfileDTO.VCPUSpeed m)
  && opt is_int32b (VMProfileDTO.NumStorageConsumed m)
  && unknown_only known_VMProfileDTO (VMProfileDTO.XXX_unrecognized m).

Definition valid_PMProfileDTO (m : PMProfileDTO.t) : bool :=
  opt is_int32b (PMProfileDTO.NumCores m)
  && opt is_float32b (PMProfileDTO.CpuCoreSpeed m)
  && unknown_only known_PMProfileDTO (PMProfileDTO.XXX_unrecognized m).

(** A valid [CommodityProfileDTO]: the required [commodityType] is set, the
    scalars are in the range of their Go types, and the unknown-field bytes
    are fields outside the schema. *)
Definition valid_CommodityProfileDTO (m : CommodityProfileDTO.t) : bool :=
  present (CommodityProfileDTO.CommodityType m)
  && opt is_int32b (CommodityProfileDTO.CommodityType m)
  && opt is_float32b (CommodityProfileDTO.Capacity m)
  && opt is_float32b (CommodityProfileDTO.ConsumedFactor m)
  && opt is_float32b (CommodityProfileDTO.Consumed m)
  && opt is_float32b (CommodityProfileDTO.Reservation m)
  && opt is_float32b (CommodityProfileDTO.Overhead m)
  && unknown_only known_CommodityProfileDTO (CommodityProfileDTO.XXX_unrecognized m).

(** The union is valid when it is nil or holds one wrapper with its
    payload. *)
Definition valid_VMOrPMProfileData
  (o : option EntityProfileDTO.isEntityProfileDTO_VMOrPMProfileData) : bool :=
  match o with
  | None => true
  | Some (EntityProfileDTO.is_VmProfileDTO
            (Some {| EntityProfileDTO.VmProfileDTO := Some vm |})) =>
      valid_VMProfileDTO vm && fits (Marshal_VMProfileDTO vm)
  | Some (EntityProfileDTO.is_PmProfileDTO
            (Some {| EntityProfileDTO.PmProfileDTO := Some pm |})) =>
      valid_PMProfileDTO pm && fits (Marshal_PMProfileDTO pm)
  | _ => false
  end.

(** The payload of the union, when it has one, encodes to a Go slice. *)
Definition fits_VMOrPMProfileData
  (o : option EntityProfileDTO.isEntityProfileDTO_VMOrPMProfileData) : bool :=
  match o with
  | Some (EntityProfileDTO.is_VmProfileDTO
            (Some {| EntityProfileDTO.VmProfileDTO := Some vm |})) =>
      fits (Marshal_VMProfileDTO vm)
  | Some (EntityProfileDTO.is_PmProfileDTO
            (Some {| EntityProfileDTO.PmProfileDTO := Some pm |})) =>
      fits (Marshal_PMProfileDTO pm)
  | _ => true
  end.

(** The variant tag of the union's dynamic type, if it has one. *)
Definition variant_tags
  (o : option EntityProfileDTO.isEntityProfileDTO_VMOrPMProfileData) : list Z :=
  match o with
  | Some (EntityProfileDTO.is_VmProfileDTO _) => [8]
  | Some (EntityProfileDTO.is_PmProfileDTO _) => [9]
  | _ => []
  end.

Section Entity.
Variable EntityDTO_EntityProperty : Type.
Variable Marshal_EntityProperty : EntityDTO_EntityProperty -> list byte.
Variable valid_EntityProperty : EntityDTO_EntityProperty -> bool.

Definition valid_EntityProfileDTO
  (m : EntityProfileDTO.t EntityDTO_EntityProperty) : bool :=
  present (EntityProfileDTO.Id m)
  && opt fits (EntityProfileDTO.Id m)
  && present (EntityProfileDTO.DisplayName m)
  && opt fits (EntityProfileDTO.DisplayName m)
  && present (EntityProfileDTO.EntityType m)
  && opt is_int32b (EntityProfileDTO.EntityType m)
  && forallb (fun c => valid_CommodityProfileDTO c
                       && fits (Marshal_CommodityProfileDTO c))
       (EntityProfileDTO.CommodityProfile m)
  && opt fits (EntityProfileDTO.Model m)
  && opt fits (EntityProfileDTO.Vendor m)
  && opt fits (EntityProfileDTO.Description m)
  && valid_VMOrPMProfileData (EntityProfileDTO.VMOrPMProfileData m)
  && forallb (fun p => valid_EntityProperty p && fits (Marshal_EntityProperty p))
       (EntityProfileDTO.EntityProperties m)
  && unknown_only known_EntityProfileDTO (EntityProfileDTO.XXX_unrecognized m).
End Entity.

Section Deployment.
Variable ContextData : Type.
Variable Marshal_ContextData : ContextData -> list byte.
Variable valid_ContextData : ContextData -> bool.

Definition valid_DeploymentProfileDTO
  (m : DeploymentProfileDTO.t ContextData) : bool :=
  present (DeploymentProfileDTO.Id m)
  && opt fits (DeploymentProfileDTO.Id m)
  && present (DeploymentProfileDTO.ProfileName m)
  && opt fits (DeploymentProfileDTO.ProfileName m)
  && forallb (fun c => valid_ContextData c && fits (Marshal_ContextData c))
       (DeploymentProfileDTO.ContextData_ m)
  && forallb fits (DeploymentProfileDTO.RelatedEntityProfileId m)
  && forallb fits (DeploymentProfileDTO.RelatedScopeId m)
  && unknown_only known_DeploymentProfileDTO (DeploymentProfileDTO.XXX_unrecognized m).
End Deployment.

End Valid.

(** ** Single-precision arithmetic *)

Module Float32.

Definition prec : Z := 24.
Definition emax : Z := 128.

(** The value of a binary32 bit pattern: sign bit 31, exponent bits 30..23,
    fraction bits 22..0. *)
Definition of_bits (x : float32) : spec_float :=
  let s := Z.testbit x 31 in
  let e := Z.land (Z.shiftr x 23) 255 in
  let m := Z.land x (2 ^ 23 - 1) in
  if e =? 0 then
    match m with
    | Zpos p => S754_finite s p (-149)
    | _ => S754_zero s
    end
  else if e =? 255 then
    (if m =? 0 then S754_infinity s else S754_nan)
  else
    match m + 2 ^ 23 with
    | Zpos p => S754_finite s p (e - 150)
    | _ => S754_nan
    end.

(** The bit pattern of a canonical binary32 value; a NaN is the quiet NaN
    [0x7fc00000]. *)
Definition to_bits (f : spec_float) : float32 :=
  let sign (s : bool) : Z := if s then 2 ^ 31 else 0 in
  match f with
  | S754_zero s => sign s
  | S754_infinity s => sign s + 255 * 2 ^ 23
  | S754_nan => 2143289344
  | S754_finite s m e =>
      if Zpos m <? 2 ^ 23
      then sign s + Zpos m
      else sign s + (e + 150) * 2 ^ 23 + (Zpos m - 2 ^ 23)
  end.

Definition mul (x y : float32) : float32 :=
  to_bits (SFmul prec emax (of_bits x) (of_bits y)).

Definition sub (x y : float32) : float32 :=
  to_bits (SFsub prec emax (of_bits x) (of_bits y)).

(** The binary32 pattern of the number [m * 2 ^ e], rounded to nearest. *)
Definition of_dyadic (m e : Z) : float32 :=
  to_bits (binary_normalize prec emax m e false).

End Float32.

(** ** The commodity capacity model *)

Module Capacity.
Import CommodityProfileDTO.

(** Modelled from the spec: [derivedConsumed] and [usableCapacity] (section
    4.4) are not in this file of the repository, which only carries the
    fields and the comment "Consumed factor may be used to calculate consumed
    based on capacity".  [derivedConsumed] "returns [consumed] if present; else
    [capacity * consumedFactor] if both present; else absent". *)
Definition derivedConsumed (p : CommodityProfileDTO.t) : option float32 :=
  match Consumed p with
  | Some c => Some c
  | None =>
      match Capacity p, ConsumedFactor p with
      | Some cap, Some factor => Some (Float32.mul cap factor)
      | _, _ => None
      end
  end.

(** Modelled from the spec: [usableCapacity] is "[capacity - overhead] if
    capacity present, treating absent overhead as 0" (section 4.4). *)
Definition usableCapacity (p : CommodityProfileDTO.t) : option float32 :=
  match Capacity p with
  | Some cap =>
      Some (Float32.sub cap (match Overhead p with Some o => o | None => 0 end))
  | None => None
  end.

End Capacity.

(** ** Sample values *)

Module Examples.
Import Wire Codec.

(** The two messages declared outside this file, carried as their encoded
    bodies. *)
Definition raw_Marshal (p : list byte) : list byte := p.
Definition raw_UnmarshalMerge (b : list byte) : list byte * option error :=
  (b, None).
Definition raw_valid (p : list byte) : bool := true.

(** Sample codes for the enumerations, which are declared elsewhere. *)
Definition VIRTUAL_MACHINE : EntityDTO_EntityType := 10.
Definition CPU : CommodityDTO_CommodityType := 40.
Definition MEM : CommodityDTO_CommodityType := 21.

Definition vm4 : VMProfileDTO.t :=
  VMProfileDTO.Build (Some 4) (Some (Float32.of_dyadic 2400 0)) None [].

Definition pm8 : PMProfileDTO.t := PMProfileDTO.Build (Some 8) None [].

Definition cpu : CommodityProfileDTO.t :=
  CommodityProfileDTO.Build (Some CPU) (Some (Float32.of_dyadic 9600 0))
    (Some (Float32.of_dyadic 1 (-1))) None None None [].

Definition mem : CommodityProfileDTO.t :=
  CommodityProfileDTO.Build (Some MEM) (Some (Float32.of_dyadic 16384 0))
    None None None None [].

(** The profile of the round-trip scenario (section 8), with the bytes of an
    unknown field 13 attached. *)
Definition profile1 : EntityProfileDTO.t (list byte) :=
  EntityProfileDTO.Build
    (Some (list_byte_of_string "profile-1"))
    (Some (list_byte_of_string "Large VM"))
    (Some VIRTUAL_MACHINE)
    [cpu; mem] None None None
    (Some (EntityProfileDTO.is_VmProfileDTO
             (Some {| EntityProfileDTO.VmProfileDTO := Some vm4 |})))
    None (Some false) [list_byte_of_string "opaque"]
    ["h"%byte; "005"%byte].

(** The deployment profile of the linking scenario (section 8). *)
Definition dep1 : DeploymentProfileDTO.t (list byte) :=
  DeploymentProfileDTO.Build
    (Some (list_byte_of_string "dep-1"))
    (Some (list_byte_of_string "LargeVM-Template"))
    []
    [list_byte_of_string "profile-1"; list_byte_of_string "profile-1"]
    [list_byte_of_string "cluster-A"]
    [].

(** A stream with the three required fields, then tag 8, then tag 9. *)
Definition both_variants : list byte :=
  enc_bytes 1 (Some (list_byte_of_string "profile-1"))
  ++ enc_bytes 2 (Some (list_byte_of_string "Large VM"))
  ++ enc_int32 3 (Some VIRTUAL_MACHINE)
  ++ EncodeVarint (key 8 WireBytes) ++ EncodeRawBytes (Marshal_VMProfileDTO vm4)
  ++ EncodeVarint (key 9 WireBytes) ++ EncodeRawBytes (Marshal_PMProfileDTO pm8).

(** Tag 8 with the varint wire type. *)
Definition bad_variant : list byte :=
  EncodeVarint (key 8 WireVarint) ++ EncodeVarint 1.

(** A stream with a display name and an entity type but no id. *)
Definition no_id : list byte :=
  enc_bytes 2 (Some (list_byte_of_string "Large VM"))
  ++ enc_int32 3 (Some VIRTUAL_MACHINE).

(** A message whose union holds a value of a type that is neither wrapper. *)
Definition odd_union : EntityProfileDTO.t (list byte) :=
  EntityProfileDTO.Build None None None [] None None None
    (Some (EntityProfileDTO.is_unexpected "*proto.Other")) None None [] [].

End Examples.

(** ** The table of the oneof hooks *)

Module Methods.
Import Wire Codec.






End Methods.


(** More sample messages, for the oneof hooks. *)
Module HookExamples.

(** What the stream [Examples.both_variants] decodes to. *)
Definition decoded_pm8 : EntityProfileDTO.t (list byte) :=
  EntityProfileDTO.Build
    (Some (list_byte_of_string "profile-1"))
    (Some (list_byte_of_string "Large VM"))
    (Some Examples.VIRTUAL_MACHINE) [] None None None
    (Some (EntityProfileDTO.is_PmProfileDTO
             (Some {| EntityProfileDTO.PmProfileDTO := Some Examples.pm8 |})))
    None None [] [].

(** A message with nothing but the union of [Examples.profile1]. *)
Definition bare_vm4 : EntityProfileDTO.t (list byte) :=
  EntityProfileDTO.Build None None None [] None None None
    (Some (EntityProfileDTO.is_VmProfileDTO
             (Some {| EntityProfileDTO.VmProfileDTO := Some Examples.vm4 |})))
    None None [] [].

(** A message whose union holds a nil pointer to the VM wrapper. *)
Definition nil_wrapper : EntityProfileDTO.t (list byte) :=
  EntityProfileDTO.Build None None None [] None None None
    (Some (EntityProfileDTO.is_VmProfileDTO None)) None None [] [].

End HookExamples.
(** * The kubeturbo server *)

(** The command of the package [app]: the server's parameters, its flags, the
    checks it makes before it starts, and its main routine.  Go strings are
    Rocq strings here, and an [int] is an integer.  An [error] is carried as
    the text its method [Error] returns, which is all this code reads of an
    error. *)
Module Server.

(** The default port for the vmt service server, and the port of cAdvisor. *)
Definition KubeturboPort : Z := 10265.
Definition K8sCadvisorPort : Z := 4194.

(** [type VMTServer struct]. *)
Record VMTServer : Type := Build_VMTServer {
  Port : Z;
  Address : string;
  Master : string;
  K8sTAPSpec : string;
  TestingFlagPath : string;
  KubeConfig : string;
  BindPodsQPS : float32;
  BindPodsBurst : Z;
  CAdvisorPort : Z;
  EnableProfiling : bool;
  UseVMWare : bool
}.

(** [func NewVMTServer() *VMTServer]: the fields that the literal leaves out
    have their zero values. *)
Definition NewVMTServer : VMTServer :=
  {| Port := KubeturboPort;
     Address := "127.0.0.1";
     Master := "";
     K8sTAPSpec := "";
     TestingFlagPath := "";
     KubeConfig := "";
     BindPodsQPS := 0;
     BindPodsBurst := 0;
     CAdvisorPort := 0;
     EnableProfiling := false;
     UseVMWare := false |}.

(** The assignment [s.CAdvisorPort = v]. *)
Definition set_CAdvisorPort (s : VMTServer) (v : Z) : VMTServer :=
  {| Port := Port s;
     Address := Address s;
     Master := Master s;
     K8sTAPSpec := K8sTAPSpec s;
     TestingFlagPath := TestingFlagPath s;
     KubeConfig := KubeConfig s;
     BindPodsQPS := BindPodsQPS s;
     BindPodsBurst := BindPodsBurst s;
     CAdvisorPort := v;
     EnableProfiling := EnableProfiling s;
     UseVMWare := UseVMWare s |}.

(** ** Flags *)

(** The address of a field of the server, [&s.Port] and so on. *)
Inductive pointer : Type :=
| p_Port
| p_Address
| p_Master
| p_K8sTAPSpec
| p_TestingFlagPath
| p_KubeConfig
| p_BindPodsQPS
| p_BindPodsBurst
| p_CAdvisorPort
| p_EnableProfiling
| p_UseVMWare.

(** A call of [fs.IntVar], [fs.StringVar] or [fs.BoolVar]: the variable the
    flag is bound to, the flag's name, its default value and its usage. *)
Inductive Flag : Type :=
| IntVar (p : pointer) (name : string) (value : Z) (usage : string)
| StringVar (p : pointer) (name : string) (value : string) (usage : string)
| BoolVar (p : pointer) (name : string) (value : bool) (usage : string).

Definition flag_pointer (f : Flag) : pointer :=
  match f with
  | IntVar p _ _ _ | StringVar p _ _ _ | BoolVar p _ _ _ => p
  end.

Definition flag_name (f : Flag) : string :=
  match f with
  | IntVar _ n _ _ | StringVar _ n _ _ | BoolVar _ n _ _ => n
  end.

Definition pointer_eqb (p q : pointer) : bool :=
  match p, q with
  | p_Port, p_Port | p_Address, p_Address | p_Master, p_Master
  | p_K8sTAPSpec, p_K8sTAPSpec | p_TestingFlagPath, p_TestingFlagPath
  | p_KubeConfig, p_KubeConfig | p_BindPodsQPS, p_BindPodsQPS
  | p_BindPodsBurst, p_BindPodsBurst | p_CAdvisorPort, p_CAdvisorPort
  | p_EnableProfiling, p_EnableProfiling | p_UseVMWare, p_UseVMWare => true
  | _, _ => false
  end.

(** [func (s *VMTServer) AddFlags(fs *pflag.FlagSet)]: the calls made on the
    flag set, in their order. *)
Definition AddFlags (s : VMTServer) : list Flag :=
  [ IntVar p_Port "port" (Port s)
      "The port that kubeturbo's http service runs on";
    StringVar p_Address "ip" (Address s)
      "the ip address that kubeturbo's http service runs on";
    IntVar p_CAdvisorPort "cadvisor-port" K8sCadvisorPort
      "The port of the cadvisor service runs on";
    StringVar p_Master "master" (Master s)
      "The address of the Kubernetes API server (overrides any value in kubeconfig)";
    StringVar p_K8sTAPSpec "turboconfig" (K8sTAPSpec s)
      "Path to the config file.";
    StringVar p_TestingFlagPath "testingflag" (TestingFlagPath s)
      "Path to the testing flag.";
    StringVar p_KubeConfig "kubeconfig" (KubeConfig s)
      "Path to kubeconfig file with authorization and master location information.";
    BoolVar p_EnableProfiling "profiling" false
      "Enable profiling via web interface host:port/debug/pprof/.";
    BoolVar p_UseVMWare "usevmware" false
      "If the underlying infrastructure is VMWare." ].

(** ** The probe configuration *)

Section Probe.

(** [stitching.StitchingPropertyType] and its constants [stitching.IP] and
    [stitching.UUID] are declared in another package. *)
Variable StitchingPropertyType : Type.
Variable stitching_IP stitching_UUID : StitchingPropertyType.

(** The two fields of [probe.ProbeConfig] that the server sets. *)
Record ProbeConfig : Type := Build_ProbeConfig {
  CadvisorPort : Z;
  StitchingType : StitchingPropertyType
}.

(** [func (s *VMTServer) createProbeConfig() *probe.ProbeConfig]: the server
    after the call, and the configuration returned. *)
Definition createProbeConfig (s : VMTServer) : VMTServer * ProbeConfig :=
  let s := if CAdvisorPort s =? 0 then set_CAdvisorPort s K8sCadvisorPort else s in
  let pType := stitching_IP in
  let pType := if UseVMWare s then stitching_UUID else pType in
  let probeConfig :=
    {| CadvisorPort := CAdvisorPort s; StitchingType := pType |} in
  (s, probeConfig).

End Probe.

Arguments CadvisorPort {StitchingPropertyType} p.
Arguments StitchingType {StitchingPropertyType} p.

(** ** What a run does *)

(** The severity of a log record; [V n] is a record of [glog.V(n).Infof]. *)
Inductive severity : Type :=
| WARNING
| ERROR
| FATAL
| V (level : Z).

(** The handlers the http server can be given. *)
Inductive handler : Type :=
| pprof_Index
| pprof_Profile
| pprof_Symbol
| pprof_Trace
| prometheus_Handler.

(** What is registered on the http multiplexer. *)
Inductive registration : Type :=
| healthz_InstallHandler
| HandleFunc (pattern : string) (h : handler)
| Handle (pattern : string) (h : handler).

(** How a routine ends when it does not return: the process exits with a code,
    [glog.Fatal] ends it, or it blocks for ever. *)
Inductive stop : Type :=
| Exit (code : Z)
| Fatal
| Forever.

Inductive step (A : Type) : Type :=
| Ret (a : A)
| Stop (s : stop).
Arguments Ret {A} a.
Arguments Stop {A} s.

Section Run.

(** What the server calls in other packages.  A call that can fail gives its
    result on the left or its error on the right; a call that succeeds is
    taken to give a non-nil result, and every call is taken to return. *)
Variable IP : Type.
Variable ParseIP : string -> option IP.
Variable StitchingPropertyType : Type.
Variable stitching_IP stitching_UUID : StitchingPropertyType.
Variable ConfigFields Clientset : Type.

(** [rest.Config]: the two fields the server writes, and the others. *)
Record Config : Type := Build_Config {
  fields : ConfigFields;
  QPS : float32;
  Burst : Z
}.

Variable BuildConfigFromFlags : string -> string -> Config + string.
Variable NewForConfig : Config -> Clientset + string.
Variable K8sTAPServiceSpec : Type.
Variable ParseK8sTAPServiceSpec : string -> K8sTAPServiceSpec + string.
Variable PodBroker : Type.
Variable NewPodBroker : PodBroker.
Variable EventRecorder : Type.
Variable createRecorder : Clientset -> EventRecorder.
Variable VMTConfig : Type.
Variable NewVMTConfig :
  Clientset -> ProbeConfig StitchingPropertyType -> PodBroker ->
  K8sTAPServiceSpec -> VMTConfig.
Variable set_Recorder : VMTConfig -> EventRecorder -> VMTConfig.
Variable format_VMTConfig : VMTConfig -> string.
Variable KubeturboService : Type.
Variable NewKubeturboService : VMTConfig -> KubeturboService.
Variable JoinHostPort : string -> string -> string.
Variable Itoa : Z -> string.

(** [ListenAndServe] gives its error when it returns, and nothing as long as
    it serves. *)
Variable ListenAndServe : string -> list registration -> option string.

(** What a routine does that can be seen from outside, in the order it does
    it: log records, and calls that leave the package. *)
Inductive event : Type :=
| glog (l : severity) (msg : string)
| flag_SetPath (path : string)
| kubeturbo_ParseK8sTAPServiceSpec (path : string)
| clientcmd_BuildConfigFromFlags (masterUrl kubeconfigPath : string)
| kubernetes_NewForConfig (c : Config)
| go_startHttp (s : VMTServer)
| vmtService_Run (vmtService : KubeturboService)
| http_ListenAndServe (addr : string) (mux : list registration).

(** A routine gives the events it made and how it ended. *)
Definition M (A : Type) : Type := list event * step A.

Definition ret {A : Type} (a : A) : M A := ([], Ret a).

Definition emit (e : event) : M unit := ([e], Ret tt).

Definition halt {A : Type} (s : stop) : M A := ([], Stop s).

Definition bindM {A B : Type} (m : M A) (k : A -> M B) : M B :=
  match m with
  | (t, Ret a) => let (t', r) := k a in (t ++ t', r)
  | (t, Stop s) => (t, Stop s)
  end.

Notation "x <~ m ;; k" := (bindM m (fun x => k))
  (at level 61, m at next level, right associativity).

Definition when (c : bool) (m : M unit) : M unit := if c then m else ret tt.

(** [func (s *VMTServer) checkFlag() error]. *)
Definition checkFlag (s : VMTServer) : M (option string) :=
  _ <~ when ((KubeConfig s =? "") && (Master s =? ""))%string
         (emit (glog WARNING
                  "Neither --kubeconfig nor --master was specified.  Using default API client.  This might not work.")) ;;
  _ <~ when (negb (Master s =? "")%string)
         (emit (glog (V 3) ("Master is " ++ Master s)%string)) ;;
  _ <~ when (negb (TestingFlagPath s =? "")%string)
         (emit (flag_SetPath (TestingFlagPath s))) ;;
  match ParseIP (Address s) with
  | None => ret (Some ("wrong ip format:" ++ Address s)%string)
  | Some _ => ret None
  end.

(** [func (s *VMTServer) createKubeClient()], which returns a client and an
    error: the client, or the error returned with a nil client. *)
Definition createKubeClient (s : VMTServer) : M (Clientset + string) :=
  _ <~ emit (clientcmd_BuildConfigFromFlags (Master s) (KubeConfig s)) ;;
  match BuildConfigFromFlags (Master s) (KubeConfig s) with
  | inr err =>
      _ <~ emit (glog ERROR ("Error getting kubeconfig:  " ++ err)%string) ;;
      ret (inr err)
  | inl kubeConfig =>
      let kubeConfig :=
        {| fields := fields kubeConfig;
           QPS := Float32.of_dyadic 20 0;
           Burst := Burst kubeConfig |} in
      let kubeConfig :=
        {| fields := fields kubeConfig; QPS := QPS kubeConfig; Burst := 30 |} in
      _ <~ emit (kubernetes_NewForConfig kubeConfig) ;;
      match NewForConfig kubeConfig with
      | inr err =>
          _ <~ emit (glog FATAL ("Invalid API configuration: " ++ err)%string) ;;
          halt Fatal
      | inl kubeClient => ret (inl kubeClient)
      end
  end.

(** [func (s *VMTServer) startHttp()]. *)
Definition startHttp (s : VMTServer) : M unit :=
  let mux := [] in
  let mux := mux ++ [healthz_InstallHandler] in
  let mux :=
    if EnableProfiling s
    then mux ++ [HandleFunc "/debug/pprof/" pprof_Index;
                 HandleFunc "/debug/pprof/profile" pprof_Profile;
                 HandleFunc "/debug/pprof/symbol" pprof_Symbol;
                 HandleFunc "/debug/pprof/trace" pprof_Trace;
                 Handle "/metrics" prometheus_Handler]
    else mux in
  let addr := JoinHostPort (Address s) (Itoa (Port s)) in
  _ <~ emit (http_ListenAndServe addr mux) ;;
  match ListenAndServe addr mux with
  | Some err => _ <~ emit (glog FATAL err) ;; halt Fatal
  | None => halt Forever
  end.

(** [func (s *VMTServer) Run(_ []string) error].  The http server is started
    in a goroutine of its own: the event [go_startHttp] carries the server as
    it is then, and [Run] does not write to it afterwards. *)
Definition Run (s : VMTServer) : M (option string) :=
  err <~ checkFlag s ;;
  _ <~ match err with
       | Some err =>
           _ <~ emit (glog ERROR
                        ("check flag failed:" ++ err ++ ". abort.")%string) ;;
           halt (Exit 1)
       | None => ret tt
       end ;;
  let (s, probeConfig) :=
    createProbeConfig StitchingPropertyType stitching_IP stitching_UUID s in
  _ <~ emit (glog (V 3) ("spec path is: " ++ K8sTAPSpec s)%string) ;;
  _ <~ emit (kubeturbo_ParseK8sTAPServiceSpec (K8sTAPSpec s)) ;;
  match ParseK8sTAPServiceSpec (K8sTAPSpec s) with
  | inr err =>
      _ <~ emit (glog ERROR
                   ("Failed to generate correct TAP config: " ++ err)%string) ;;
      halt (Exit 1)
  | inl k8sTAPSpec =>
      r <~ createKubeClient s ;;
      match r with
      | inr err =>
          _ <~ emit (glog ERROR ("Failed to get kubeClient: " ++ err)%string) ;;
          halt (Exit 1)
      | inl kubeClient =>
          let broker := NewPodBroker in
          let vmtConfig :=
            NewVMTConfig kubeClient probeConfig broker k8sTAPSpec in
          _ <~ emit (glog (V 3)
                       ("Finished creating turbo configuration: "
                        ++ format_VMTConfig vmtConfig)%string) ;;
          let vmtConfig := set_Recorder vmtConfig (createRecorder kubeClient) in
          let vmtService := NewKubeturboService vmtConfig in
          _ <~ emit (go_startHttp s) ;;
          _ <~ emit (glog (V 2) "No leader election") ;;
          _ <~ emit (vmtService_Run vmtService) ;;
          halt Forever
      end
  end.

End Run.

Arguments fields {ConfigFields} c.
Arguments QPS {ConfigFields} c.
Arguments Burst {ConfigFields} c.
Arguments glog {ConfigFields KubeturboService} l msg.
Arguments flag_SetPath {ConfigFields KubeturboService} path.
Arguments kubeturbo_ParseK8sTAPServiceSpec {ConfigFields KubeturboService} path.
Arguments clientcmd_BuildConfigFromFlags {ConfigFields KubeturboService}
  masterUrl kubeconfigPath.
Arguments kubernetes_NewForConfig {ConfigFields KubeturboService} c.
Arguments go_startHttp {ConfigFields KubeturboService} s.
Arguments vmtService_Run {ConfigFields KubeturboService} vmtService.
Arguments http_ListenAndServe {ConfigFields KubeturboService} addr mux.

(** The configuration that [createKubeClient] hands to the client library:
    the one it was given, with the two rates overwritten. *)
Definition with_rates {ConfigFields : Type} (c : Config ConfigFields)
  : Config ConfigFields :=
  {| fields := fields c; QPS := Float32.of_dyadic 20 0; Burst := 30 |}.

End Server.

(** ** Sample servers *)

(** Stand-ins for the other packages, and two servers, to run the routines
    on. *)
Module ServerExamples.
Import Server.

Definition ParseIP (a : string) : option string :=
  if (a =? "127.0.0.1")%string then Some a else None.

Definition stitching_IP : string := "IP".
Definition stitching_UUID : string := "UUID".

Definition BuildConfigFromFlags (masterUrl kubeconfigPath : string)
  : Config string + string :=
  if ((masterUrl =? "") && (kubeconfigPath =? ""))%string
  then inr "no configuration has been provided"%string
  else inl {| fields := (masterUrl ++ kubeconfigPath)%string; QPS := 0; Burst := 0 |}.

Definition NewForConfig (c : Config string) : Config string + string := inl c.

Definition ParseK8sTAPServiceSpec (path : string) : string + string :=
  if (path =? "")%string then inr "open : no such file or directory"%string
  else inl path.

Definition VMTConfig : Type :=
  Config string * ProbeConfig string * string * option unit.

Definition NewVMTConfig (c : Config string) (p : ProbeConfig string) (b : unit)
  (spec : string) : VMTConfig := (c, p, spec, None).

Definition set_Recorder (c : VMTConfig) (r : unit) : VMTConfig :=
  let '(k, p, spec, _) := c in (k, p, spec, Some r).

Definition Run (s : VMTServer) : M string VMTConfig (option string) :=
  Server.Run string ParseIP string stitching_IP stitching_UUID
    string (Config string) BuildConfigFromFlags NewForConfig
    string ParseK8sTAPServiceSpec unit tt unit (fun _ => tt)
    VMTConfig NewVMTConfig set_Recorder (fun _ => "&{...}"%string)
    VMTConfig (fun c => c) s.

(** A server as the command line [--master https://10.0.0.1:6443
    --turboconfig /etc/kubeturbo/config --usevmware] leaves it. *)
Definition server1 : VMTServer :=
  {| Port := KubeturboPort;
     Address := "127.0.0.1";
     Master := "https://10.0.0.1:6443";
     K8sTAPSpec := "/etc/kubeturbo/config";
     TestingFlagPath := "";
     KubeConfig := "";
     BindPodsQPS := 0;
     BindPodsBurst := 0;
     CAdvisorPort := K8sCadvisorPort;
     EnableProfiling := false;
     UseVMWare := true |}.

(** A server given a host name where an address is expected. *)
Definition server2 : VMTServer :=
  {| Port := KubeturboPort;
     Address := "localhost";
     Master := "";
     K8sTAPSpec := "/etc/kubeturbo/config";
     TestingFlagPath := "/tmp/testing";
     KubeConfig := "";
     BindPodsQPS := 0;
     BindPodsBurst := 0;
     CAdvisorPort := 0;
     EnableProfiling := true;
     UseVMWare := false |}.

End ServerExamples.
(** * Properties *)

(** ** Bytes and integer conversions *)

Lemma Z_of_byte_range (b : byte) : 0 <= Z_of_byte b < 256.
Proof.
  unfold Z_of_byte. pose proof (Byte.to_N_bounded b). lia.
Qed.

Lemma Z_of_byte_uint8 (x : Z) : Z_of_byte (uint8 x) = x mod 256.
Proof.
  unfold Z_of_byte, uint8.
  assert (Hr : 0 <= x mod 256 < 256) by (apply Z.mod_pos_bound; lia).
  destruct (Byte.of_N (Z.to_N (x mod 256))) as [b|] eqn:E.
  - apply Byte.to_of_N in E. rewrite E. lia.
  - apply Byte.of_N_None_iff in E. lia.
Qed.

Lemma Z_of_byte_uint8_small (x : Z) : 0 <= x < 256 -> Z_of_byte (uint8 x) = x.
Proof.
  intros H. rewrite Z_of_byte_uint8. apply Z.mod_small. exact H.
Qed.

Lemma uint8_Z_of_byte (b : byte) : uint8 (Z_of_byte b) = b.
Proof.
  unfold uint8. rewrite Z.mod_small by apply Z_of_byte_range.
  unfold Z_of_byte. rewrite N2Z.id. now rewrite Byte.of_to_N.
Qed.

Lemma uint64_small (x : Z) : 0 <= x < 2 ^ 64 -> uint64 x = x.
Proof. intros H. unfold uint64. now apply Z.mod_small. Qed.

Lemma uint64_range (x : Z) : 0 <= uint64 x < 2 ^ 64.
Proof. unfold uint64. apply Z.mod_pos_bound. lia. Qed.

Lemma int32_uint64 (x : Z) : - 2 ^ 31 <= x < 2 ^ 31 -> int32 (uint64 x) = x.
Proof.
  intros H. unfold int32, uint64.
  destruct (Z.ltb_spec x 0) as [Hneg|Hpos].
  - replace (x mod 2 ^ 64) with (x + 2 ^ 64).
    + replace (x + 2 ^ 64 + 2 ^ 31) with (x + 2 ^ 31 + 2 ^ 32 * 2 ^ 32) by lia.
      rewrite Z.mod_add by lia. rewrite Z.mod_small; lia.
    + apply Z.mod_unique with (q := -1); lia.
  - rewrite (Z.mod_small x) by lia. rewrite Z.mod_small; lia.
Qed.

(** Splitting a number into its low seven bits and the rest. *)
Lemma split_low7 (x : Z) :
  Z.lor (Z.land x 127) (Z.shiftl (Z.shiftr x 7) 7) = x.
Proof.
  apply Z.bits_inj'. intros i Hi.
  rewrite Z.lor_spec, Z.land_spec.
  change 127 with (Z.ones 7).
  destruct (Z.ltb_spec i 7) as [Hlt|Hge].
  - rewrite Z.ones_spec_low by lia. rewrite Z.shiftl_spec_low by lia.
    now rewrite andb_true_r, orb_false_r.
  - rewrite Z.ones_spec_high by lia. rewrite Z.shiftl_spec by lia.
    rewrite Z.shiftr_spec by lia. rewrite andb_false_r. simpl.
    f_equal. lia.
Qed.

Lemma land127_range (x : Z) : 0 <= Z.land x 127 < 128.
Proof.
  change 127 with (Z.ones 7). rewrite Z.land_ones by lia.
  apply Z.mod_pos_bound. lia.
Qed.

Lemma land127_le (x : Z) : 0 <= x -> Z.land x 127 <= x.
Proof.
  intros H. change 127 with (Z.ones 7). rewrite Z.land_ones by lia.
  apply Z.mod_le; lia.
Qed.

Lemma lor_land127_128 (x : Z) : Z.lor (Z.land x 127) 128 = Z.land x 127 + 128.
Proof.
  assert (H : Z.land (Z.land x 127) 128 = 0).
  { rewrite <- Z.land_assoc. change (Z.land 127 128) with 0. apply Z.land_0_r. }
  rewrite <- Z.lxor_lor by exact H. symmetry. now apply Z.add_nocarry_lxor.
Qed.

(** ** Varints *)

Module WireFacts.
Import Wire.

Lemma DecodeVarint_loop_Encode (n : nat) :
  forall (x shift acc : Z) (dn : nat) (rest : list byte),
    0 <= x < 2 ^ (7 * Z.of_nat n + 7) ->
    0 <= shift ->
    x * 2 ^ shift < 2 ^ 64 ->
    (n < dn)%nat ->
    DecodeVarint_loop dn shift acc (EncodeVarint_loop n x ++ rest)
    = Ok (Z.lor acc (Z.shiftl x shift), rest).
Proof.
  assert (Hlast : forall x shift acc dn rest,
             0 <= x < 128 -> 0 <= shift -> x * 2 ^ shift < 2 ^ 64 ->
             DecodeVarint_loop (S dn) shift acc (uint8 x :: rest)
             = Ok (Z.lor acc (Z.shiftl x shift), rest)).
  { intros x shift acc dn rest Hx Hs Hb. simpl.
    rewrite Z_of_byte_uint8_small by lia.
    destruct (Z.ltb_spec x 128); [ | lia ].
    change 127 with (Z.ones 7). rewrite Z.land_ones by lia.
    rewrite (Z.mod_small x) by lia.
    rewrite uint64_small; [ reflexivity | ].
    rewrite Z.shiftl_mul_pow2 by lia. nia. }
  induction n as [|n IH]; intros x shift acc dn rest Hx Hs Hb Hn.
  - destruct dn as [|dn]; [ lia | ].
    simpl EncodeVarint_loop. simpl app. apply Hlast; try lia.
  - destruct dn as [|dn]; [ lia | ].
    simpl EncodeVarint_loop.
    destruct (Z.leb_spec 128 x) as [Hbig|Hsmall].
    + cbn [app DecodeVarint_loop].
      pose proof (land127_range x) as Hl.
      pose proof (land127_le x ltac:(lia)) as Hle.
      rewrite Z_of_byte_uint8_small by (rewrite lor_land127_128; lia).
      rewrite lor_land127_128.
      destruct (Z.ltb_spec (Z.land x 127 + 128) 128); [ lia | ].
      replace (Z.land (Z.land x 127 + 128) 127) with (Z.land x 127).
      2:{ rewrite <- lor_land127_128. rewrite Z.land_lor_distr_l.
          rewrite <- Z.land_assoc. change (Z.land 127 127) with 127.
          change (Z.land 128 127) with 0. now rewrite Z.lor_0_r. }
      assert (Hp : 0 < 2 ^ shift) by (apply Z.pow_pos_nonneg; lia).
      rewrite uint64_small.
      2:{ rewrite Z.shiftl_mul_pow2 by lia. nia. }
      assert (Hsh : 0 <= Z.shiftr x 7 < 2 ^ (7 * Z.of_nat n + 7)).
      { rewrite Z.shiftr_div_pow2 by lia. split.
        - apply Z.div_pos; lia.
        - apply Z.div_lt_upper_bound; [ lia | ].
          rewrite <- Z.pow_add_r by lia.
          replace (7 + (7 * Z.of_nat n + 7)) with (7 * Z.of_nat (S n) + 7) by lia.
          lia. }
      rewrite IH; try lia.
      * f_equal. f_equal. rewrite <- Z.lor_assoc. f_equal.
        replace (shift + 7) with (7 + shift) by lia.
        rewrite <- Z.shiftl_shiftl by lia.
        rewrite <- Z.shiftl_lor. now rewrite split_low7.
      * rewrite Z.shiftr_div_pow2 by lia.
        rewrite Z.pow_add_r by lia.
        assert (x / 2 ^ 7 * 2 ^ 7 <= x).
        { rewrite Z.mul_comm. apply Z.mul_div_le. lia. }
        nia.
    + simpl app. apply Hlast; lia.
Qed.

Lemma DecodeVarint_EncodeVarint (x : Z) (rest : list byte) :
  DecodeVarint (EncodeVarint x ++ rest) = Ok (uint64 x, rest).
Proof.
  unfold DecodeVarint, EncodeVarint.
  pose proof (uint64_range x) as Hr.
  rewrite DecodeVarint_loop_Encode; try lia.
  now rewrite Z.shiftl_0_r.
Qed.

Lemma EncodeVarint_loop_nonempty (n : nat) (x : Z) : EncodeVarint_loop n x <> [].
Proof.
  destruct n; simpl; [ discriminate | ]. destruct (128 <=? x); discriminate.
Qed.

Lemma DecodeVarint_loop_suffix (n : nat) :
  forall shift acc b u b',
    DecodeVarint_loop n shift acc b = Ok (u, b') ->
    exists pre, b = pre ++ b' /\ pre <> [].
Proof.
  induction n as [|n IH]; intros shift acc b u b' H; simpl in H.
  - discriminate.
  - destruct b as [|c b]; [ discriminate | ].
    destruct (Z_of_byte c <? 128).
    + inversion H; subst. exists [c]. split; [ reflexivity | discriminate ].
    + apply IH in H. destruct H as [pre [-> _]].
      exists (c :: pre). split; [ reflexivity | discriminate ].
Qed.

Lemma DecodeVarint_suffix (b : list byte) (u : Z) (b' : list byte) :
  DecodeVarint b = Ok (u, b') -> exists pre, b = pre ++ b' /\ pre <> [].
Proof. apply DecodeVarint_loop_suffix. Qed.

(** ** Fixed-width and length-delimited payloads *)

Lemma byte_at_spec (x k i : Z) :
  0 <= k -> 0 <= i ->
  Z.testbit (Z.shiftl (Z_of_byte (uint8 (Z.shiftr x k))) k) i
  = Z.testbit x i && (k <=? i) && (i <? k + 8).
Proof.
  intros Hk Hi. rewrite Z_of_byte_uint8.
  change 256 with (2 ^ 8). rewrite <- Z.land_ones by lia.
  destruct (Z.leb_spec k i) as [Hle|Hlt].
  - rewrite Z.shiftl_spec by lia. rewrite Z.land_spec.
    rewrite Z.shiftr_spec by lia. replace (i - k + k) with i by lia.
    destruct (Z.ltb_spec i (k + 8)).
    + rewrite Z.ones_spec_low by lia. now rewrite !andb_true_r.
    + rewrite Z.ones_spec_high by lia. now rewrite !andb_false_r.
  - rewrite Z.shiftl_spec_low by lia. now rewrite andb_false_r.
Qed.

Lemma DecodeFixed32_EncodeFixed32 (x : Z) (rest : list byte) :
  0 <= x < 2 ^ 32 ->
  DecodeFixed32 (EncodeFixed32 x ++ rest) = Ok (x, rest).
Proof.
  intros Hx. unfold EncodeFixed32, DecodeFixed32. cbn [app].
  f_equal. f_equal.
  apply Z.bits_inj'. intros i Hi.
  rewrite !Z.lor_spec.
  rewrite <- (Z.shiftl_0_r (Z_of_byte (uint8 x))).
  rewrite <- (Z.shiftr_0_r x) at 1.
  rewrite !byte_at_spec by lia.
  destruct (Z.ltb_spec i 32) as [Hlt|Hge].
  - destruct (Z.testbit x i); [ | reflexivity ]. cbn [andb].
    destruct (Z.leb_spec 0 i), (Z.ltb_spec i (0 + 8)), (Z.leb_spec 8 i),
      (Z.ltb_spec i (8 + 8)), (Z.leb_spec 16 i), (Z.ltb_spec i (16 + 8)),
      (Z.leb_spec 24 i), (Z.ltb_spec i (24 + 8)); try reflexivity; lia.
  - assert (Hz : Z.testbit x i = false).
    { destruct (Z.eq_dec x 0) as [->|Hn]; [ apply Z.bits_0 | ].
      apply Z.bits_above_log2; [ lia | ].
      assert (Z.log2 x < 32) by (apply Z.log2_lt_pow2; lia). lia. }
    rewrite Hz. reflexivity.
Qed.

Lemma DecodeFixed32_suffix (b : list byte) (x : Z) (b' : list byte) :
  DecodeFixed32 b = Ok (x, b') -> exists pre, b = pre ++ b' /\ pre <> [].
Proof.
  unfold DecodeFixed32. intros H.
  destruct b as [|b0 [|b1 [|b2 [|b3 r]]]]; try discriminate.
  inversion H; subst. exists [b0; b1; b2; b3]. split; [ reflexivity | discriminate ].
Qed.

Lemma DecodeRawBytes_EncodeRawBytes (s rest : list byte) :
  Z.of_nat (length s) < 2 ^ 64 ->
  DecodeRawBytes (EncodeRawBytes s ++ rest) = Ok (s, rest).
Proof.
  intros Hs. unfold DecodeRawBytes, EncodeRawBytes.
  rewrite <- app_assoc, DecodeVarint_EncodeVarint. cbn [bind].
  rewrite uint64_small by lia.
  rewrite length_app.
  destruct (Z.leb_spec (Z.of_nat (length s)) (Z.of_nat (length s + length rest)));
    [ | lia ].
  rewrite Nat2Z.id.
  rewrite firstn_app, Nat.sub_diag, firstn_all. cbn [firstn].
  rewrite skipn_app, Nat.sub_diag, skipn_all. cbn [skipn].
  now rewrite app_nil_r.
Qed.

Lemma DecodeRawBytes_suffix (b s b' : list byte) :
  DecodeRawBytes b = Ok (s, b') -> exists pre, b = pre ++ b' /\ pre <> [].
Proof.
  unfold DecodeRawBytes. intros H.
  destruct (DecodeVarint b) as [[n b1]|e] eqn:E; [ | discriminate ].
  cbn [bind] in H.
  destruct (n <=? Z.of_nat (length b1)); [ | discriminate ].
  inversion H; subst.
  apply DecodeVarint_suffix in E. destruct E as [pre [-> Hne]].
  exists (pre ++ firstn (Z.to_nat n) b1). split.
  - now rewrite <- app_assoc, firstn_skipn.
  - destruct pre; [ contradiction | discriminate ].
Qed.

(** What a decoder leaves is a proper suffix of what it was given; the raw
    bytes of the field are the difference. *)
Lemma suffix_length (pre b' : list byte) :
  pre <> [] -> (length b' < length (pre ++ b'))%nat.
Proof.
  intros H. rewrite length_app. destruct pre; [ contradiction | simpl; lia ].
Qed.

Lemma firstn_suffix (pre b' : list byte) :
  firstn (length (pre ++ b') - length b') (pre ++ b') = pre.
Proof.
  rewrite length_app. replace (length pre + length b' - length b')%nat
    with (length pre) by lia.
  rewrite firstn_app, Nat.sub_diag, firstn_all. cbn [firstn]. apply app_nil_r.
Qed.

End WireFacts.

(** ** The decoding loop *)

Module LoopFacts.
Import Wire Codec Stream WireFacts.

Lemma skip_suffix (tag wire : Z) (b b' : list byte) :
  skip tag wire b = Ok b' -> exists pre, b = pre ++ b' /\ pre <> [].
Proof.
  unfold skip. intros H.
  destruct (wire =? WireVarint).
  { destruct (DecodeVarint b) as [[u b1]|e] eqn:E; [ | discriminate ].
    cbn [bind] in H. inversion H; subst. eapply DecodeVarint_suffix; eauto. }
  destruct (wire =? WireFixed32).
  { destruct (DecodeFixed32 b) as [[u b1]|e] eqn:E; [ | discriminate ].
    cbn [bind] in H. inversion H; subst. eapply DecodeFixed32_suffix; eauto. }
  destruct (wire =? WireBytes); [ | discriminate ].
  destruct (DecodeRawBytes b) as [[u b1]|e] eqn:E; [ | discriminate ].
  cbn [bind] in H. inversion H; subst. eapply DecodeRawBytes_suffix; eauto.
Qed.

Lemma fields_loop_fuel (n : nat) :
  forall fuel1 fuel2 b,
    (length b <= n)%nat -> (n <= fuel1)%nat -> (n <= fuel2)%nat ->
    fields_loop fuel1 b = fields_loop fuel2 b.
Proof.
  induction n as [|n IH]; intros fuel1 fuel2 b Hb H1 H2.
  - destruct b; [ | simpl in Hb; lia ]. now destruct fuel1, fuel2.
  - destruct b as [|c b]; [ now destruct fuel1, fuel2 | ].
    destruct fuel1 as [|fuel1]; [ lia | ]. destruct fuel2 as [|fuel2]; [ lia | ].
    cbn [fields_loop].
    destruct (DecodeVarint (c :: b)) as [[u b1]|e] eqn:E; [ | reflexivity ].
    destruct (skip (Z.shiftr u 3) (Z.land u 7) b1) as [b2|e] eqn:E2; [ | reflexivity ].
    f_equal. apply IH; try lia.
    apply DecodeVarint_suffix in E. destruct E as [p1 [E Hp1]].
    apply skip_suffix in E2. destruct E2 as [p2 [-> Hp2]].
    apply (f_equal (@length byte)) in E. rewrite !length_app in E.
    simpl in E, Hb. destruct p1; [ contradiction | simpl in E; lia ].
Qed.

Lemma fields_nil : fields [] = [].
Proof. reflexivity. Qed.

Lemma fields_step (b : list byte) (u : Z) (b1 b2 : list byte) :
  DecodeVarint b = Ok (u, b1) ->
  skip (Z.shiftr u 3) (Z.land u 7) b1 = Ok b2 ->
  fields b
  = Field (Z.shiftr u 3) (Z.land u 7) b1 (firstn (length b - length b2) b)
    :: fields b2.
Proof.
  intros E E2. unfold fields.
  destruct b as [|c b]; [ discriminate | ].
  cbn [length fields_loop]. rewrite E, E2. f_equal.
  apply fields_loop_fuel with (n := length b2); try lia.
  apply DecodeVarint_suffix in E. destruct E as [p1 [E Hp1]].
  apply skip_suffix in E2. destruct E2 as [p2 [-> Hp2]].
  apply (f_equal (@length byte)) in E. rewrite !length_app in E.
  simpl in E. destruct p1; [ contradiction | simpl in E; lia ].
Qed.

Lemma fields_stop_key (b : list byte) (e : error) :
  DecodeVarint b = Err e -> fields b = [].
Proof.
  intros E. unfold fields. destruct b; [ reflexivity | ].
  cbn [length fields_loop]. now rewrite E.
Qed.

Lemma fields_stop_skip (b : list byte) (u : Z) (b1 : list byte) (e : error) :
  DecodeVarint b = Ok (u, b1) ->
  skip (Z.shiftr u 3) (Z.land u 7) b1 = Err e ->
  fields b = [].
Proof.
  intros E E2. unfold fields. destruct b; [ reflexivity | ].
  cbn [length fields_loop]. now rewrite E, E2.
Qed.

Section Loop.
Variable M : Type.
Variable dec : M -> Z -> Z -> list byte -> option (M * list byte * option error).
Variable save : M -> list byte -> M.

(** A field decoder only consumes input. *)
Hypothesis dec_suffix :
  forall m tag wire b m' b',
    dec m tag wire b = Some (m', b', None) -> exists pre, b = pre ++ b'.

Lemma unmarshalType_fuel_eq (n : nat) :
  forall fuel1 fuel2 m b,
    (length b <= n)%nat -> (n <= fuel1)%nat -> (n <= fuel2)%nat ->
    unmarshalType dec save fuel1 m b = unmarshalType dec save fuel2 m b.
Proof.
  induction n as [|n IH]; intros fuel1 fuel2 m b Hb H1 H2.
  - destruct b; [ | simpl in Hb; lia ]. now destruct fuel1, fuel2.
  - destruct b as [|c b]; [ now destruct fuel1, fuel2 | ].
    destruct fuel1 as [|fuel1]; [ lia | ]. destruct fuel2 as [|fuel2]; [ lia | ].
    cbn [unmarshalType].
    destruct (DecodeVarint (c :: b)) as [[u b1]|e] eqn:E; [ | reflexivity ].
    apply DecodeVarint_suffix in E. destruct E as [p1 [E Hp1]].
    assert (Hb1 : (length b1 <= n)%nat).
    { apply (f_equal (@length byte)) in E. rewrite length_app in E.
      simpl in E, Hb. destruct p1; [ contradiction | simpl in E; lia ]. }
    destruct (dec m (Z.shiftr u 3) (Z.land u 7) b1) as [[[m' b2] [e|]]|] eqn:D.
    + reflexivity.
    + apply dec_suffix in D. destruct D as [p2 ->].
      rewrite length_app in Hb1. apply IH; lia.
    + destruct (skip (Z.shiftr u 3) (Z.land u 7) b1) as [b2|e] eqn:E2;
        [ | reflexivity ].
      apply skip_suffix in E2. destruct E2 as [p2 [-> Hp2]].
      rewrite length_app in Hb1. apply IH; lia.
Qed.

(** With the length of the input as fuel the loop has all the rounds it can
    take: more fuel changes nothing. *)
Lemma unmarshalType_fuel (fuel : nat) (m : M) (b : list byte) :
  (length b <= fuel)%nat -> unmarshalType dec save fuel m b = run dec save m b.
Proof.
  intros H. unfold run. apply unmarshalType_fuel_eq with (n := length b); lia.
Qed.

Lemma run_nil (m : M) : run dec save m [] = (m, None).
Proof. reflexivity. Qed.

Lemma run_key_error (m : M) (b : list byte) (e : error) :
  b <> [] -> DecodeVarint b = Err e -> run dec save m b = (m, Some e).
Proof.
  intros Hb E. unfold run. destruct b; [ contradiction | ].
  cbn [length unmarshalType]. now rewrite E.
Qed.

Lemma run_step (m : M) (b : list byte) (u : Z) (b1 : list byte) :
  DecodeVarint b = Ok (u, b1) ->
  run dec save m b =
  match dec m (Z.shiftr u 3) (Z.land u 7) b1 with
  | Some (m', b2, None) => run dec save m' b2
  | Some (m', _, Some e) => (m', Some e)
  | None =>
      match skip (Z.shiftr u 3) (Z.land u 7) b1 with
      | Err e => (m, Some e)
      | Ok b2 => run dec save (save m (firstn (length b - length b2) b)) b2
      end
  end.
Proof.
  intros E. unfold run at 1. destruct b as [|c b]; [ discriminate | ].
  cbn [length unmarshalType]. rewrite E.
  pose proof E as E'. apply DecodeVarint_suffix in E'. destruct E' as [p1 [E' Hp1]].
  assert (Hb1 : (length b1 <= length b)%nat).
  { apply (f_equal (@length byte)) in E'. rewrite length_app in E'.
    simpl in E'. destruct p1; [ contradiction | simpl in E'; lia ]. }
  destruct (dec m (Z.shiftr u 3) (Z.land u 7) b1) as [[[m' b2] [e|]]|] eqn:D.
  - reflexivity.
  - apply unmarshalType_fuel. apply dec_suffix in D. destruct D as [p2 ->].
    rewrite length_app in Hb1. lia.
  - destruct (skip (Z.shiftr u 3) (Z.land u 7) b1) as [b2|e] eqn:E2;
      [ | reflexivity ].
    apply unmarshalType_fuel. apply skip_suffix in E2.
    destruct E2 as [p2 [-> Hp2]]. rewrite length_app in Hb1. lia.
Qed.

(** *** One encoded field, decoded *)

Lemma fits_lt (s : list byte) : Valid.fits s = true -> Z.of_nat (length s) < 2 ^ 64.
Proof. unfold Valid.fits. intros H. apply Z.ltb_lt in H. lia. Qed.

Lemma uint64_idem (x : Z) : uint64 (uint64 x) = uint64 x.
Proof. apply uint64_small. apply uint64_range. Qed.

Lemma run_enc_bytes (tag : Z) (set : gostring -> M) (m : M) (o : option gostring)
  (rest : list byte) (m' : M) :
  key_ok tag WireBytes ->
  (forall b, dec m tag WireBytes b = Some (dec_bytes tag WireBytes set m b)) ->
  Valid.opt Valid.fits o = true ->
  m' = match o with Some s => set s | None => m end ->
  run dec save m (enc_bytes tag o ++ rest) = run dec save m' rest.
Proof.
  intros [Kt Kw] Hdec Hv ->. destruct o as [s|]; [ | reflexivity ].
  cbn [enc_bytes Valid.opt] in *. rewrite <- app_assoc.
  erewrite run_step by apply DecodeVarint_EncodeVarint.
  rewrite Kt, Kw, Hdec. unfold dec_bytes. rewrite Z.eqb_refl.
  rewrite DecodeRawBytes_EncodeRawBytes by now apply fits_lt.
  reflexivity.
Qed.

Lemma run_enc_int32 (tag : Z) (set : Z -> M) (m : M) (o : option Z)
  (rest : list byte) (m' : M) :
  key_ok tag WireVarint ->
  (forall b, dec m tag WireVarint b = Some (dec_int32 tag WireVarint set m b)) ->
  Valid.opt Valid.is_int32b o = true ->
  m' = match o with Some x => set x | None => m end ->
  run dec save m (enc_int32 tag o ++ rest) = run dec save m' rest.
Proof.
  intros [Kt Kw] Hdec Hv ->. destruct o as [x|]; [ | reflexivity ].
  cbn [enc_int32 Valid.opt] in *. rewrite <- app_assoc.
  erewrite run_step by apply DecodeVarint_EncodeVarint.
  rewrite Kt, Kw, Hdec. unfold dec_int32. rewrite Z.eqb_refl.
  rewrite DecodeVarint_EncodeVarint.
  rewrite uint64_idem.
  rewrite int32_uint64; [ reflexivity | ].
  unfold Valid.is_int32b in Hv. apply andb_prop in Hv. destruct Hv as [H1 H2].
  apply Z.leb_le in H1. apply Z.ltb_lt in H2. lia.
Qed.

Lemma run_enc_bool (tag : Z) (set : bool -> M) (m : M) (o : option bool)
  (rest : list byte) (m' : M) :
  key_ok tag WireVarint ->
  (forall b, dec m tag WireVarint b = Some (dec_bool tag WireVarint set m b)) ->
  m' = match o with Some x => set x | None => m end ->
  run dec save m (enc_bool tag o ++ rest) = run dec save m' rest.
Proof.
  intros [Kt Kw] Hdec ->. destruct o as [x|]; [ | reflexivity ].
  cbn [enc_bool] in *. rewrite <- app_assoc.
  erewrite run_step by apply DecodeVarint_EncodeVarint.
  rewrite Kt, Kw, Hdec. unfold dec_bool. rewrite Z.eqb_refl.
  rewrite DecodeVarint_EncodeVarint. now destruct x.
Qed.

Lemma run_enc_float32 (tag : Z) (set : float32 -> M) (m : M) (o : option float32)
  (rest : list byte) (m' : M) :
  key_ok tag WireFixed32 ->
  (forall b, dec m tag WireFixed32 b = Some (dec_float32 tag WireFixed32 set m b)) ->
  Valid.opt Valid.is_float32b o = true ->
  m' = match o with Some x => set x | None => m end ->
  run dec save m (enc_float32 tag o ++ rest) = run dec save m' rest.
Proof.
  intros [Kt Kw] Hdec Hv ->. destruct o as [x|]; [ | reflexivity ].
  cbn [enc_float32 Valid.opt] in *. rewrite <- app_assoc.
  erewrite run_step by apply DecodeVarint_EncodeVarint.
  rewrite Kt, Kw, Hdec. unfold dec_float32. rewrite Z.eqb_refl.
  rewrite DecodeFixed32_EncodeFixed32; [ reflexivity | ].
  unfold Valid.is_float32b in Hv. apply andb_prop in Hv. destruct Hv as [H1 H2].
  apply Z.leb_le in H1. apply Z.ltb_lt in H2. lia.
Qed.

(** A repeated field: the elements are appended in the order met. *)
Lemma run_enc_repeated_bytes (tag : Z) (mk : list gostring -> M) (l : list gostring) :
  key_ok tag WireBytes ->
  (forall acc b,
      dec (mk acc) tag WireBytes b
      = Some (dec_bytes tag WireBytes (fun v => mk (acc ++ [v])) (mk acc) b)) ->
  forallb Valid.fits l = true ->
  forall acc rest,
    run dec save (mk acc) (enc_repeated_bytes tag l ++ rest)
    = run dec save (mk (acc ++ l)) rest.
Proof.
  intros [Kt Kw] Hdec. induction l as [|s l IH]; intros Hv acc rest.
  - now rewrite app_nil_r.
  - cbn [forallb] in Hv. apply andb_prop in Hv. destruct Hv as [Hs Hl].
    unfold enc_repeated_bytes. cbn [flat_map]. rewrite <- !app_assoc.
    erewrite run_step by apply DecodeVarint_EncodeVarint.
    rewrite Kt, Kw, Hdec. unfold dec_bytes. rewrite Z.eqb_refl.
    rewrite DecodeRawBytes_EncodeRawBytes by now apply fits_lt.
    fold (enc_repeated_bytes tag l). rewrite IH by exact Hl.
    now rewrite <- app_assoc.
Qed.

Lemma run_enc_repeated_message {A : Type} (tag : Z) (marshal : A -> list byte)
  (unmarshal : list byte -> A * option error) (valid : A -> bool)
  (mk : list A -> M) (l : list A) :
  key_ok tag WireBytes ->
  (forall acc b,
      dec (mk acc) tag WireBytes b
      = Some (dec_message tag WireBytes unmarshal
                (fun v => mk (acc ++ [v])) (mk acc) b)) ->
  (forall x, valid x = true -> unmarshal (marshal x) = (x, None)) ->
  forallb (fun x => valid x && Valid.fits (marshal x)) l = true ->
  forall acc rest,
    run dec save (mk acc) (enc_repeated_message marshal tag l ++ rest)
    = run dec save (mk (acc ++ l)) rest.
Proof.
  intros [Kt Kw] Hdec Hrt. induction l as [|x l IH]; intros Hv acc rest.
  - now rewrite app_nil_r.
  - cbn [forallb] in Hv. apply andb_prop in Hv. destruct Hv as [Hx Hl].
    apply andb_prop in Hx. destruct Hx as [Hx Hf].
    unfold enc_repeated_message. cbn [flat_map]. rewrite <- !app_assoc.
    erewrite run_step by apply DecodeVarint_EncodeVarint.
    rewrite Kt, Kw, Hdec. unfold dec_message. rewrite Z.eqb_refl.
    rewrite DecodeRawBytes_EncodeRawBytes by now apply fits_lt.
    rewrite (Hrt x Hx).
    fold (enc_repeated_message marshal tag l). rewrite IH by exact Hl.
    now rewrite <- app_assoc.
Qed.

(** *** Unknown fields *)

Lemma run_unknown (known : Z -> bool) :
  (forall m tag wire b, known tag = false -> dec m tag wire b = None) ->
  (forall m, save m [] = m) ->
  (forall m a b, save (save m a) b = save m (a ++ b)) ->
  forall u m, unknown_only known u = true -> run dec save m u = (save m u, None).
Proof.
  intros Hdec Hnil Happ u.
  remember (length u) as n eqn:Hn.
  assert (Hle : (length u <= n)%nat) by lia. clear Hn.
  revert u Hle. induction n as [|n IH]; intros u Hle m Hu.
  - destruct u; [ | simpl in Hle; lia ]. now rewrite run_nil, Hnil.
  - destruct u as [|c u]; [ now rewrite run_nil, Hnil | ].
    unfold unknown_only in Hu. apply andb_prop in Hu. destruct Hu as [Hall Hlen].
    apply Nat.eqb_eq in Hlen.
    destruct (DecodeVarint (c :: u)) as [[k b1]|e] eqn:E.
    2:{ rewrite (fields_stop_key _ _ E) in Hlen. discriminate. }
    destruct (skip (Z.shiftr k 3) (Z.land k 7) b1) as [b2|e] eqn:E2.
    2:{ rewrite (fields_stop_skip _ _ _ _ E E2) in Hlen. discriminate. }
    rewrite (fields_step _ _ _ _ E E2) in Hall, Hlen.
    cbn [forallb map concat field_tag field_raw] in Hall, Hlen.
    apply andb_prop in Hall. destruct Hall as [Hk Hall].
    apply negb_true_iff in Hk.
    rewrite (run_step _ _ _ _ E), (Hdec _ _ _ _ Hk), E2.
    pose proof E as E'. apply DecodeVarint_suffix in E'. destruct E' as [p1 [E' Hp1]].
    pose proof E2 as E2'. apply skip_suffix in E2'. destruct E2' as [p2 [E2' Hp2]].
    subst b1. rewrite E' in *. rewrite app_assoc in *.
    rewrite firstn_suffix in *. rewrite length_app in Hlen.
    rewrite IH.
    + now rewrite Happ.
    + rewrite !length_app in Hle. destruct p1; [ contradiction | ].
      simpl in Hle. lia.
    + unfold unknown_only. rewrite Hall. cbn [andb]. apply Nat.eqb_eq.
      rewrite (length_app (p1 ++ p2)) in Hlen. lia.
Qed.

(** *** A successful decode, field by field *)

Lemma run_steps :
  (forall m tag wire b m' b',
      dec m tag wire b = Some (m', b', None) -> skip tag wire b = Ok b') ->
  forall b m m',
    run dec save m b = (m', None) -> steps dec save m (fields b) m'.
Proof.
  intros Hskip b.
  remember (length b) as n eqn:Hn.
  assert (Hle : (length b <= n)%nat) by lia. clear Hn.
  revert b Hle. induction n as [|n IH]; intros b Hle m m' Hrun.
  - destruct b; [ | simpl in Hle; lia ]. rewrite run_nil in Hrun.
    inversion Hrun; subst. constructor.
  - destruct b as [|c b].
    { rewrite run_nil in Hrun. inversion Hrun; subst. constructor. }
    destruct (DecodeVarint (c :: b)) as [[k b1]|e] eqn:E.
    2:{ rewrite (run_key_error m (c :: b) e) in Hrun;
        [ discriminate | discriminate | exact E ]. }
    rewrite (run_step _ _ _ _ E) in Hrun.
    assert (Hsmall : forall b2 pre, b1 = pre ++ b2 -> (length b2 <= n)%nat).
    { intros b2 pre ->. apply DecodeVarint_suffix in E. destruct E as [p1 [E Hp1]].
      apply (f_equal (@length byte)) in E. rewrite !length_app in E.
      simpl in E, Hle. destruct p1; [ contradiction | simpl in E; lia ]. }
    destruct (dec m (Z.shiftr k 3) (Z.land k 7) b1) as [[[m1 b2] [e|]]|] eqn:D.
    + discriminate.
    + pose proof (Hskip _ _ _ _ _ _ D) as E2.
      rewrite (fields_step _ _ _ _ E E2).
      eapply steps_field; [ exact D | ].
      destruct (dec_suffix _ _ _ _ _ _ D) as [pre Hpre].
      apply IH; [ eapply Hsmall; eauto | exact Hrun ].
    + destruct (skip (Z.shiftr k 3) (Z.land k 7) b1) as [b2|e] eqn:E2;
        [ | discriminate ].
      rewrite (fields_step _ _ _ _ E E2).
      eapply steps_unknown; [ exact D | ].
      destruct (skip_suffix _ _ _ _ E2) as [pre [Hpre _]].
      apply IH; [ eapply Hsmall; eauto | exact Hrun ].
Qed.

End Loop.
End LoopFacts.

(** ** The decoders of the five messages *)

Module DecoderFacts.
Import Wire Codec Stream Valid WireFacts LoopFacts.

(** What a payload decoder consumes is what [skip] would pass over. *)
Lemma dec_bytes_skip {M : Type} (tag wire : Z) (set : gostring -> M) (m m' : M)
  (b b' : list byte) :
  dec_bytes tag wire set m b = (m', b', None) -> skip tag wire b = Ok b'.
Proof.
  unfold dec_bytes, skip. destruct (Z.eqb_spec wire WireBytes) as [->|]; [ | discriminate ].
  cbn [WireBytes WireVarint WireFixed32 Z.eqb Pos.eqb].
  destruct (DecodeRawBytes b) as [[s b1]|e]; [ | discriminate ].
  intros H. now inversion H.
Qed.

Lemma dec_int32_skip {M : Type} (tag wire : Z) (set : Z -> M) (m m' : M)
  (b b' : list byte) :
  dec_int32 tag wire set m b = (m', b', None) -> skip tag wire b = Ok b'.
Proof.
  unfold dec_int32, skip. destruct (Z.eqb_spec wire WireVarint) as [->|]; [ | discriminate ].
  destruct (DecodeVarint b) as [[s b1]|e]; [ | discriminate ].
  intros H. now inversion H.
Qed.

Lemma dec_bool_skip {M : Type} (tag wire : Z) (set : bool -> M) (m m' : M)
  (b b' : list byte) :
  dec_bool tag wire set m b = (m', b', None) -> skip tag wire b = Ok b'.
Proof.
  unfold dec_bool, skip. destruct (Z.eqb_spec wire WireVarint) as [->|]; [ | discriminate ].
  destruct (DecodeVarint b) as [[s b1]|e]; [ | discriminate ].
  intros H. now inversion H.
Qed.

Lemma dec_float32_skip {M : Type} (tag wire : Z) (set : float32 -> M) (m m' : M)
  (b b' : list byte) :
  dec_float32 tag wire set m b = (m', b', None) -> skip tag wire b = Ok b'.
Proof.
  unfold dec_float32, skip. destruct (Z.eqb_spec wire WireFixed32) as [->|]; [ | discriminate ].
  cbn [WireBytes WireVarint WireFixed32 Z.eqb Pos.eqb].
  destruct (DecodeFixed32 b) as [[s b1]|e]; [ | discriminate ].
  intros H. now inversion H.
Qed.

Lemma dec_message_skip {M A : Type} (tag wire : Z)
  (unmarshal : list byte -> A * option error) (set : A -> M) (m m' : M)
  (b b' : list byte) :
  dec_message tag wire unmarshal set m b = (m', b', None) -> skip tag wire b = Ok b'.
Proof.
  unfold dec_message, skip. destruct (Z.eqb_spec wire WireBytes) as [->|]; [ | discriminate ].
  cbn [WireBytes WireVarint WireFixed32 Z.eqb Pos.eqb].
  destruct (DecodeRawBytes b) as [[s b1]|e]; [ | discriminate ].
  destruct (unmarshal s) as [x [e|]]; [ discriminate | ].
  intros H. now inversion H.
Qed.

Ltac dec_skip_cases :=
  repeat match goal with
    | |- context [if ?c then _ else _] => destruct c
    end;
  try discriminate;
  match goal with
  | |- Some _ = Some _ -> _ =>
      let H := fresh in
      intros H; injection H as H;
      first [ eapply dec_bytes_skip; exact H
            | eapply dec_int32_skip; exact H
            | eapply dec_bool_skip; exact H
            | eapply dec_float32_skip; exact H
            | eapply dec_message_skip; exact H ]
  end.

Lemma dec_VMProfileDTO_skip m tag wire b m' b' :
  dec_VMProfileDTO m tag wire b = Some (m', b', None) -> skip tag wire b = Ok b'.
Proof. destruct m. unfold dec_VMProfileDTO. dec_skip_cases. Qed.

Lemma dec_PMProfileDTO_skip m tag wire b m' b' :
  dec_PMProfileDTO m tag wire b = Some (m', b', None) -> skip tag wire b = Ok b'.
Proof. destruct m. unfold dec_PMProfileDTO. dec_skip_cases. Qed.

Lemma dec_CommodityProfileDTO_skip m tag wire b m' b' :
  dec_CommodityProfileDTO m tag wire b = Some (m', b', None) ->
  skip tag wire b = Ok b'.
Proof. destruct m. unfold dec_CommodityProfileDTO. dec_skip_cases. Qed.

Lemma skip_dec_suffix {M : Type}
  (dec : M -> Z -> Z -> list byte -> option (M * list byte * option error)) :
  (forall m tag wire b m' b',
      dec m tag wire b = Some (m', b', None) -> skip tag wire b = Ok b') ->
  forall m tag wire b m' b',
    dec m tag wire b = Some (m', b', None) -> exists pre, b = pre ++ b'.
Proof.
  intros H m tag wire b m' b' D. apply H in D. apply skip_suffix in D.
  destruct D as [pre [-> _]]. now exists pre.
Qed.

Lemma dec_VMProfileDTO_suffix m tag wire b m' b' :
  dec_VMProfileDTO m tag wire b = Some (m', b', None) -> exists pre, b = pre ++ b'.
Proof. apply skip_dec_suffix. exact dec_VMProfileDTO_skip. Qed.

Lemma dec_PMProfileDTO_suffix m tag wire b m' b' :
  dec_PMProfileDTO m tag wire b = Some (m', b', None) -> exists pre, b = pre ++ b'.
Proof. apply skip_dec_suffix. exact dec_PMProfileDTO_skip. Qed.

Lemma dec_CommodityProfileDTO_suffix m tag wire b m' b' :
  dec_CommodityProfileDTO m tag wire b = Some (m', b', None) ->
  exists pre, b = pre ++ b'.
Proof. apply skip_dec_suffix. exact dec_CommodityProfileDTO_skip. Qed.

(** A field number outside the schema has no decoder. *)
Ltac unknown_tag :=
  repeat match goal with
    | |- context [?t =? ?k] => destruct (Z.eqb_spec t k); [ exfalso; lia | ]
    end;
  reflexivity.

Lemma known_false (lo hi tag : Z) :
  (lo <=? tag) && (tag <=? hi) = false -> tag < lo \/ hi < tag.
Proof.
  intros H. apply andb_false_iff in H.
  destruct H as [H|H]; [ apply Z.leb_gt in H | apply Z.leb_gt in H ]; lia.
Qed.

Lemma dec_VMProfileDTO_unknown m tag wire b :
  known_VMProfileDTO tag = false -> dec_VMProfileDTO m tag wire b = None.
Proof.
  intros H. apply known_false in H. destruct m. unfold dec_VMProfileDTO. unknown_tag.
Qed.

Lemma dec_PMProfileDTO_unknown m tag wire b :
  known_PMProfileDTO tag = false -> dec_PMProfileDTO m tag wire b = None.
Proof.
  intros H. apply known_false in H. destruct m. unfold dec_PMProfileDTO. unknown_tag.
Qed.

Lemma dec_CommodityProfileDTO_unknown m tag wire b :
  known_CommodityProfileDTO tag = false -> dec_CommodityProfileDTO m tag wire b = None.
Proof.
  intros H. apply known_false in H. destruct m. unfold dec_CommodityProfileDTO.
  unknown_tag.
Qed.

(** ** Round trips of the nested messages *)

(** One step of a round trip: the next encoded field is decoded into the
    message [m'], which already holds the fields decoded so far. *)
Ltac field_step L Hsuf tag o m' :=
  erewrite (L _ _ _ Hsuf tag _ _ o _ m');
  [ | split; reflexivity | intro; reflexivity | try assumption
    | destruct o; reflexivity ].

Ltac bool_step Hsuf tag o m' :=
  erewrite (run_enc_bool _ _ _ Hsuf tag _ _ o _ m');
  [ | split; reflexivity | intro; reflexivity | destruct o; reflexivity ].

Ltac split_valid H :=
  repeat match type of H with
    | _ && _ = true =>
        let H1 := fresh "Hv" in
        apply andb_prop in H; destruct H as [H H1]
    end.

Lemma UnmarshalMerge_Marshal_VMProfileDTO (m : VMProfileDTO.t) :
  valid_VMProfileDTO m = true ->
  UnmarshalMerge_VMProfileDTO VMProfileDTO.new (Marshal_VMProfileDTO m) = (m, None).
Proof.
  destruct m as [f1 f2 f3 u]. unfold valid_VMProfileDTO. intros H.
  cbn [VMProfileDTO.NumVCPUs VMProfileDTO.VCPUSpeed VMProfileDTO.NumStorageConsumed
       VMProfileDTO.XXX_unrecognized] in H.
  split_valid H.
  unfold UnmarshalMerge_VMProfileDTO, unmarshalMerge, Marshal_VMProfileDTO,
    VMProfileDTO.new.
  cbn [VMProfileDTO.NumVCPUs VMProfileDTO.VCPUSpeed VMProfileDTO.NumStorageConsumed
       VMProfileDTO.XXX_unrecognized].
  field_step run_enc_int32 dec_VMProfileDTO_suffix 1 f1
    (VMProfileDTO.Build f1 None None []).
  field_step run_enc_float32 dec_VMProfileDTO_suffix 2 f2
    (VMProfileDTO.Build f1 f2 None []).
  field_step run_enc_int32 dec_VMProfileDTO_suffix 3 f3
    (VMProfileDTO.Build f1 f2 f3 []).
  erewrite run_unknown;
    [ reflexivity | exact dec_VMProfileDTO_suffix | exact dec_VMProfileDTO_unknown
    | intros []; cbn; now rewrite app_nil_r
    | intros [] ? ?; cbn; now rewrite app_assoc
    | assumption ].
Qed.

Lemma UnmarshalMerge_Marshal_PMProfileDTO (m : PMProfileDTO.t) :
  valid_PMProfileDTO m = true ->
  UnmarshalMerge_PMProfileDTO PMProfileDTO.new (Marshal_PMProfileDTO m) = (m, None).
Proof.
  destruct m as [f1 f2 u]. unfold valid_PMProfileDTO. intros H.
  cbn [PMProfileDTO.NumCores PMProfileDTO.CpuCoreSpeed
       PMProfileDTO.XXX_unrecognized] in H.
  split_valid H.
  unfold UnmarshalMerge_PMProfileDTO, unmarshalMerge, Marshal_PMProfileDTO,
    PMProfileDTO.new.
  cbn [PMProfileDTO.NumCores PMProfileDTO.CpuCoreSpeed PMProfileDTO.XXX_unrecognized].
  field_step run_enc_int32 dec_PMProfileDTO_suffix 1 f1
    (PMProfileDTO.Build f1 None []).
  field_step run_enc_float32 dec_PMProfileDTO_suffix 2 f2
    (PMProfileDTO.Build f1 f2 []).
  erewrite run_unknown;
    [ reflexivity | exact dec_PMProfileDTO_suffix | exact dec_PMProfileDTO_unknown
    | intros []; cbn; now rewrite app_nil_r
    | intros [] ? ?; cbn; now rewrite app_assoc
    | assumption ].
Qed.

Lemma UnmarshalMerge_Marshal_CommodityProfileDTO (m : CommodityProfileDTO.t) :
  valid_CommodityProfileDTO m = true ->
  UnmarshalMerge_CommodityProfileDTO CommodityProfileDTO.new
    (Marshal_CommodityProfileDTO m) = (m, None).
Proof.
  destruct m as [f1 f2 f3 f4 f5 f6 u]. unfold valid_CommodityProfileDTO. intros H.
  cbn [CommodityProfileDTO.CommodityType CommodityProfileDTO.Capacity
       CommodityProfileDTO.ConsumedFactor CommodityProfileDTO.Consumed
       CommodityProfileDTO.Reservation CommodityProfileDTO.Overhead
       CommodityProfileDTO.XXX_unrecognized] in H.
  split_valid H.
  unfold UnmarshalMerge_CommodityProfileDTO, unmarshalMerge,
    Marshal_CommodityProfileDTO, CommodityProfileDTO.new.
  cbn [CommodityProfileDTO.CommodityType CommodityProfileDTO.Capacity
       CommodityProfileDTO.ConsumedFactor CommodityProfileDTO.Consumed
       CommodityProfileDTO.Reservation CommodityProfileDTO.Overhead
       CommodityProfileDTO.XXX_unrecognized].
  field_step run_enc_int32 dec_CommodityProfileDTO_suffix 1 f1
    (CommodityProfileDTO.Build f1 None None None None None []).
  field_step run_enc_float32 dec_CommodityProfileDTO_suffix 2 f2
    (CommodityProfileDTO.Build f1 f2 None None None None []).
  field_step run_enc_float32 dec_CommodityProfileDTO_suffix 3 f3
    (CommodityProfileDTO.Build f1 f2 f3 None None None []).
  field_step run_enc_float32 dec_CommodityProfileDTO_suffix 4 f4
    (CommodityProfileDTO.Build f1 f2 f3 f4 None None []).
  field_step run_enc_float32 dec_CommodityProfileDTO_suffix 5 f5
    (CommodityProfileDTO.Build f1 f2 f3 f4 f5 None []).
  field_step run_enc_float32 dec_CommodityProfileDTO_suffix 6 f6
    (CommodityProfileDTO.Build f1 f2 f3 f4 f5 f6 []).
  erewrite run_unknown;
    [ | exact dec_CommodityProfileDTO_suffix | exact dec_CommodityProfileDTO_unknown
    | intros []; cbn; now rewrite app_nil_r
    | intros [] ? ?; cbn; now rewrite app_assoc
    | assumption ].
  destruct f1; [ reflexivity | discriminate ].
Qed.

(** ** EntityProfileDTO *)

Section EntityFacts.
Import EntityProfileDTO.
Variable EntityDTO_EntityProperty : Type.
Variable Marshal_EntityProperty : EntityDTO_EntityProperty -> list byte.
Variable UnmarshalMerge_EntityProperty :
  list byte -> EntityDTO_EntityProperty * option error.

(** The oneof unmarshaler on its two tags, with the length-delimited wire
    type: the union is overwritten with what [DecodeMessage] built, whatever
    it held and whatever the error. *)
Lemma OneofUnmarshaler_8 f1 f2 f3 f4 f5 f6 f7 o f10 f11 f12 u (b : list byte) :
  _EntityProfileDTO_OneofUnmarshaler EntityDTO_EntityProperty
    (Build f1 f2 f3 f4 f5 f6 f7 o f10 f11 f12 u) 8 WireBytes b
  = let '(msg, b', err) :=
      DecodeMessage UnmarshalMerge_VMProfileDTO VMProfileDTO.new b in
    (Build f1 f2 f3 f4 f5 f6 f7
       (Some (is_VmProfileDTO (Some {| VmProfileDTO := Some msg |})))
       f10 f11 f12 u, b', (true, err)).
Proof. reflexivity. Qed.

Lemma OneofUnmarshaler_9 f1 f2 f3 f4 f5 f6 f7 o f10 f11 f12 u (b : list byte) :
  _EntityProfileDTO_OneofUnmarshaler EntityDTO_EntityProperty
    (Build f1 f2 f3 f4 f5 f6 f7 o f10 f11 f12 u) 9 WireBytes b
  = let '(msg, b', err) :=
      DecodeMessage UnmarshalMerge_PMProfileDTO PMProfileDTO.new b in
    (Build f1 f2 f3 f4 f5 f6 f7
       (Some (is_PmProfileDTO (Some {| PmProfileDTO := Some msg |})))
       f10 f11 f12 u, b', (true, err)).
Proof. reflexivity. Qed.

Lemma OneofUnmarshaler_bad_wire m tag wire (b : list byte) :
  tag = 8 \/ tag = 9 -> wire <> WireBytes ->
  _EntityProfileDTO_OneofUnmarshaler EntityDTO_EntityProperty m tag wire b
  = (m, b, (true, Some ErrInternalBadWireType)).
Proof.
  intros Ht Hw. destruct m. unfold _EntityProfileDTO_OneofUnmarshaler.
  destruct (Z.eqb_spec wire WireBytes); [ contradiction | ].
  destruct Ht as [-> | ->]; reflexivity.
Qed.

Lemma OneofUnmarshaler_other m tag wire (b : list byte) :
  tag <> 8 -> tag <> 9 ->
  _EntityProfileDTO_OneofUnmarshaler EntityDTO_EntityProperty m tag wire b
  = (m, b, (false, None)).
Proof.
  intros H8 H9. destruct m. unfold _EntityProfileDTO_OneofUnmarshaler.
  destruct (Z.eqb_spec tag 8); [ contradiction | ].
  destruct (Z.eqb_spec tag 9); [ contradiction | ]. reflexivity.
Qed.

Lemma DecodeMessage_skip {M : Type} (unmarshal : M -> list byte -> M * option error)
  (msg msg' : M) (b b' : list byte) (tag : Z) :
  DecodeMessage unmarshal msg b = (msg', b', None) -> skip tag WireBytes b = Ok b'.
Proof.
  unfold DecodeMessage, skip. cbn [WireBytes WireVarint WireFixed32 Z.eqb Pos.eqb].
  destruct (DecodeRawBytes b) as [[body b1]|e]; [ | discriminate ].
  destruct (unmarshal msg body). intros H. now inversion H.
Qed.

Abbreviation dec_Entity :=
  (dec_EntityProfileDTO EntityDTO_EntityProperty UnmarshalMerge_EntityProperty).
Abbreviation save_Entity := (save_EntityProfileDTO EntityDTO_EntityProperty).

(** The decoder of a variant tag. *)
Lemma dec_EntityProfileDTO_variant m tag wire (b : list byte) :
  tag = 8 \/ tag = 9 ->
  dec_Entity m tag wire b
  = match _EntityProfileDTO_OneofUnmarshaler EntityDTO_EntityProperty m tag wire b with
    | (m', b', (true, None)) => Some (m', b', None)
    | (m', b', (true, Some ErrInternalBadWireType)) =>
        Some (m', b', Some MALFORMED_VARIANT)
    | (m', b', (true, Some err)) => Some (m', b', Some err)
    | (_, _, (false, _)) => None
    end.
Proof. intros [-> | ->]; destruct m; reflexivity. Qed.

Lemma dec_EntityProfileDTO_skip m tag wire b m' b' :
  dec_Entity m tag wire b = Some (m', b', None) -> skip tag wire b = Ok b'.
Proof.
  destruct (Z.eq_dec tag 8) as [->|H8]; [ | destruct (Z.eq_dec tag 9) as [->|H9] ].
  - rewrite dec_EntityProfileDTO_variant by auto.
    destruct (Z.eq_dec wire WireBytes) as [->|Hw].
    + destruct m. rewrite OneofUnmarshaler_8.
      destruct (DecodeMessage _ _ b) as [[msg b1] [e|]] eqn:E.
      * destruct e; discriminate.
      * intros H. inversion H; subst. eapply DecodeMessage_skip; eauto.
    + rewrite OneofUnmarshaler_bad_wire by auto. discriminate.
  - rewrite dec_EntityProfileDTO_variant by auto.
    destruct (Z.eq_dec wire WireBytes) as [->|Hw].
    + destruct m. rewrite OneofUnmarshaler_9.
      destruct (DecodeMessage _ _ b) as [[msg b1] [e|]] eqn:E.
      * destruct e; discriminate.
      * intros H. inversion H; subst. eapply DecodeMessage_skip; eauto.
    + rewrite OneofUnmarshaler_bad_wire by auto. discriminate.
  - destruct m. unfold dec_EntityProfileDTO.
    rewrite OneofUnmarshaler_other by assumption.
    dec_skip_cases.
Qed.

Lemma dec_EntityProfileDTO_suffix m tag wire b m' b' :
  dec_Entity m tag wire b = Some (m', b', None) -> exists pre, b = pre ++ b'.
Proof. apply skip_dec_suffix. exact dec_EntityProfileDTO_skip. Qed.

Lemma dec_EntityProfileDTO_unknown m tag wire b :
  known_EntityProfileDTO tag = false -> dec_Entity m tag wire b = None.
Proof.
  intros H. apply known_false in H. destruct m. unfold dec_EntityProfileDTO.
  rewrite OneofUnmarshaler_other by lia. unknown_tag.
Qed.

(** *** Round trip *)

Variable valid_EntityProperty : EntityDTO_EntityProperty -> bool.
Hypothesis EntityProperty_round_trip :
  forall p, valid_EntityProperty p = true ->
            UnmarshalMerge_EntityProperty (Marshal_EntityProperty p) = (p, None).

Lemma run_variant_8 f1 f2 f3 f4 f5 f6 f7 o f10 f11 f12 u vm rest :
  valid_VMProfileDTO vm = true ->
  fits (Marshal_VMProfileDTO vm) = true ->
  run dec_Entity save_Entity (Build f1 f2 f3 f4 f5 f6 f7 o f10 f11 f12 u)
    (EncodeVarint (Z.lor (Z.shiftl 8 3) WireBytes)
     ++ EncodeRawBytes (Marshal_VMProfileDTO vm) ++ rest)
  = run dec_Entity save_Entity
      (Build f1 f2 f3 f4 f5 f6 f7
         (Some (is_VmProfileDTO (Some {| VmProfileDTO := Some vm |})))
         f10 f11 f12 u) rest.
Proof.
  intros Hv Hf.
  erewrite run_step;
    [ | exact dec_EntityProfileDTO_suffix | apply DecodeVarint_EncodeVarint ].
  change (Z.shiftr (uint64 (Z.lor (Z.shiftl 8 3) WireBytes)) 3) with 8.
  change (Z.land (uint64 (Z.lor (Z.shiftl 8 3) WireBytes)) 7) with WireBytes.
  rewrite dec_EntityProfileDTO_variant by auto. rewrite OneofUnmarshaler_8.
  unfold DecodeMessage.
  rewrite DecodeRawBytes_EncodeRawBytes by now apply fits_lt.
  now rewrite UnmarshalMerge_Marshal_VMProfileDTO.
Qed.

Lemma run_variant_9 f1 f2 f3 f4 f5 f6 f7 o f10 f11 f12 u pm rest :
  valid_PMProfileDTO pm = true ->
  fits (Marshal_PMProfileDTO pm) = true ->
  run dec_Entity save_Entity (Build f1 f2 f3 f4 f5 f6 f7 o f10 f11 f12 u)
    (EncodeVarint (Z.lor (Z.shiftl 9 3) WireBytes)
     ++ EncodeRawBytes (Marshal_PMProfileDTO pm) ++ rest)
  = run dec_Entity save_Entity
      (Build f1 f2 f3 f4 f5 f6 f7
         (Some (is_PmProfileDTO (Some {| PmProfileDTO := Some pm |})))
         f10 f11 f12 u) rest.
Proof.
  intros Hv Hf.
  erewrite run_step;
    [ | exact dec_EntityProfileDTO_suffix | apply DecodeVarint_EncodeVarint ].
  change (Z.shiftr (uint64 (Z.lor (Z.shiftl 9 3) WireBytes)) 3) with 9.
  change (Z.land (uint64 (Z.lor (Z.shiftl 9 3) WireBytes)) 7) with WireBytes.
  rewrite dec_EntityProfileDTO_variant by auto. rewrite OneofUnmarshaler_9.
  unfold DecodeMessage.
  rewrite DecodeRawBytes_EncodeRawBytes by now apply fits_lt.
  now rewrite UnmarshalMerge_Marshal_PMProfileDTO.
Qed.

Lemma run_unknown_EntityProfileDTO f1 f2 f3 f4 f5 f6 f7 o f10 f11 f12 u :
  unknown_only known_EntityProfileDTO u = true ->
  run dec_Entity save_Entity (Build f1 f2 f3 f4 f5 f6 f7 o f10 f11 f12 []) u
  = (Build f1 f2 f3 f4 f5 f6 f7 o f10 f11 f12 u, None).
Proof.
  intros H.
  erewrite run_unknown;
    [ reflexivity | exact dec_EntityProfileDTO_suffix
    | exact dec_EntityProfileDTO_unknown
    | intros []; cbn; now rewrite app_nil_r
    | intros [] ? ?; cbn; now rewrite app_assoc
    | assumption ].
Qed.

(** The declared fields of an encoded [EntityProfileDTO], decoded from the
    empty message. *)
Lemma run_fields_EntityProfileDTO f1 f2 f3 f4 f5 f6 f7 f10 f11 f12 rest :
  opt fits f1 = true -> opt fits f2 = true -> opt is_int32b f3 = true ->
  forallb (fun c => valid_CommodityProfileDTO c
                    && fits (Marshal_CommodityProfileDTO c)) f4 = true ->
  opt fits f5 = true -> opt fits f6 = true -> opt fits f7 = true ->
  forallb (fun p => valid_EntityProperty p && fits (Marshal_EntityProperty p)) f12
  = true ->
  run dec_Entity save_Entity new
    (enc_bytes 1 f1 ++ enc_bytes 2 f2 ++ enc_int32 3 f3
     ++ enc_repeated_message Marshal_CommodityProfileDTO 4 f4
     ++ enc_bytes 5 f5 ++ enc_bytes 6 f6 ++ enc_bytes 7 f7
     ++ enc_bool 10 f10 ++ enc_bool 11 f11
     ++ enc_repeated_message Marshal_EntityProperty 12 f12 ++ rest)
  = run dec_Entity save_Entity
      (Build f1 f2 f3 f4 f5 f6 f7 None f10 f11 f12 []) rest.
Proof.
  intros H1 H2 H3 H4 H5 H6 H7 H12. unfold new.
  field_step run_enc_bytes dec_EntityProfileDTO_suffix 1 f1
    (@Build EntityDTO_EntityProperty f1 None None [] None None None None None None [] []).
  field_step run_enc_bytes dec_EntityProfileDTO_suffix 2 f2
    (@Build EntityDTO_EntityProperty f1 f2 None [] None None None None None None [] []).
  field_step run_enc_int32 dec_EntityProfileDTO_suffix 3 f3
    (@Build EntityDTO_EntityProperty f1 f2 f3 [] None None None None None None [] []).
  erewrite (run_enc_repeated_message _ _ _ dec_EntityProfileDTO_suffix 4
              Marshal_CommodityProfileDTO _ valid_CommodityProfileDTO
              (fun l => @Build EntityDTO_EntityProperty
                          f1 f2 f3 l None None None None None None [] []) f4);
    [ | split; reflexivity | intros; reflexivity
      | exact UnmarshalMerge_Marshal_CommodityProfileDTO | exact H4 ].
  cbn [app].
  field_step run_enc_bytes dec_EntityProfileDTO_suffix 5 f5
    (@Build EntityDTO_EntityProperty f1 f2 f3 f4 f5 None None None None None [] []).
  field_step run_enc_bytes dec_EntityProfileDTO_suffix 6 f6
    (@Build EntityDTO_EntityProperty f1 f2 f3 f4 f5 f6 None None None None [] []).
  field_step run_enc_bytes dec_EntityProfileDTO_suffix 7 f7
    (@Build EntityDTO_EntityProperty f1 f2 f3 f4 f5 f6 f7 None None None [] []).
  bool_step dec_EntityProfileDTO_suffix 10 f10
    (@Build EntityDTO_EntityProperty f1 f2 f3 f4 f5 f6 f7 None f10 None [] []).
  bool_step dec_EntityProfileDTO_suffix 11 f11
    (@Build EntityDTO_EntityProperty f1 f2 f3 f4 f5 f6 f7 None f10 f11 [] []).
  erewrite (run_enc_repeated_message _ _ _ dec_EntityProfileDTO_suffix 12
              Marshal_EntityProperty _ valid_EntityProperty
              (fun l => @Build EntityDTO_EntityProperty
                          f1 f2 f3 f4 f5 f6 f7 None f10 f11 l []) f12);
    [ | split; reflexivity | intros; reflexivity
      | exact EntityProperty_round_trip | exact H12 ].
  reflexivity.
Qed.

Lemma Marshal_Unmarshal_EntityProfileDTO (m : t EntityDTO_EntityProperty) :
  valid_EntityProfileDTO _ Marshal_EntityProperty valid_EntityProperty m = true ->
  exists b,
    Marshal_EntityProfileDTO _ Marshal_EntityProperty m = Return (Ok b)
    /\ UnmarshalMerge_EntityProfileDTO _ UnmarshalMerge_EntityProperty new b
       = (m, None).
Proof.
  destruct m as [f1 f2 f3 f4 f5 f6 f7 o f10 f11 f12 u].
  unfold valid_EntityProfileDTO. intros H.
  cbn [Id DisplayName EntityType CommodityProfile Model Vendor Description
       VMOrPMProfileData EnableProvisionMatch EnableResizeMatch EntityProperties
       XXX_unrecognized] in H.
  split_valid H.
  unfold Marshal_EntityProfileDTO, _EntityProfileDTO_OneofMarshaler,
    UnmarshalMerge_EntityProfileDTO, unmarshalMerge.
  cbn [Id DisplayName EntityType CommodityProfile Model Vendor Description
       VMOrPMProfileData EnableProvisionMatch EnableResizeMatch EntityProperties
       XXX_unrecognized].
  assert (Hreq : required_EntityProfileDTO _
                   (Build f1 f2 f3 f4 f5 f6 f7 o f10 f11 f12 u) = None).
  { destruct f1; [ | discriminate ]. destruct f2; [ | discriminate ].
    destruct f3; [ | discriminate ]. reflexivity. }
  destruct o as [[[[[vm|]]|]|[[[pm|]]|]|T]|]; try discriminate.
  - cbn [valid_VMOrPMProfileData] in Hv1. apply andb_prop in Hv1.
    destruct Hv1 as [Hvm Hfit].
    cbn [VmProfileDTO EncodeMessage]. eexists. split; [ reflexivity | ].
    rewrite <- !app_assoc.
    rewrite run_fields_EntityProfileDTO by assumption.
    rewrite run_variant_8 by assumption.
    rewrite run_unknown_EntityProfileDTO by assumption.
    now rewrite Hreq.
  - cbn [valid_VMOrPMProfileData] in Hv1. apply andb_prop in Hv1.
    destruct Hv1 as [Hpm Hfit].
    cbn [PmProfileDTO EncodeMessage]. eexists. split; [ reflexivity | ].
    rewrite <- !app_assoc.
    rewrite run_fields_EntityProfileDTO by assumption.
    rewrite run_variant_9 by assumption.
    rewrite run_unknown_EntityProfileDTO by assumption.
    now rewrite Hreq.
  - eexists. split; [ reflexivity | ].
    rewrite <- !app_assoc.
    rewrite run_fields_EntityProfileDTO by assumption.
    rewrite run_unknown_EntityProfileDTO by assumption.
    now rewrite Hreq.
Qed.

End EntityFacts.

(** ** DeploymentProfileDTO *)

Section DeploymentFacts.
Import DeploymentProfileDTO.
Variable ContextData : Type.
Variable Marshal_ContextData : ContextData -> list byte.
Variable UnmarshalMerge_ContextData : list byte -> ContextData * option error.

Abbreviation dec_Deployment :=
  (dec_DeploymentProfileDTO ContextData UnmarshalMerge_ContextData).
Abbreviation save_Deployment := (save_DeploymentProfileDTO ContextData).

Lemma dec_DeploymentProfileDTO_skip m tag wire b m' b' :
  dec_Deployment m tag wire b = Some (m', b', None) -> skip tag wire b = Ok b'.
Proof. destruct m. unfold dec_DeploymentProfileDTO. dec_skip_cases. Qed.

Lemma dec_DeploymentProfileDTO_suffix m tag wire b m' b' :
  dec_Deployment m tag wire b = Some (m', b', None) -> exists pre, b = pre ++ b'.
Proof. apply skip_dec_suffix. exact dec_DeploymentProfileDTO_skip. Qed.

Lemma dec_DeploymentProfileDTO_unknown m tag wire b :
  known_DeploymentProfileDTO tag = false -> dec_Deployment m tag wire b = None.
Proof.
  intros H. apply known_false in H. destruct m. unfold dec_DeploymentProfileDTO.
  unknown_tag.
Qed.

Variable valid_ContextData : ContextData -> bool.
Hypothesis ContextData_round_trip :
  forall c, valid_ContextData c = true ->
            UnmarshalMerge_ContextData (Marshal_ContextData c) = (c, None).

Lemma UnmarshalMerge_Marshal_DeploymentProfileDTO (m : t ContextData) :
  valid_DeploymentProfileDTO _ Marshal_ContextData valid_ContextData m = true ->
  UnmarshalMerge_DeploymentProfileDTO _ UnmarshalMerge_ContextData new
    (Marshal_DeploymentProfileDTO _ Marshal_ContextData m) = (m, None).
Proof.
  destruct m as [f1 f2 f3 f4 f5 u]. unfold valid_DeploymentProfileDTO. intros H.
  cbn [Id ProfileName ContextData_ RelatedEntityProfileId RelatedScopeId
       XXX_unrecognized] in H.
  split_valid H.
  unfold UnmarshalMerge_DeploymentProfileDTO, unmarshalMerge,
    Marshal_DeploymentProfileDTO, new.
  cbn [Id ProfileName ContextData_ RelatedEntityProfileId RelatedScopeId
       XXX_unrecognized].
  field_step run_enc_bytes dec_DeploymentProfileDTO_suffix 1 f1
    (@Build ContextData f1 None [] [] [] []).
  field_step run_enc_bytes dec_DeploymentProfileDTO_suffix 2 f2
    (@Build ContextData f1 f2 [] [] [] []).
  erewrite (run_enc_repeated_message _ _ _ dec_DeploymentProfileDTO_suffix 3
              Marshal_ContextData _ valid_ContextData
              (fun l => @Build ContextData f1 f2 l [] [] []) f3);
    [ | split; reflexivity | intros; reflexivity
      | exact ContextData_round_trip | assumption ].
  cbn [app].
  erewrite (run_enc_repeated_bytes _ _ _ dec_DeploymentProfileDTO_suffix 4
              (fun l => @Build ContextData f1 f2 f3 l [] []) f4);
    [ | split; reflexivity | intros; reflexivity | assumption ].
  cbn [app].
  erewrite (run_enc_repeated_bytes _ _ _ dec_DeploymentProfileDTO_suffix 5
              (fun l => @Build ContextData f1 f2 f3 f4 l []) f5);
    [ | split; reflexivity | intros; reflexivity | assumption ].
  cbn [app].
  erewrite run_unknown;
    [ | exact dec_DeploymentProfileDTO_suffix | exact dec_DeploymentProfileDTO_unknown
    | intros []; cbn; now rewrite app_nil_r
    | intros [] ? ?; cbn; now rewrite app_assoc
    | assumption ].
  destruct f1; [ | discriminate ]. destruct f2; [ reflexivity | discriminate ].
Qed.

End DeploymentFacts.
End DecoderFacts.

(** ** What a successful decode leaves in the message *)

Module StepFacts.
Import Wire Codec Stream Valid WireFacts LoopFacts DecoderFacts.

Lemma dec_bytes_ok {M : Type} (tag wire : Z) (set : gostring -> M) (m m1 : M)
  (b b2 : list byte) :
  dec_bytes tag wire set m b = (m1, b2, None) -> exists v, m1 = set v.
Proof.
  unfold dec_bytes. destruct (wire =? WireBytes); [ | discriminate ].
  destruct (DecodeRawBytes b) as [[s b1]|e]; [ | discriminate ].
  intros H. inversion H. now exists s.
Qed.

Lemma dec_int32_ok {M : Type} (tag wire : Z) (set : Z -> M) (m m1 : M)
  (b b2 : list byte) :
  dec_int32 tag wire set m b = (m1, b2, None) -> exists v, m1 = set v.
Proof.
  unfold dec_int32. destruct (wire =? WireVarint); [ | discriminate ].
  destruct (DecodeVarint b) as [[s b1]|e]; [ | discriminate ].
  intros H. inversion H. now exists (int32 s).
Qed.

Lemma dec_bool_ok {M : Type} (tag wire : Z) (set : bool -> M) (m m1 : M)
  (b b2 : list byte) :
  dec_bool tag wire set m b = (m1, b2, None) -> exists v, m1 = set v.
Proof.
  unfold dec_bool. destruct (wire =? WireVarint); [ | discriminate ].
  destruct (DecodeVarint b) as [[s b1]|e]; [ | discriminate ].
  intros H. inversion H. now exists (negb (s =? 0)).
Qed.

Lemma dec_message_ok {M A : Type} (tag wire : Z)
  (unmarshal : list byte -> A * option error) (set : A -> M) (m m1 : M)
  (b b2 : list byte) :
  dec_message tag wire unmarshal set m b = (m1, b2, None) -> exists v, m1 = set v.
Proof.
  unfold dec_message. destruct (wire =? WireBytes); [ | discriminate ].
  destruct (DecodeRawBytes b) as [[s b1]|e]; [ | discriminate ].
  destruct (unmarshal s) as [x [e|]]; [ discriminate | ].
  intros H. inversion H. now exists x.
Qed.

(** After a field decoder succeeded, the message is the one its setter
    built. *)
Ltac dec_ok H :=
  first [ apply dec_bytes_ok in H | apply dec_int32_ok in H
        | apply dec_bool_ok in H | apply dec_message_ok in H ];
  destruct H as [? ->].

Section Generic.
Variable M : Type.
Variable dec : M -> Z -> Z -> list byte -> option (M * list byte * option error).
Variable save : M -> list byte -> M.

(** A field of number [k] is present after the decode exactly when it was
    present before or a field [k] occurred. *)
Lemma steps_presence (k : Z) (get : M -> bool) :
  (forall m tag wire b m1 b2,
      dec m tag wire b = Some (m1, b2, None) -> get m1 = (tag =? k) || get m) ->
  (forall m tag wire b raw,
      dec m tag wire b = None -> tag <> k /\ get (save m raw) = get m) ->
  forall m l m',
    steps dec save m l m' ->
    get m' = get m || existsb (Z.eqb k) (map field_tag l).
Proof.
  intros Hdec Hsave m l m' H. induction H as [m|m f m1 b2 l m' D _ IH|m f l m' D _ IH].
  - cbn. now rewrite orb_false_r.
  - rewrite IH, (Hdec _ _ _ _ _ _ D). cbn [map existsb].
    rewrite (Z.eqb_sym k). now rewrite orb_assoc, (orb_comm (get m)).
  - destruct (Hsave _ _ _ _ (field_raw f) D) as [Hk Hg].
    rewrite IH, Hg. cbn [map existsb].
    apply Z.eqb_neq in Hk. rewrite (Z.eqb_sym k), Hk. reflexivity.
Qed.

End Generic.

Section Entity.
Import EntityProfileDTO.
Variable EntityDTO_EntityProperty : Type.
Variable UnmarshalMerge_EntityProperty :
  list byte -> EntityDTO_EntityProperty * option error.

Abbreviation dec_Entity :=
  (dec_EntityProfileDTO EntityDTO_EntityProperty UnmarshalMerge_EntityProperty).
Abbreviation save_Entity := (save_EntityProfileDTO EntityDTO_EntityProperty).

(** A successful decoder of [EntityProfileDTO], by cases on the tag: a
    declared field, a variant, or none. *)
Lemma dec_EntityProfileDTO_ok f1 f2 f3 f4 f5 f6 f7 o f10 f11 f12 u tag wire b m1 b2 :
  dec_Entity (Build f1 f2 f3 f4 f5 f6 f7 o f10 f11 f12 u) tag wire b
  = Some (m1, b2, None) ->
  (tag = 1 /\ exists v, m1 = Build (Some v) f2 f3 f4 f5 f6 f7 o f10 f11 f12 u)
  \/ (tag = 2 /\ exists v, m1 = Build f1 (Some v) f3 f4 f5 f6 f7 o f10 f11 f12 u)
  \/ (tag = 3 /\ exists v, m1 = Build f1 f2 (Some v) f4 f5 f6 f7 o f10 f11 f12 u)
  \/ (tag = 8 /\ wire = WireBytes
      /\ m1 = Build f1 f2 f3 f4 f5 f6 f7
                (variant_of_field (Field tag wire b [])) f10 f11 f12 u)
  \/ (tag = 9 /\ wire = WireBytes
      /\ m1 = Build f1 f2 f3 f4 f5 f6 f7
                (variant_of_field (Field tag wire b [])) f10 f11 f12 u)
  \/ (tag <> 1 /\ tag <> 2 /\ tag <> 3 /\ tag <> 8 /\ tag <> 9
      /\ Id m1 = f1 /\ DisplayName m1 = f2 /\ EntityType m1 = f3
      /\ VMOrPMProfileData m1 = o).
Proof.
  destruct (Z.eq_dec tag 8) as [->|H8]; [ | destruct (Z.eq_dec tag 9) as [->|H9] ].
  - rewrite dec_EntityProfileDTO_variant by auto.
    destruct (Z.eq_dec wire WireBytes) as [->|Hw].
    + rewrite OneofUnmarshaler_8. unfold variant_of_field. cbn [field_tag field_input].
      change (8 =? 8) with true. cbv iota.
      destruct (DecodeMessage _ _ b) as [[msg b1] [e|]].
      * destruct e; discriminate.
      * intros H. inversion H; subst. right. right. right. left. auto.
    + rewrite OneofUnmarshaler_bad_wire by auto. discriminate.
  - rewrite dec_EntityProfileDTO_variant by auto.
    destruct (Z.eq_dec wire WireBytes) as [->|Hw].
    + rewrite OneofUnmarshaler_9. unfold variant_of_field. cbn [field_tag field_input].
      change (9 =? 8) with false. cbv iota.
      destruct (DecodeMessage _ _ b) as [[msg b1] [e|]].
      * destruct e; discriminate.
      * intros H. inversion H; subst. right. right. right. right. left. auto.
    + rewrite OneofUnmarshaler_bad_wire by auto. discriminate.
  - unfold dec_EntityProfileDTO. rewrite OneofUnmarshaler_other by assumption.
    repeat match goal with
      | |- context [?t =? ?k] => destruct (Z.eqb_spec t k)
      end;
    try discriminate; intros H; injection H as H; dec_ok H; subst;
    first [ left; split; [ reflexivity | eexists; reflexivity ]
          | right; left; split; [ reflexivity | eexists; reflexivity ]
          | right; right; left; split; [ reflexivity | eexists; reflexivity ]
          | do 5 right; repeat split; (lia || reflexivity) ].
Qed.

Lemma dec_EntityProfileDTO_none m tag wire b :
  dec_Entity m tag wire b = None ->
  tag <> 1 /\ tag <> 2 /\ tag <> 3 /\ tag <> 8 /\ tag <> 9.
Proof.
  destruct (Z.eq_dec tag 8) as [->|H8]; [ | destruct (Z.eq_dec tag 9) as [->|H9] ].
  - rewrite dec_EntityProfileDTO_variant by auto.
    destruct (Z.eq_dec wire WireBytes) as [->|Hw].
    + destruct m. rewrite OneofUnmarshaler_8.
      destruct (DecodeMessage _ _ b) as [[msg b1] [e|]]; [ destruct e | ]; discriminate.
    + rewrite OneofUnmarshaler_bad_wire by auto. discriminate.
  - rewrite dec_EntityProfileDTO_variant by auto.
    destruct (Z.eq_dec wire WireBytes) as [->|Hw].
    + destruct m. rewrite OneofUnmarshaler_9.
      destruct (DecodeMessage _ _ b) as [[msg b1] [e|]]; [ destruct e | ]; discriminate.
    + rewrite OneofUnmarshaler_bad_wire by auto. discriminate.
  - destruct m. unfold dec_EntityProfileDTO.
    repeat match goal with
      | |- context [?t =? ?k] => destruct (Z.eqb_spec t k)
      end; try discriminate.
    intros _. repeat split; assumption.
Qed.

Lemma steps_EntityProfileDTO (b : list byte) m m' :
  run dec_Entity save_Entity m b = (m', None) ->
  steps dec_Entity save_Entity m (fields b) m'.
Proof.
  apply run_steps.
  - apply dec_EntityProfileDTO_suffix.
  - apply dec_EntityProfileDTO_skip.
Qed.

Ltac entity_cases D :=
  apply dec_EntityProfileDTO_ok in D;
  destruct D as [[-> [? ->]]|[[-> [? ->]]|[[-> [? ->]]|[[-> [-> ->]]|[[-> [-> ->]]|
    [? [? [? [? [? [? [? [? ?]]]]]]]]]]]]].

Lemma steps_Id m l m' :
  steps dec_Entity save_Entity m l m' ->
  present (Id m') = present (Id m) || existsb (Z.eqb 1) (map field_tag l).
Proof.
  apply (steps_presence _ dec_Entity save_Entity 1 (fun x => present (Id x))).
  - intros [] tag wire b m1 b2 D. entity_cases D; cbn; try reflexivity.
    destruct (Z.eqb_spec tag 1); [ contradiction | ]. cbn. congruence.
  - intros [] tag wire b raw D. apply dec_EntityProfileDTO_none in D.
    split; [ tauto | reflexivity ].
Qed.

Lemma steps_DisplayName m l m' :
  steps dec_Entity save_Entity m l m' ->
  present (DisplayName m')
  = present (DisplayName m) || existsb (Z.eqb 2) (map field_tag l).
Proof.
  apply (steps_presence _ dec_Entity save_Entity 2 (fun x => present (DisplayName x))).
  - intros [] tag wire b m1 b2 D. entity_cases D; cbn; try reflexivity.
    destruct (Z.eqb_spec tag 2); [ contradiction | ]. cbn. congruence.
  - intros [] tag wire b raw D. apply dec_EntityProfileDTO_none in D.
    split; [ tauto | reflexivity ].
Qed.

Lemma steps_EntityType m l m' :
  steps dec_Entity save_Entity m l m' ->
  present (EntityType m')
  = present (EntityType m) || existsb (Z.eqb 3) (map field_tag l).
Proof.
  apply (steps_presence _ dec_Entity save_Entity 3 (fun x => present (EntityType x))).
  - intros [] tag wire b m1 b2 D. entity_cases D; cbn; try reflexivity.
    destruct (Z.eqb_spec tag 3); [ contradiction | ]. cbn. congruence.
  - intros [] tag wire b raw D. apply dec_EntityProfileDTO_none in D.
    split; [ tauto | reflexivity ].
Qed.

Lemma variant_of_field_ext (f g : field) :
  field_tag f = field_tag g -> field_input f = field_input g ->
  variant_of_field f = variant_of_field g.
Proof. unfold variant_of_field. now intros -> ->. Qed.

(** The union after the decode is the one built from the last field with a
    variant tag. *)
Lemma steps_VMOrPMProfileData m l m' :
  steps dec_Entity save_Entity m l m' ->
  VMOrPMProfileData m'
  = match last_variant l with
    | Some f => variant_of_field f
    | None => VMOrPMProfileData m
    end.
Proof.
  intros H. induction H as [m|m f m1 b2 l m' D _ IH|m f l m' D _ IH].
  - reflexivity.
  - cbn [last_variant]. destruct (last_variant l) as [g|]; [ exact IH | ].
    rewrite IH. clear IH. destruct m. unfold is_variant.
    destruct f as [tag wire input raw]. cbn [field_tag field_wire field_input] in *.
    entity_cases D; cbn; try reflexivity.
    destruct (Z.eqb_spec tag 8); [ contradiction | ].
    destruct (Z.eqb_spec tag 9); [ contradiction | ]. cbn. assumption.
  - cbn [last_variant]. destruct (last_variant l) as [g|]; [ exact IH | ].
    rewrite IH. clear IH. apply dec_EntityProfileDTO_none in D.
    unfold is_variant.
    destruct (Z.eqb_spec (field_tag f) 8); [ tauto | ].
    destruct (Z.eqb_spec (field_tag f) 9); [ tauto | ]. cbn. now destruct m.
Qed.

End Entity.
Section Deployment.
Import DeploymentProfileDTO.
Variable ContextData : Type.
Variable UnmarshalMerge_ContextData : list byte -> ContextData * option error.

Abbreviation dec_Deployment :=
  (dec_DeploymentProfileDTO ContextData UnmarshalMerge_ContextData).
Abbreviation save_Deployment := (save_DeploymentProfileDTO ContextData).

Lemma steps_DeploymentProfileDTO (b : list byte) m m' :
  run dec_Deployment save_Deployment m b = (m', None) ->
  steps dec_Deployment save_Deployment m (fields b) m'.
Proof.
  apply run_steps.
  - apply dec_DeploymentProfileDTO_suffix.
  - apply dec_DeploymentProfileDTO_skip.
Qed.

Ltac deployment_cases D :=
  unfold dec_DeploymentProfileDTO in D;
  repeat match type of D with
    | context [?t =? ?k] => destruct (Z.eqb_spec t k); [ subst | ]
    end;
  try discriminate;
  try (injection D as D; dec_ok D).

Lemma steps_Deployment_Id m l m' :
  steps dec_Deployment save_Deployment m l m' ->
  present (Id m') = present (Id m) || existsb (Z.eqb 1) (map field_tag l).
Proof.
  apply (steps_presence _ dec_Deployment save_Deployment 1 (fun x => present (Id x))).
  - intros [] tag wire b m1 b2 D. deployment_cases D; reflexivity.
  - intros [] tag wire b raw D. deployment_cases D. split; [ assumption | reflexivity ].
Qed.

Lemma steps_Deployment_ProfileName m l m' :
  steps dec_Deployment save_Deployment m l m' ->
  present (ProfileName m')
  = present (ProfileName m) || existsb (Z.eqb 2) (map field_tag l).
Proof.
  apply (steps_presence _ dec_Deployment save_Deployment 2
           (fun x => present (ProfileName x))).
  - intros [] tag wire b m1 b2 D. deployment_cases D; reflexivity.
  - intros [] tag wire b raw D. deployment_cases D. split; [ assumption | reflexivity ].
Qed.

End Deployment.
End StepFacts.

(** ** The field numbers of an encoding *)

Module TagFacts.
Import Wire Codec Stream Valid WireFacts LoopFacts DecoderFacts.

Lemma tags_field (k w : Z) (payload rest : list byte) :
  key_ok k w ->
  skip k w (payload ++ rest) = Ok rest ->
  tags (EncodeVarint (key k w) ++ payload ++ rest) = k :: tags rest.
Proof.
  intros [Kt Kw] Hs. unfold tags.
  erewrite fields_step; [ | apply DecodeVarint_EncodeVarint | ];
    rewrite Kt, Kw; [ reflexivity | exact Hs ].
Qed.

Lemma skip_WireBytes (tag : Z) (body rest : list byte) :
  fits body = true ->
  skip tag WireBytes (EncodeRawBytes body ++ rest) = Ok rest.
Proof.
  intros Hb. unfold skip. cbn [WireBytes WireVarint WireFixed32 Z.eqb Pos.eqb].
  rewrite DecodeRawBytes_EncodeRawBytes by now apply fits_lt. reflexivity.
Qed.

Lemma skip_WireVarint (tag x : Z) (rest : list byte) :
  skip tag WireVarint (EncodeVarint x ++ rest) = Ok rest.
Proof.
  unfold skip. cbn [WireVarint Z.eqb]. now rewrite DecodeVarint_EncodeVarint.
Qed.

Lemma tags_enc_bytes (tag : Z) (o : option gostring) (rest : list byte) :
  key_ok tag WireBytes -> opt fits o = true ->
  tags (enc_bytes tag o ++ rest) = opt_tag tag o ++ tags rest.
Proof.
  intros K Hv. destruct o as [s|]; [ | reflexivity ].
  cbn [enc_bytes opt_tag app]. rewrite <- app_assoc.
  apply tags_field; [ exact K | now apply skip_WireBytes ].
Qed.

Lemma tags_enc_int32 (tag : Z) (o : option Z) (rest : list byte) :
  key_ok tag WireVarint ->
  tags (enc_int32 tag o ++ rest) = opt_tag tag o ++ tags rest.
Proof.
  intros K. destruct o as [x|]; [ | reflexivity ].
  cbn [enc_int32 opt_tag app]. rewrite <- app_assoc.
  apply tags_field; [ exact K | apply skip_WireVarint ].
Qed.

Lemma tags_enc_bool (tag : Z) (o : option bool) (rest : list byte) :
  key_ok tag WireVarint ->
  tags (enc_bool tag o ++ rest) = opt_tag tag o ++ tags rest.
Proof.
  intros K. destruct o as [x|]; [ | reflexivity ].
  cbn [enc_bool opt_tag app]. rewrite <- app_assoc.
  apply tags_field; [ exact K | apply skip_WireVarint ].
Qed.

Lemma tags_enc_repeated_message {A : Type} (marshal : A -> list byte)
  (valid : A -> bool) (tag : Z) (l : list A) (rest : list byte) :
  key_ok tag WireBytes ->
  forallb (fun x => valid x && fits (marshal x)) l = true ->
  tags (enc_repeated_message marshal tag l ++ rest)
  = repeat tag (length l) ++ tags rest.
Proof.
  intros K. induction l as [|x l IH]; intros Hv; [ reflexivity | ].
  cbn [forallb] in Hv. apply andb_prop in Hv. destruct Hv as [Hx Hl].
  apply andb_prop in Hx. destruct Hx as [_ Hf].
  unfold enc_repeated_message. cbn [flat_map length repeat app].
  rewrite <- !app_assoc. fold (enc_repeated_message marshal tag l).
  rewrite tags_field; [ | exact K | now apply skip_WireBytes ].
  now rewrite IH.
Qed.

(** No field of well-formed unknown bytes has a number of the schema. *)
Lemma tags_unknown (known : Z -> bool) (u : list byte) :
  unknown_only known u = true ->
  forallb (fun t => negb (known t)) (tags u) = true.
Proof.
  unfold unknown_only, tags. intros H. apply andb_prop in H. destruct H as [H _].
  induction (fields u) as [|f l IH]; [ reflexivity | ].
  cbn [forallb map] in *. apply andb_prop in H. destruct H as [H1 H2].
  now rewrite H1, IH.
Qed.

Lemma filter_repeat_false (P : Z -> bool) (t : Z) (n : nat) :
  P t = false -> filter P (repeat t n) = [].
Proof. intros H. induction n; cbn; [ reflexivity | now rewrite H ]. Qed.

Lemma filter_opt_tag_false {A : Type} (P : Z -> bool) (t : Z) (o : option A) :
  P t = false -> filter P (opt_tag t o) = [].
Proof. intros H. destruct o; cbn; [ now rewrite H | reflexivity ]. Qed.

(** The variant tags in the encoding of a valid [EntityProfileDTO]. *)
Lemma Marshal_variant_tags (EntityDTO_EntityProperty : Type)
  (Marshal_EntityProperty : EntityDTO_EntityProperty -> list byte)
  (valid_EntityProperty : EntityDTO_EntityProperty -> bool)
  (m : EntityProfileDTO.t EntityDTO_EntityProperty) :
  valid_EntityProfileDTO _ Marshal_EntityProperty valid_EntityProperty m = true ->
  exists b,
    Marshal_EntityProfileDTO _ Marshal_EntityProperty m = Return (Ok b)
    /\ filter variant_tag (tags b)
       = variant_tags (EntityProfileDTO.VMOrPMProfileData m).
Proof.
  destruct m as [f1 f2 f3 f4 f5 f6 f7 o f10 f11 f12 u].
  unfold valid_EntityProfileDTO. intros H.
  cbn [EntityProfileDTO.Id EntityProfileDTO.DisplayName EntityProfileDTO.EntityType
       EntityProfileDTO.CommodityProfile EntityProfileDTO.Model
       EntityProfileDTO.Vendor EntityProfileDTO.Description
       EntityProfileDTO.VMOrPMProfileData EntityProfileDTO.EnableProvisionMatch
       EntityProfileDTO.EnableResizeMatch EntityProfileDTO.EntityProperties
       EntityProfileDTO.XXX_unrecognized] in H.
  repeat match type of H with
    | _ && _ = true =>
        let H1 := fresh "Hv" in apply andb_prop in H; destruct H as [H H1]
    end.
  assert (Hu : filter variant_tag (tags u) = []).
  { match goal with
    | Hk : unknown_only _ u = true |- _ => apply tags_unknown in Hk; revert Hk
    end.
    induction (tags u) as [|t l IH]; [ reflexivity | ].
    cbn [forallb filter]. intros Hk. apply andb_prop in Hk. destruct Hk as [Ht Hl].
    apply negb_true_iff in Ht. apply known_false in Ht.
    unfold variant_tag.
    destruct (Z.eqb_spec t 8); [ lia | ]. destruct (Z.eqb_spec t 9); [ lia | ].
    cbn. now apply IH. }
  assert (Hfields : forall rest,
             filter variant_tag
               (tags (enc_bytes 1 f1 ++ enc_bytes 2 f2 ++ enc_int32 3 f3
                      ++ enc_repeated_message Marshal_CommodityProfileDTO 4 f4
                      ++ enc_bytes 5 f5 ++ enc_bytes 6 f6 ++ enc_bytes 7 f7
                      ++ enc_bool 10 f10 ++ enc_bool 11 f11
                      ++ enc_repeated_message Marshal_EntityProperty 12 f12
                      ++ rest))
             = filter variant_tag (tags rest)).
  { intros rest.
    rewrite !tags_enc_bytes, tags_enc_int32 by (assumption || (split; reflexivity)).
    erewrite tags_enc_repeated_message by (eassumption || (split; reflexivity)).
    rewrite !tags_enc_bytes, !tags_enc_bool by (assumption || (split; reflexivity)).
    erewrite tags_enc_repeated_message by (eassumption || (split; reflexivity)).
    rewrite !filter_app.
    rewrite !filter_opt_tag_false, !filter_repeat_false by reflexivity.
    reflexivity. }
  unfold Marshal_EntityProfileDTO, _EntityProfileDTO_OneofMarshaler.
  cbn [EntityProfileDTO.Id EntityProfileDTO.DisplayName EntityProfileDTO.EntityType
       EntityProfileDTO.CommodityProfile EntityProfileDTO.Model
       EntityProfileDTO.Vendor EntityProfileDTO.Description
       EntityProfileDTO.VMOrPMProfileData EntityProfileDTO.EnableProvisionMatch
       EntityProfileDTO.EnableResizeMatch EntityProfileDTO.EntityProperties
       EntityProfileDTO.XXX_unrecognized].
  destruct o as [[[[[vm|]]|]|[[[pm|]]|]|T]|]; try discriminate.
  - match goal with
    | Hk : valid_VMOrPMProfileData _ = true |- _ =>
        cbn [valid_VMOrPMProfileData] in Hk; apply andb_prop in Hk;
        destruct Hk as [_ Hfit]
    end.
    cbn [EntityProfileDTO.VmProfileDTO EncodeMessage variant_tags].
    eexists. split; [ reflexivity | ].
    rewrite <- !app_assoc. rewrite Hfields.
    change (Z.lor (Z.shiftl 8 3) WireBytes) with (key 8 WireBytes).
    rewrite tags_field;
      [ | split; reflexivity | now apply skip_WireBytes ].
    cbn [filter]. change (variant_tag 8) with true. cbv iota. now rewrite Hu.
  - match goal with
    | Hk : valid_VMOrPMProfileData _ = true |- _ =>
        cbn [valid_VMOrPMProfileData] in Hk; apply andb_prop in Hk;
        destruct Hk as [_ Hfit]
    end.
    cbn [EntityProfileDTO.PmProfileDTO EncodeMessage variant_tags].
    eexists. split; [ reflexivity | ].
    rewrite <- !app_assoc. rewrite Hfields.
    change (Z.lor (Z.shiftl 9 3) WireBytes) with (key 9 WireBytes).
    rewrite tags_field;
      [ | split; reflexivity | now apply skip_WireBytes ].
    cbn [filter]. change (variant_tag 9) with true. cbv iota. now rewrite Hu.
  - cbn [variant_tags]. eexists. split; [ reflexivity | ].
    rewrite <- !app_assoc. rewrite Hfields. exact Hu.
Qed.

End TagFacts.

(** * The claims *)

Module Claims.
Import Wire Codec Stream Valid WireFacts LoopFacts DecoderFacts StepFacts TagFacts.

Lemma keys_loop_nil (n : nat) : keys_loop n [] = [].
Proof. now destruct n. Qed.

(** The keys of one length-delimited field with a variant tag. *)
Lemma keys_variant_field (k : Z) (body : list byte) :
  k = 8 \/ k = 9 ->
  fits body = true ->
  keys (EncodeVarint (Z.lor (Z.shiftl k 3) WireBytes) ++ EncodeRawBytes body) = [k].
Proof.
  intros Hk Hb.
  pose proof (DecodeVarint_EncodeVarint (Z.lor (Z.shiftl k 3) WireBytes)
                (EncodeRawBytes body)) as Hd.
  pose proof (skip_WireBytes k body [] Hb) as Hs. rewrite app_nil_r in Hs.
  unfold keys.
  destruct Hk as [-> | ->].
  - change (EncodeVarint (Z.lor (Z.shiftl 8 3) WireBytes)) with ["B"%byte] in *.
    change (uint64 (Z.lor (Z.shiftl 8 3) WireBytes)) with 66 in Hd.
    cbn [app length keys_loop] in *. rewrite Hd.
    change (Z.shiftr 66 3) with 8. change (Z.land 66 7) with WireBytes.
    rewrite Hs. now rewrite keys_loop_nil.
  - change (EncodeVarint (Z.lor (Z.shiftl 9 3) WireBytes)) with ["J"%byte] in *.
    change (uint64 (Z.lor (Z.shiftl 9 3) WireBytes)) with 74 in Hd.
    cbn [app length keys_loop] in *. rewrite Hd.
    change (Z.shiftr 74 3) with 9. change (Z.land 74 7) with WireBytes.
    rewrite Hs. now rewrite keys_loop_nil.
Qed.

(** The key alone, as left in the buffer when the payload is refused. *)
Lemma keys_variant_key (k : Z) :
  k = 8 \/ k = 9 ->
  keys (EncodeVarint (Z.lor (Z.shiftl k 3) WireBytes)) = [k].
Proof. intros [-> | ->]; reflexivity. Qed.

(** [last_variant] picks the field with a variant tag after which no other
    field of the list has one. *)
Lemma last_variant_spec (l : list field) :
  match last_variant l with
  | Some f =>
      exists l1 l2,
        l = l1 ++ f :: l2
        /\ is_variant f = true
        /\ forallb (fun g => negb (is_variant g)) l2 = true
  | None => forallb (fun g => negb (is_variant g)) l = true
  end.
Proof.
  induction l as [|g l IH]; cbn [last_variant]; [ reflexivity | ].
  destruct (last_variant l) as [f|].
  - destruct IH as [l1 [l2 [-> [H1 H2]]]]. exists (g :: l1), l2. auto.
  - destruct (is_variant g) eqn:E.
    + exists [], l. auto.
    + cbn [forallb]. now rewrite E.
Qed.

(** C1.  Round trip.  For every valid [EntityProfileDTO],
    [CommodityProfileDTO] and [DeploymentProfileDTO], encoding succeeds and
    decoding the bytes gives the aggregate back: every optional field is
    present or absent as it was, and the unknown-field bytes are the same.
    The encoding ends with the bytes of [XXX_unrecognized], verbatim.  The
    codecs of the two messages declared outside this file are assumed to round
    trip on their own valid values. *)
Theorem round_trip (EntityDTO_EntityProperty ContextData : Type)
  (Marshal_EntityProperty : EntityDTO_EntityProperty -> list byte)
  (UnmarshalMerge_EntityProperty :
     list byte -> EntityDTO_EntityProperty * option error)
  (valid_EntityProperty : EntityDTO_EntityProperty -> bool)
  (Marshal_ContextData : ContextData -> list byte)
  (UnmarshalMerge_ContextData : list byte -> ContextData * option error)
  (valid_ContextData : ContextData -> bool) :
  (forall p, valid_EntityProperty p = true ->
             UnmarshalMerge_EntityProperty (Marshal_EntityProperty p) = (p, None)) ->
  (forall c, valid_ContextData c = true ->
             UnmarshalMerge_ContextData (Marshal_ContextData c) = (c, None)) ->
  (forall x,
      valid_EntityProfileDTO _ Marshal_EntityProperty valid_EntityProperty x = true ->
      exists b pre,
        Marshal_EntityProfileDTO _ Marshal_EntityProperty x = Return (Ok b)
        /\ Unmarshal_EntityProfileDTO _ UnmarshalMerge_EntityProperty b = Ok x
        /\ b = pre ++ EntityProfileDTO.XXX_unrecognized x)
  /\ (forall x,
         valid_CommodityProfileDTO x = true ->
         Unmarshal_CommodityProfileDTO (Marshal_CommodityProfileDTO x) = Ok x
         /\ exists pre,
             Marshal_CommodityProfileDTO x
             = pre ++ CommodityProfileDTO.XXX_unrecognized x)
  /\ (forall x,
         valid_DeploymentProfileDTO _ Marshal_ContextData valid_ContextData x = true ->
         Unmarshal_DeploymentProfileDTO _ UnmarshalMerge_ContextData
           (Marshal_DeploymentProfileDTO _ Marshal_ContextData x) = Ok x
         /\ exists pre,
             Marshal_DeploymentProfileDTO _ Marshal_ContextData x
             = pre ++ DeploymentProfileDTO.XXX_unrecognized x).
Proof.
  intros HEP HCD. split; [ | split ].
  - intros x Hx.
    destruct (Marshal_Unmarshal_EntityProfileDTO _ _ _ _ HEP x Hx) as [b [Hm Hu]].
    assert (Hpre : exists pre, b = pre ++ EntityProfileDTO.XXX_unrecognized x).
    { unfold Marshal_EntityProfileDTO in Hm.
      destruct (_EntityProfileDTO_OneofMarshaler _ x _) as [[b0 [e|]]|msg];
        try discriminate.
      inversion Hm. now exists b0. }
    destruct Hpre as [pre Hpre]. exists b, pre.
    split; [ exact Hm | ]. split; [ | exact Hpre ].
    unfold Unmarshal_EntityProfileDTO. now rewrite Hu.
  - intros x Hx. split.
    + unfold Unmarshal_CommodityProfileDTO.
      now rewrite UnmarshalMerge_Marshal_CommodityProfileDTO.
    + unfold Marshal_CommodityProfileDTO. rewrite !app_assoc. now eexists.
  - intros x Hx. split.
    + unfold Unmarshal_DeploymentProfileDTO.
      now rewrite (UnmarshalMerge_Marshal_DeploymentProfileDTO _ _ _ _ HCD).
    + unfold Marshal_DeploymentProfileDTO. rewrite !app_assoc. now eexists.
Qed.

(** C2.  Last tag wins.  The oneof unmarshaler, on either variant tag with
    the length-delimited wire type, overwrites the union with the wrapper of
    that tag, whatever the union held before.  So when [proto.Unmarshal]
    succeeds on a stream, the union of the message is the one built from the
    last field of the stream that carries tag 8 or 9 (the wrapper of that tag
    around the payload of that field, and no other), and nil when no field of
    the stream carries either tag. *)
Theorem last_variant_tag_wins (EntityDTO_EntityProperty : Type)
  (UnmarshalMerge_EntityProperty :
     list byte -> EntityDTO_EntityProperty * option error)
  (buf : list byte) (m : EntityProfileDTO.t EntityDTO_EntityProperty) :
  Unmarshal_EntityProfileDTO _ UnmarshalMerge_EntityProperty buf = Ok m ->
  match last_variant (fields buf) with
  | Some f =>
      EntityProfileDTO.VMOrPMProfileData m = variant_of_field f
      /\ (field_tag f = 8 \/ field_tag f = 9)
      /\ exists l1 l2,
          fields buf = l1 ++ f :: l2
          /\ forallb (fun g => negb (is_variant g)) l2 = true
  | None =>
      EntityProfileDTO.VMOrPMProfileData m = None
      /\ forallb (fun g => negb (is_variant g)) (fields buf) = true
  end
  /\ (forall (m0 : EntityProfileDTO.t EntityDTO_EntityProperty) tag b,
         tag = 8 \/ tag = 9 ->
         EntityProfileDTO.VMOrPMProfileData
           (fst (fst (_EntityProfileDTO_OneofUnmarshaler _ m0 tag WireBytes b)))
         = variant_of_field (Field tag WireBytes b [])).
Proof.
  intros H. split.
  - unfold Unmarshal_EntityProfileDTO, UnmarshalMerge_EntityProfileDTO,
      unmarshalMerge in H.
    destruct (run _ _ EntityProfileDTO.new buf) as [m' [e|]] eqn:R;
      [ discriminate | ].
    cbn [to_result] in H.
    destruct (required_EntityProfileDTO _ m'); [ discriminate | ].
    inversion H; subst.
    apply steps_EntityProfileDTO in R.
    apply steps_VMOrPMProfileData in R.
    pose proof (last_variant_spec (fields buf)) as S.
    destruct (last_variant (fields buf)) as [f|].
    + destruct S as [l1 [l2 [Hl [Hv Hn]]]].
      split; [ exact R | ]. split.
      * unfold is_variant in Hv. apply orb_prop in Hv.
        destruct Hv as [Hv|Hv]; apply Z.eqb_eq in Hv; auto.
      * now exists l1, l2.
    + split; [ exact R | exact S ].
  - intros [] tag b [-> | ->].
    + rewrite OneofUnmarshaler_8. unfold variant_of_field.
      cbn [field_tag field_input]. change (8 =? 8) with true. cbv iota.
      now destruct (DecodeMessage _ _ b) as [[msg b1] e].
    + rewrite OneofUnmarshaler_9. unfold variant_of_field.
      cbn [field_tag field_input]. change (9 =? 8) with false. cbv iota.
      now destruct (DecodeMessage _ _ b) as [[msg b1] e].
Qed.

(** C3.  Variant exclusivity.  Encoding the union of an [EntityProfileDTO]
    emits at most one of the variant tags 8 and 9.  Whenever
    [_EntityProfileDTO_OneofMarshaler] returns, the buffer is the one it was
    given followed by the bytes [out] it emitted, and the keys found in [out]
    are exactly the tag of the wrapper the union holds: [8] for a
    [*EntityProfileDTO_VmProfileDTO], [9] for a [*EntityProfileDTO_PmProfileDTO],
    and nothing at all is emitted when the union is nil (the payload is assumed
    to encode to a Go slice).  And in the whole encoding of a valid message the
    fields with tag 8 or 9 are that one tag, or none. *)
Theorem variant_exclusivity (EntityDTO_EntityProperty : Type)
  (Marshal_EntityProperty : EntityDTO_EntityProperty -> list byte)
  (valid_EntityProperty : EntityDTO_EntityProperty -> bool)
  (m : EntityProfileDTO.t EntityDTO_EntityProperty) (b b' : list byte)
  (err : option error) :
  fits_VMOrPMProfileData (EntityProfileDTO.VMOrPMProfileData m) = true ->
  _EntityProfileDTO_OneofMarshaler EntityDTO_EntityProperty m b = Return (b', err) ->
  (exists out,
      b' = b ++ out
      /\ keys out = variant_tags (EntityProfileDTO.VMOrPMProfileData m)
      /\ (EntityProfileDTO.VMOrPMProfileData m = None -> out = [])
      /\ (length (keys out) <= 1)%nat)
  /\ (valid_EntityProfileDTO _ Marshal_EntityProperty valid_EntityProperty m = true ->
      exists enc,
        Marshal_EntityProfileDTO _ Marshal_EntityProperty m = Return (Ok enc)
        /\ filter variant_tag (tags enc)
           = variant_tags (EntityProfileDTO.VMOrPMProfileData m)).
Proof.
  intros Hf H. split; [ | apply Marshal_variant_tags ].
  revert Hf H.
  destruct m as [f1 f2 f3 f4 f5 f6 f7 o f10 f11 f12 u].
  unfold _EntityProfileDTO_OneofMarshaler.
  cbn [EntityProfileDTO.VMOrPMProfileData].
  destruct o as [[[[[vm|]]|]|[[[pm|]]|]|T]|];
    cbn [fits_VMOrPMProfileData variant_tags EncodeMessage
         EntityProfileDTO.VmProfileDTO EntityProfileDTO.PmProfileDTO];
    intros Hf H; inversion H; subst; clear H.
  - exists (EncodeVarint (Z.lor (Z.shiftl 8 3) WireBytes)
            ++ EncodeRawBytes (Marshal_VMProfileDTO vm)).
    rewrite keys_variant_field by auto.
    split; [ now rewrite app_assoc | split; [ reflexivity | split; [ discriminate | cbn; lia ] ] ].
  - exists (EncodeVarint (Z.lor (Z.shiftl 8 3) WireBytes)).
    rewrite keys_variant_key by auto.
    split; [ reflexivity | split; [ reflexivity | split; [ discriminate | cbn; lia ] ] ].
  - exists (EncodeVarint (Z.lor (Z.shiftl 9 3) WireBytes)
            ++ EncodeRawBytes (Marshal_PMProfileDTO pm)).
    rewrite keys_variant_field by auto.
    split; [ now rewrite app_assoc | split; [ reflexivity | split; [ discriminate | cbn; lia ] ] ].
  - exists (EncodeVarint (Z.lor (Z.shiftl 9 3) WireBytes)).
    rewrite keys_variant_key by auto.
    split; [ reflexivity | split; [ reflexivity | split; [ discriminate | cbn; lia ] ] ].
  - exists []. split; [ now rewrite app_nil_r | split; [ reflexivity | split; [ discriminate | cbn; lia ] ] ].
  - exists []. split; [ now rewrite app_nil_r | split; [ reflexivity | split; [ reflexivity | cbn; lia ] ] ].
Qed.

(** C4.  A variant tag (8 or 9) met with a wire type other than the
    length-delimited one is a decode error: [_EntityProfileDTO_OneofUnmarshaler]
    reports the field as handled ([true]) together with
    [ErrInternalBadWireType], leaving message and buffer as they were; the
    decoding loop then stops on [MALFORMED_VARIANT] with the message unchanged,
    so that nothing is added to [XXX_unrecognized], and [proto.Unmarshal] of a
    stream that starts with such a field is that error. *)
Theorem variant_bad_wire_type (EntityDTO_EntityProperty : Type)
  (UnmarshalMerge_EntityProperty :
     list byte -> EntityDTO_EntityProperty * option error)
  (m : EntityProfileDTO.t EntityDTO_EntityProperty)
  (buf : list byte) (u : Z) (b : list byte) :
  DecodeVarint buf = Ok (u, b) ->
  Z.shiftr u 3 = 8 \/ Z.shiftr u 3 = 9 ->
  Z.land u 7 <> WireBytes ->
  _EntityProfileDTO_OneofUnmarshaler EntityDTO_EntityProperty m
    (Z.shiftr u 3) (Z.land u 7) b
  = (m, b, (true, Some ErrInternalBadWireType))
  /\ (forall fuel,
         unmarshalType
           (dec_EntityProfileDTO _ UnmarshalMerge_EntityProperty)
           (save_EntityProfileDTO _) (S fuel) m buf
         = (m, Some MALFORMED_VARIANT))
  /\ UnmarshalMerge_EntityProfileDTO _ UnmarshalMerge_EntityProperty m buf
     = (m, Some MALFORMED_VARIANT)
  /\ Unmarshal_EntityProfileDTO _ UnmarshalMerge_EntityProperty buf
     = Err MALFORMED_VARIANT.
Proof.
  intros Hd Ht Hw.
  assert (Hu : _EntityProfileDTO_OneofUnmarshaler EntityDTO_EntityProperty m
                 (Z.shiftr u 3) (Z.land u 7) b
               = (m, b, (true, Some ErrInternalBadWireType)))
    by now apply OneofUnmarshaler_bad_wire.
  assert (Hloop : forall m0 fuel,
             unmarshalType
               (dec_EntityProfileDTO _ UnmarshalMerge_EntityProperty)
               (save_EntityProfileDTO _) (S fuel) m0 buf
             = (m0, Some MALFORMED_VARIANT)).
  { intros m0 fuel. destruct buf as [|c buf]; [ discriminate | ].
    cbn [unmarshalType]. rewrite Hd.
    rewrite dec_EntityProfileDTO_variant by exact Ht.
    now rewrite OneofUnmarshaler_bad_wire. }
  assert (Hlen : exists n, length buf = S n).
  { destruct buf; [ discriminate | ]. now eexists. }
  destruct Hlen as [n Hn].
  split; [ exact Hu | ]. split; [ apply Hloop | ].
  unfold Unmarshal_EntityProfileDTO, UnmarshalMerge_EntityProfileDTO,
    unmarshalMerge, run.
  rewrite Hn, !Hloop. split; reflexivity.
Qed.

(** C5.  Required fields.  When the fields of a stream were all parsed, the
    result of [proto.Unmarshal] is decided by the required fields that never
    occurred: it is the missing-required-field error that names the first of
    them, and the message only when there is none.  In particular a stream
    without tag 1 is [MISSING_REQUIRED_FIELD "id"], for [EntityProfileDTO] and
    for [DeploymentProfileDTO]. *)
Theorem required_field_enforced (EntityDTO_EntityProperty ContextData : Type)
  (UnmarshalMerge_EntityProperty :
     list byte -> EntityDTO_EntityProperty * option error)
  (UnmarshalMerge_ContextData : list byte -> ContextData * option error)
  (buf : list byte) :
  (forall m,
      run (dec_EntityProfileDTO _ UnmarshalMerge_EntityProperty)
        (save_EntityProfileDTO _) EntityProfileDTO.new buf = (m, None) ->
      Unmarshal_EntityProfileDTO _ UnmarshalMerge_EntityProperty buf
      = if negb (encountered 1 buf) then Err (MISSING_REQUIRED_FIELD "id")
        else if negb (encountered 2 buf)
             then Err (MISSING_REQUIRED_FIELD "displayName")
             else if negb (encountered 3 buf)
                  then Err (MISSING_REQUIRED_FIELD "entityType")
                  else Ok m)
  /\ (forall m,
         run (dec_DeploymentProfileDTO _ UnmarshalMerge_ContextData)
           (save_DeploymentProfileDTO _) DeploymentProfileDTO.new buf = (m, None) ->
         Unmarshal_DeploymentProfileDTO _ UnmarshalMerge_ContextData buf
         = if negb (encountered 1 buf) then Err (MISSING_REQUIRED_FIELD "id")
           else if negb (encountered 2 buf)
                then Err (MISSING_REQUIRED_FIELD "profileName")
                else Ok m).
Proof.
  split; intros m R.
  - unfold Unmarshal_EntityProfileDTO, UnmarshalMerge_EntityProfileDTO,
      unmarshalMerge. rewrite R. cbn [to_result].
    apply steps_EntityProfileDTO in R.
    pose proof (steps_Id _ _ _ _ _ R) as H1.
    pose proof (steps_DisplayName _ _ _ _ _ R) as H2.
    pose proof (steps_EntityType _ _ _ _ _ R) as H3.
    cbn [EntityProfileDTO.new EntityProfileDTO.Id EntityProfileDTO.DisplayName
         EntityProfileDTO.EntityType present orb] in H1, H2, H3.
    unfold encountered, tags. rewrite <- H1, <- H2, <- H3.
    unfold required_EntityProfileDTO.
    destruct (EntityProfileDTO.Id m); [ | reflexivity ].
    destruct (EntityProfileDTO.DisplayName m); [ | reflexivity ].
    destruct (EntityProfileDTO.EntityType m); reflexivity.
  - unfold Unmarshal_DeploymentProfileDTO, UnmarshalMerge_DeploymentProfileDTO,
      unmarshalMerge. rewrite R. cbn [to_result].
    apply steps_DeploymentProfileDTO in R.
    pose proof (steps_Deployment_Id _ _ _ _ _ R) as H1.
    pose proof (steps_Deployment_ProfileName _ _ _ _ _ R) as H2.
    cbn [DeploymentProfileDTO.new DeploymentProfileDTO.Id
         DeploymentProfileDTO.ProfileName present orb] in H1, H2.
    unfold encountered, tags. rewrite <- H1, <- H2.
    unfold required_DeploymentProfileDTO.
    destruct (DeploymentProfileDTO.Id m); [ | reflexivity ].
    destruct (DeploymentProfileDTO.ProfileName m); reflexivity.
Qed.

(** C6.  The capacity derivations.  [derivedConsumed] is [consumed] when it is
    present, else [capacity * consumedFactor] when both are present, else
    absent; [usableCapacity] is [capacity - overhead] when capacity is present,
    an absent overhead counting as 0, else absent: the first four equations
    cover every profile for [derivedConsumed], the next three every profile
    for [usableCapacity], whatever the other fields hold.  The arithmetic is IEEE
    single precision; a capacity of 9600 with a factor of 0.5 derives 4800,
    and a capacity of 2000 with an overhead of 200 leaves 1800.  The last two
    lines give the binary32 patterns of the six numbers ([0x46160000],
    [0x3f000000], [0x45960000]; [0x44fa0000], [0x43480000], [0x44e10000]). *)
Theorem capacity_derivations
  (ct : option CommodityDTO_CommodityType)
  (cap factor cons res ov : float32)
  (ocap ofactor ocons ores oov : option float32) (u : list byte) :
  Capacity.derivedConsumed
    (CommodityProfileDTO.Build ct ocap ofactor (Some cons) ores oov u) = Some cons
  /\ Capacity.derivedConsumed
       (CommodityProfileDTO.Build ct (Some cap) (Some factor) None ores oov u)
     = Some (Float32.mul cap factor)
  /\ Capacity.derivedConsumed
       (CommodityProfileDTO.Build ct None ofactor None ores oov u) = None
  /\ Capacity.derivedConsumed
       (CommodityProfileDTO.Build ct ocap None None ores oov u) = None
  /\ Capacity.usableCapacity
       (CommodityProfileDTO.Build ct (Some cap) ofactor ocons ores (Some ov) u)
     = Some (Float32.sub cap ov)
  /\ Capacity.usableCapacity
       (CommodityProfileDTO.Build ct (Some cap) ofactor ocons ores None u)
     = Some (Float32.sub cap 0)
  /\ Capacity.usableCapacity
       (CommodityProfileDTO.Build ct None ofactor ocons ores oov u) = None
  /\ Capacity.derivedConsumed
       (CommodityProfileDTO.Build ct (Some (Float32.of_dyadic 9600 0))
          (Some (Float32.of_dyadic 1 (-1))) None None None [])
     = Some (Float32.of_dyadic 4800 0)
  /\ Capacity.usableCapacity
       (CommodityProfileDTO.Build None (Some (Float32.of_dyadic 2000 0))
          None None None (Some (Float32.of_dyadic 200 0)) [])
     = Some (Float32.of_dyadic 1800 0)
  /\ (Float32.of_dyadic 9600 0 = 1175846912
      /\ Float32.of_dyadic 1 (-1) = 1056964608
      /\ Float32.of_dyadic 4800 0 = 1167458304)
  /\ (Float32.of_dyadic 2000 0 = 1157234688
      /\ Float32.of_dyadic 200 0 = 1128792064
      /\ Float32.of_dyadic 1800 0 = 1155596288).
Proof.
  repeat split; try reflexivity.
  unfold Capacity.derivedConsumed. cbn [CommodityProfileDTO.Consumed
    CommodityProfileDTO.Capacity CommodityProfileDTO.ConsumedFactor].
  now destruct ocap.
Qed.

(** C7 (as the code has it).  When the union holds a value that is neither of
    the two wrappers nor nil, [_EntityProfileDTO_OneofMarshaler] returns an
    error and leaves the buffer as it was, and [proto.Marshal] returns that
    error; [_EntityProfileDTO_OneofSizer], which has no error result, panics on
    the same message. *)
Theorem unexpected_union_type (EntityDTO_EntityProperty : Type)
  (Marshal_EntityProperty : EntityDTO_EntityProperty -> list byte)
  (m : EntityProfileDTO.t EntityDTO_EntityProperty) (T : string) (b : list byte) :
  EntityProfileDTO.VMOrPMProfileData m = Some (EntityProfileDTO.is_unexpected T) ->
  _EntityProfileDTO_OneofMarshaler _ m b
  = Return (b, Some (Errorf
      ("EntityProfileDTO.VMOrPMProfileData has unexpected type " ++ T)))
  /\ Marshal_EntityProfileDTO _ Marshal_EntityProperty m
     = Return (Err (Errorf
         ("EntityProfileDTO.VMOrPMProfileData has unexpected type " ++ T)))
  /\ _EntityProfileDTO_OneofSizer _ m
     = Panic ("proto: unexpected type " ++ T ++ " in oneof").
Proof.
  intros H.
  unfold Marshal_EntityProfileDTO, _EntityProfileDTO_OneofMarshaler,
    _EntityProfileDTO_OneofSizer.
  rewrite H. repeat split.
Qed.

(** C7, as stated, fails on the size computation: the sizer does not return
    on a union of an unexpected type. *)
Lemma OneofSizer_panics :
  ~ (forall (m : EntityProfileDTO.t (list byte)) (T : string),
        EntityProfileDTO.VMOrPMProfileData m
        = Some (EntityProfileDTO.is_unexpected T) ->
        (exists b e, _EntityProfileDTO_OneofMarshaler _ m [] = Return (b, Some e))
        /\ (exists n, _EntityProfileDTO_OneofSizer _ m = Return n)).
Proof.
  intros H.
  destruct (H Examples.odd_union "*proto.Other"%string eq_refl) as [_ [n Hn]].
  discriminate.
Qed.

(** C8 (as the code has it).  [GetEnableProvisionMatch] and
    [GetEnableResizeMatch] return the stored value when the field is present,
    and [false] when it is absent or the receiver is nil. *)
Theorem GetEnable_default (EntityDTO_EntityProperty : Type)
  (m : EntityProfileDTO.t EntityDTO_EntityProperty) :
  EntityProfileDTO.GetEnableProvisionMatch (Some m)
  = match EntityProfileDTO.EnableProvisionMatch m with
    | Some v => v
    | None => false
    end
  /\ EntityProfileDTO.GetEnableResizeMatch (Some m)
     = match EntityProfileDTO.EnableResizeMatch m with
       | Some v => v
       | None => false
       end
  /\ @EntityProfileDTO.GetEnableProvisionMatch EntityDTO_EntityProperty None = false
  /\ @EntityProfileDTO.GetEnableResizeMatch EntityDTO_EntityProperty None = false.
Proof. repeat split. Qed.

(** C8, as stated, fails: a getter that returns [false] does not tell that the
    field is absent, for a stored [false] is returned as well. *)
Lemma GetEnable_false_not_absent :
  ~ (forall m : EntityProfileDTO.t (list byte),
        (EntityProfileDTO.GetEnableProvisionMatch (Some m) = false
         <-> EntityProfileDTO.EnableProvisionMatch m = None)
        /\ (EntityProfileDTO.GetEnableResizeMatch (Some m) = false
            <-> EntityProfileDTO.EnableResizeMatch m = None)).
Proof.
  intros H. destruct (H Examples.profile1) as [_ [H2 _]].
  specialize (H2 eq_refl). discriminate.
Qed.

(** C9.  Every getter of the five messages returns on a nil receiver, and
    returns the zero value of its result: the empty string, 0, [false], a nil
    slice, a nil message, the nil union, or the default of the enumeration. *)
Theorem getters_nil_receiver (EntityDTO_EntityProperty ContextData : Type)
  (EntityDTO_SWITCH : EntityDTO_EntityType)
  (CommodityDTO_CLUSTER : CommodityDTO_CommodityType) :
  (@EntityProfileDTO.GetVMOrPMProfileData EntityDTO_EntityProperty None = None
   /\ @EntityProfileDTO.GetId EntityDTO_EntityProperty None = []
   /\ @EntityProfileDTO.GetDisplayName EntityDTO_EntityProperty None = []
   /\ @EntityProfileDTO.GetEntityType EntityDTO_EntityProperty EntityDTO_SWITCH None
      = EntityDTO_SWITCH
   /\ @EntityProfileDTO.GetCommodityProfile EntityDTO_EntityProperty None = []
   /\ @EntityProfileDTO.GetModel EntityDTO_EntityProperty None = []
   /\ @EntityProfileDTO.GetVendor EntityDTO_EntityProperty None = []
   /\ @EntityProfileDTO.GetDescription EntityDTO_EntityProperty None = []
   /\ @EntityProfileDTO.GetVmProfileDTO EntityDTO_EntityProperty None = Return None
   /\ @EntityProfileDTO.GetPmProfileDTO EntityDTO_EntityProperty None = Return None
   /\ @EntityProfileDTO.GetEnableProvisionMatch EntityDTO_EntityProperty None = false
   /\ @EntityProfileDTO.GetEnableResizeMatch EntityDTO_EntityProperty None = false
   /\ @EntityProfileDTO.GetEntityProperties EntityDTO_EntityProperty None = [])
  /\ (VMProfileDTO.GetNumVCPUs None = 0
      /\ VMProfileDTO.GetVCPUSpeed None = 0
      /\ VMProfileDTO.GetNumStorageConsumed None = 0)
  /\ (PMProfileDTO.GetNumCores None = 0
      /\ PMProfileDTO.GetCpuCoreSpeed None = 0)
  /\ (CommodityProfileDTO.GetCommodityType CommodityDTO_CLUSTER None
      = CommodityDTO_CLUSTER
      /\ CommodityProfileDTO.GetCapacity None = 0
      /\ CommodityProfileDTO.GetConsumedFactor None = 0
      /\ CommodityProfileDTO.GetConsumed None = 0
      /\ CommodityProfileDTO.GetReservation None = 0
      /\ CommodityProfileDTO.GetOverhead None = 0)
  /\ (@DeploymentProfileDTO.GetId ContextData None = []
      /\ @DeploymentProfileDTO.GetProfileName ContextData None = []
      /\ @DeploymentProfileDTO.GetContextData ContextData None = []
      /\ @DeploymentProfileDTO.GetRelatedEntityProfileId ContextData None = []
      /\ @DeploymentProfileDTO.GetRelatedScopeId ContextData None = []).
Proof. repeat split. Qed.

(** C10.  The getters of the two required enumerations hide absence:
    [GetEntityType] returns [EntityDTO_SWITCH] when [EntityType] is nil, which
    is also what it returns when the field is set to [EntityDTO_SWITCH], though
    the two messages differ in the field itself; and likewise
    [GetCommodityType] with [CommodityDTO_CLUSTER]. *)
Theorem enum_getters_hide_absence (EntityDTO_EntityProperty : Type)
  (EntityDTO_SWITCH : EntityDTO_EntityType)
  (CommodityDTO_CLUSTER : CommodityDTO_CommodityType)
  f1 f2 f4 f5 f6 f7 o f10 f11 (f12 : list EntityDTO_EntityProperty) u
  c2 c3 c4 c5 c6 cu :
  let absent := EntityProfileDTO.Build f1 f2 None f4 f5 f6 f7 o f10 f11 f12 u in
  let set :=
    EntityProfileDTO.Build f1 f2 (Some EntityDTO_SWITCH) f4 f5 f6 f7 o f10 f11 f12 u in
  let cabsent := CommodityProfileDTO.Build None c2 c3 c4 c5 c6 cu in
  let cset := CommodityProfileDTO.Build (Some CommodityDTO_CLUSTER) c2 c3 c4 c5 c6 cu in
  EntityProfileDTO.GetEntityType EntityDTO_SWITCH (Some absent) = EntityDTO_SWITCH
  /\ EntityProfileDTO.GetEntityType EntityDTO_SWITCH (Some absent)
     = EntityProfileDTO.GetEntityType EntityDTO_SWITCH (Some set)
  /\ EntityProfileDTO.EntityType absent = None
  /\ EntityProfileDTO.EntityType set = Some EntityDTO_SWITCH
  /\ absent <> set
  /\ CommodityProfileDTO.GetCommodityType CommodityDTO_CLUSTER (Some cabsent)
     = CommodityDTO_CLUSTER
  /\ CommodityProfileDTO.GetCommodityType CommodityDTO_CLUSTER (Some cabsent)
     = CommodityProfileDTO.GetCommodityType CommodityDTO_CLUSTER (Some cset)
  /\ CommodityProfileDTO.CommodityType cabsent = None
  /\ CommodityProfileDTO.CommodityType cset = Some CommodityDTO_CLUSTER
  /\ cabsent <> cset.
Proof.
  cbv zeta. repeat split; discriminate.
Qed.

(** ** The claims at sample values *)

Lemma round_trip_witness :
  valid_EntityProfileDTO _ Examples.raw_Marshal Examples.raw_valid Examples.profile1
  = true
  /\ exists b pre,
      Marshal_EntityProfileDTO _ Examples.raw_Marshal Examples.profile1
      = Return (Ok b)
      /\ Unmarshal_EntityProfileDTO _ Examples.raw_UnmarshalMerge b
         = Ok Examples.profile1
      /\ b = pre ++ EntityProfileDTO.XXX_unrecognized Examples.profile1.
Proof.
  split; [ reflexivity | ].
  apply (proj1 (round_trip (list byte) (list byte)
                  Examples.raw_Marshal Examples.raw_UnmarshalMerge Examples.raw_valid
                  Examples.raw_Marshal Examples.raw_UnmarshalMerge Examples.raw_valid
                  (fun p _ => eq_refl) (fun c _ => eq_refl))).
  reflexivity.
Defined.

Lemma last_variant_tag_wins_witness :
  Unmarshal_EntityProfileDTO _ Examples.raw_UnmarshalMerge Examples.both_variants
  = Ok (EntityProfileDTO.Build
          (Some (list_byte_of_string "profile-1"))
          (Some (list_byte_of_string "Large VM"))
          (Some Examples.VIRTUAL_MACHINE) [] None None None
          (Some (EntityProfileDTO.is_PmProfileDTO
                   (Some {| EntityProfileDTO.PmProfileDTO := Some Examples.pm8 |})))
          None None [] [])
  /\ map field_tag (fields Examples.both_variants) = [1; 2; 3; 8; 9]
  /\ match last_variant (fields Examples.both_variants) with
     | Some f =>
         Some (EntityProfileDTO.is_PmProfileDTO
                 (Some {| EntityProfileDTO.PmProfileDTO := Some Examples.pm8 |}))
         = variant_of_field f
         /\ (field_tag f = 8 \/ field_tag f = 9)
         /\ exists l1 l2,
             fields Examples.both_variants = l1 ++ f :: l2
             /\ forallb (fun g => negb (is_variant g)) l2 = true
     | None =>
         Some (EntityProfileDTO.is_PmProfileDTO
                 (Some {| EntityProfileDTO.PmProfileDTO := Some Examples.pm8 |}))
         = None
         /\ forallb (fun g => negb (is_variant g)) (fields Examples.both_variants)
            = true
     end.
Proof.
  split; [ reflexivity | ]. split; [ reflexivity | ].
  apply (proj1 (last_variant_tag_wins (list byte) Examples.raw_UnmarshalMerge
                  Examples.both_variants _ eq_refl)).
Defined.

Lemma variant_exclusivity_witness :
  fits_VMOrPMProfileData (EntityProfileDTO.VMOrPMProfileData Examples.profile1)
  = true
  /\ _EntityProfileDTO_OneofMarshaler _ Examples.profile1 []
     = Return (EncodeVarint (key 8 WireBytes)
               ++ EncodeRawBytes (Marshal_VMProfileDTO Examples.vm4), None)
  /\ exists out,
      EncodeVarint (key 8 WireBytes)
      ++ EncodeRawBytes (Marshal_VMProfileDTO Examples.vm4) = [] ++ out
      /\ keys out
         = variant_tags (EntityProfileDTO.VMOrPMProfileData Examples.profile1)
      /\ (EntityProfileDTO.VMOrPMProfileData Examples.profile1 = None -> out = [])
      /\ (length (keys out) <= 1)%nat.
Proof.
  split; [ reflexivity | ]. split; [ reflexivity | ].
  apply (proj1 (variant_exclusivity (list byte) Examples.raw_Marshal
                  Examples.raw_valid Examples.profile1 []
                  (EncodeVarint (key 8 WireBytes)
                   ++ EncodeRawBytes (Marshal_VMProfileDTO Examples.vm4)) None
                  eq_refl eq_refl)).
Defined.

Lemma variant_bad_wire_type_witness :
  DecodeVarint Examples.bad_variant = Ok (64, EncodeVarint 1)
  /\ Unmarshal_EntityProfileDTO _ Examples.raw_UnmarshalMerge Examples.bad_variant
     = Err MALFORMED_VARIANT.
Proof.
  split; [ reflexivity | ].
  apply (variant_bad_wire_type (list byte) Examples.raw_UnmarshalMerge
           EntityProfileDTO.new Examples.bad_variant 64 (EncodeVarint 1) eq_refl).
  - left. reflexivity.
  - discriminate.
Defined.

Lemma required_field_enforced_witness :
  tags Examples.no_id = [2; 3]
  /\ Unmarshal_EntityProfileDTO _ Examples.raw_UnmarshalMerge Examples.no_id
     = Err (MISSING_REQUIRED_FIELD "id").
Proof.
  split; [ reflexivity | ].
  apply (proj1 (required_field_enforced (list byte) (list byte)
                  Examples.raw_UnmarshalMerge Examples.raw_UnmarshalMerge
                  Examples.no_id) _ eq_refl).
Defined.

Lemma unexpected_union_type_witness :
  _EntityProfileDTO_OneofMarshaler _ Examples.odd_union []
  = Return ([], Some (Errorf
      "EntityProfileDTO.VMOrPMProfileData has unexpected type *proto.Other"))
  /\ Marshal_EntityProfileDTO _ Examples.raw_Marshal Examples.odd_union
     = Return (Err (Errorf
         "EntityProfileDTO.VMOrPMProfileData has unexpected type *proto.Other"))
  /\ _EntityProfileDTO_OneofSizer _ Examples.odd_union
     = Panic "proto: unexpected type *proto.Other in oneof".
Proof.
  apply (unexpected_union_type (list byte) Examples.raw_Marshal Examples.odd_union
           "*proto.Other" [] eq_refl).
Defined.

End Claims.

(** * Further properties of the generated code *)

Module HookFacts.
Import Wire Codec Stream Valid Methods WireFacts LoopFacts DecoderFacts StepFacts.
Import EntityProfileDTO.

Lemma int_small (x : Z) : 0 <= x < 2 ^ 63 -> int x = x.
Proof. intros H. unfold int. rewrite Z.mod_small; lia. Qed.

Lemma EncodeVarint_uint64 (x : Z) : EncodeVarint (uint64 x) = EncodeVarint x.
Proof. unfold EncodeVarint. now rewrite uint64_idem. Qed.

(** The oneof hooks undo each other on a valid union with a payload, that is
    a payload whose fields are in range, whose encoding fits a slice, and whose
    unrecognized bytes are records of fields that are not of the schema: what
    [_EntityProfileDTO_OneofMarshaler] appends is one keyed field, and
    [_EntityProfileDTO_OneofUnmarshaler], called with the tag and wire type of
    that key on the bytes after it, consumes exactly the field, reports it as
    handled without error, and stores the same union into the message it is
    given, whatever that message held. *)
Theorem OneofUnmarshaler_OneofMarshaler (EntityDTO_EntityProperty : Type)
  (m : t EntityDTO_EntityProperty)
  f1 f2 f3 f4 f5 f6 f7 o f10 f11 (f12 : list EntityDTO_EntityProperty) u
  (rest : list byte) :
  valid_VMOrPMProfileData (VMOrPMProfileData m) = true ->
  VMOrPMProfileData m <> None ->
  exists out k b1,
    _EntityProfileDTO_OneofMarshaler _ m [] = Return (out, None)
    /\ DecodeVarint (out ++ rest) = Ok (k, b1)
    /\ _EntityProfileDTO_OneofUnmarshaler _
         (Build f1 f2 f3 f4 f5 f6 f7 o f10 f11 f12 u)
         (Z.shiftr k 3) (Z.land k 7) b1
       = (Build f1 f2 f3 f4 f5 f6 f7 (VMOrPMProfileData m) f10 f11 f12 u,
          rest, (true, None)).
Proof.
  destruct m as [g1 g2 g3 g4 g5 g6 g7 v g10 g11 g12 gu].
  cbn [VMOrPMProfileData]. unfold _EntityProfileDTO_OneofMarshaler.
  cbn [VMOrPMProfileData].
  destruct v as [[[[[vm|]]|]|[[[pm|]]|]|T]|]; try discriminate;
    cbn [valid_VMOrPMProfileData EncodeMessage VmProfileDTO PmProfileDTO];
    intros Hv Hn; [ | | contradiction ];
    apply andb_prop in Hv; destruct Hv as [Hv Hf].
  - eexists _, _, _. split; [ reflexivity | ]. cbn [app].
    rewrite <- app_assoc. split; [ apply DecodeVarint_EncodeVarint | ].
    change (Z.shiftr (uint64 (Z.lor (Z.shiftl 8 3) WireBytes)) 3) with 8.
    change (Z.land (uint64 (Z.lor (Z.shiftl 8 3) WireBytes)) 7) with WireBytes.
    rewrite OneofUnmarshaler_8. unfold DecodeMessage.
    rewrite DecodeRawBytes_EncodeRawBytes by now apply fits_lt.
    now rewrite UnmarshalMerge_Marshal_VMProfileDTO.
  - eexists _, _, _. split; [ reflexivity | ]. cbn [app].
    rewrite <- app_assoc. split; [ apply DecodeVarint_EncodeVarint | ].
    change (Z.shiftr (uint64 (Z.lor (Z.shiftl 9 3) WireBytes)) 3) with 9.
    change (Z.land (uint64 (Z.lor (Z.shiftl 9 3) WireBytes)) 7) with WireBytes.
    rewrite OneofUnmarshaler_9. unfold DecodeMessage.
    rewrite DecodeRawBytes_EncodeRawBytes by now apply fits_lt.
    now rewrite UnmarshalMerge_Marshal_PMProfileDTO.
Qed.

(** The sizer agrees with the marshaler: whenever
    [_EntityProfileDTO_OneofMarshaler] succeeds, [_EntityProfileDTO_OneofSizer]
    returns the number of bytes the marshaler appended (the buffer being a Go
    slice, shorter than [2 ^ 63]). *)
Theorem OneofSizer_OneofMarshaler (EntityDTO_EntityProperty : Type)
  (m : t EntityDTO_EntityProperty) (b b' : list byte) :
  _EntityProfileDTO_OneofMarshaler _ m b = Return (b', None) ->
  Z.of_nat (length b') < 2 ^ 63 ->
  _EntityProfileDTO_OneofSizer _ m
  = Return (Z.of_nat (length b') - Z.of_nat (length b)).
Proof.
  destruct m as [g1 g2 g3 g4 g5 g6 g7 v g10 g11 g12 gu].
  unfold _EntityProfileDTO_OneofMarshaler, _EntityProfileDTO_OneofSizer.
  cbn [VMOrPMProfileData].
  assert (Hsize : forall (body : list byte) (key : Z),
             Z.of_nat (length ((b ++ EncodeVarint key) ++ EncodeRawBytes body))
             < 2 ^ 63 ->
             int (int (int (0 + SizeVarint key)
                       + SizeVarint (uint64 (int (Z.of_nat (length body)))))
                  + int (Z.of_nat (length body)))
             = Z.of_nat (length ((b ++ EncodeVarint key) ++ EncodeRawBytes body))
               - Z.of_nat (length b)).
  { intros body key Hlen. unfold SizeVarint, EncodeRawBytes in *.
    rewrite !length_app in Hlen. rewrite !length_app.
    rewrite (int_small (Z.of_nat (length body))) by lia.
    rewrite EncodeVarint_uint64.
    rewrite (int_small (0 + Z.of_nat (length (EncodeVarint key)))) by lia.
    rewrite (int_small (0 + Z.of_nat (length (EncodeVarint key)) + _)) by lia.
    rewrite int_small by lia. lia. }
  destruct v as [[[[[vm|]]|]|[[[pm|]]|]|T]|]; try discriminate;
    cbn [EncodeMessage VmProfileDTO PmProfileDTO Size];
    intros H Hlen; inversion H; subst; clear H.
  - f_equal. now apply Hsize.
  - f_equal. now apply Hsize.
  - f_equal. lia.
Qed.

(** The unmarshaler touches nothing but the union: every other field of the
    message is as it was, what is left of the buffer is a suffix of what was
    given, and the field is reported as handled exactly on the tags 8 and 9;
    on any other tag message and buffer come back unchanged, without
    error. *)
Theorem OneofUnmarshaler_frame (EntityDTO_EntityProperty : Type)
  (m m' : t EntityDTO_EntityProperty) (tag wire : Z) (b b' : list byte)
  (handled : bool) (err : option error) :
  _EntityProfileDTO_OneofUnmarshaler _ m tag wire b = (m', b', (handled, err)) ->
  (Id m' = Id m /\ DisplayName m' = DisplayName m /\ EntityType m' = EntityType m
   /\ CommodityProfile m' = CommodityProfile m /\ Model m' = Model m
   /\ Vendor m' = Vendor m /\ Description m' = Description m
   /\ EnableProvisionMatch m' = EnableProvisionMatch m
   /\ EnableResizeMatch m' = EnableResizeMatch m
   /\ EntityProperties m' = EntityProperties m
   /\ XXX_unrecognized m' = XXX_unrecognized m)
  /\ (exists pre, b = pre ++ b')
  /\ (handled = true <-> tag = 8 \/ tag = 9)
  /\ (handled = false -> m' = m /\ b' = b /\ err = None).
Proof.
  assert (Hsuf : forall {M : Type} (un : M -> list byte -> M * option error)
                        (new : M) msg b1 e,
             DecodeMessage un new b = (msg, b1, e) -> exists pre, b = pre ++ b1).
  { intros M un new msg b1 e. unfold DecodeMessage.
    destruct (DecodeRawBytes b) as [[body b2]|e2] eqn:E.
    - destruct (un new body). intros H. inversion H; subst.
      apply DecodeRawBytes_suffix in E. destruct E as [pre [-> _]]. now exists pre.
    - intros H. inversion H; subst. now exists []. }
  destruct m as [g1 g2 g3 g4 g5 g6 g7 v g10 g11 g12 gu].
  unfold _EntityProfileDTO_OneofUnmarshaler.
  destruct (Z.eqb_spec tag 8) as [->|H8]; [ | destruct (Z.eqb_spec tag 9) as [->|H9] ].
  - destruct (negb (wire =? WireBytes)).
    + intros H. inversion H; subst. repeat split; try discriminate; auto.
      now exists [].
    + destruct (DecodeMessage _ _ b) as [[msg b1] e] eqn:E.
      intros H. inversion H; subst. apply Hsuf in E.
      repeat split; try discriminate; auto.
  - destruct (negb (wire =? WireBytes)).
    + intros H. inversion H; subst. repeat split; try discriminate; auto.
      now exists [].
    + destruct (DecodeMessage _ _ b) as [[msg b1] e] eqn:E.
      intros H. inversion H; subst. apply Hsuf in E.
      repeat split; try discriminate; auto.
  - intros H. inversion H; subst. repeat split; try discriminate; auto.
    + now exists [].
    + intros [?|?]; contradiction.
Qed.

(** The marshaler only appends, and what it appends is decided by the union
    alone: on two messages with the same union and on any two buffers, it
    leaves each buffer's content in place, appends the same bytes and gives the
    same error, or panics on both; and the sizer gives the same result on
    both messages. *)
Theorem OneofMarshaler_appends (EntityDTO_EntityProperty : Type)
  (m1 m2 : t EntityDTO_EntityProperty) (b1 b2 : list byte) :
  VMOrPMProfileData m1 = VMOrPMProfileData m2 ->
  match _EntityProfileDTO_OneofMarshaler _ m1 b1 with
  | Return (b1', err) =>
      exists out,
        b1' = b1 ++ out
        /\ _EntityProfileDTO_OneofMarshaler _ m2 b2 = Return (b2 ++ out, err)
  | Panic msg => _EntityProfileDTO_OneofMarshaler _ m2 b2 = Panic msg
  end
  /\ _EntityProfileDTO_OneofSizer _ m1 = _EntityProfileDTO_OneofSizer _ m2.
Proof.
  intros H. unfold _EntityProfileDTO_OneofMarshaler, _EntityProfileDTO_OneofSizer.
  rewrite <- H. split; [ | reflexivity ].
  destruct (VMOrPMProfileData m1) as [[[[[vm|]]|]|[[[pm|]]|]|T]|];
    cbn [EncodeMessage VmProfileDTO PmProfileDTO]; try reflexivity.
  - eexists. rewrite <- !app_assoc. split; reflexivity.
  - eexists. split; reflexivity.
  - eexists. rewrite <- !app_assoc. split; reflexivity.
  - eexists. split; reflexivity.
  - exists []. now rewrite !app_nil_r.
  - exists []. now rewrite !app_nil_r.
Qed.

(** The two variant getters read the union: [GetVmProfileDTO] returns a
    message exactly when the union holds a VM wrapper with that message, and
    [GetPmProfileDTO] likewise for the PM wrapper; so they never both return a
    message, and both return nil when the union is nil. *)
Theorem variant_getters_exclusive (EntityDTO_EntityProperty : Type)
  (m : t EntityDTO_EntityProperty) :
  (forall vm,
      GetVmProfileDTO (Some m) = Return (Some vm)
      <-> VMOrPMProfileData m
          = Some (is_VmProfileDTO (Some {| VmProfileDTO := Some vm |})))
  /\ (forall pm,
         GetPmProfileDTO (Some m) = Return (Some pm)
         <-> VMOrPMProfileData m
             = Some (is_PmProfileDTO (Some {| PmProfileDTO := Some pm |})))
  /\ (forall vm pm,
         ~ (GetVmProfileDTO (Some m) = Return (Some vm)
            /\ GetPmProfileDTO (Some m) = Return (Some pm)))
  /\ (VMOrPMProfileData m = None ->
      GetVmProfileDTO (Some m) = Return None
      /\ GetPmProfileDTO (Some m) = Return None).
Proof.
  unfold GetVmProfileDTO, GetPmProfileDTO, GetVMOrPMProfileData.
  destruct (VMOrPMProfileData m) as [[[[[vm'|]]|]|[[[pm'|]]|]|T]|];
    cbn [VmProfileDTO PmProfileDTO];
    (split; [ intros vm; split; intros H; inversion H; reflexivity
            | split; [ intros pm; split; intros H; inversion H; reflexivity
                     | split; [ intros vm pm [H1 H2]; discriminate
                              | try discriminate; auto ] ] ]).
Qed.

(** A nil wrapper pointer in the union is not nil to the type switch: the
    marshaler, the sizer and the getter of that variant all dereference it and
    panic with the nil dereference of the runtime, while the getter of the
    other variant returns nil.  This holds for the VM wrapper and for the PM
    wrapper. *)
Theorem nil_wrapper_panics (EntityDTO_EntityProperty : Type)
  (m : t EntityDTO_EntityProperty) (b : list byte) :
  (VMOrPMProfileData m = Some (is_VmProfileDTO None) ->
   _EntityProfileDTO_OneofMarshaler _ m b
   = Panic "invalid memory address or nil pointer dereference"
   /\ _EntityProfileDTO_OneofSizer _ m
      = Panic "invalid memory address or nil pointer dereference"
   /\ GetVmProfileDTO (Some m)
      = Panic "invalid memory address or nil pointer dereference"
   /\ GetPmProfileDTO (Some m) = Return None)
  /\ (VMOrPMProfileData m = Some (is_PmProfileDTO None) ->
      _EntityProfileDTO_OneofMarshaler _ m b
      = Panic "invalid memory address or nil pointer dereference"
      /\ _EntityProfileDTO_OneofSizer _ m
         = Panic "invalid memory address or nil pointer dereference"
      /\ GetPmProfileDTO (Some m)
         = Panic "invalid memory address or nil pointer dereference"
      /\ GetVmProfileDTO (Some m) = Return None).
Proof.
  unfold _EntityProfileDTO_OneofMarshaler, _EntityProfileDTO_OneofSizer,
    GetVmProfileDTO, GetPmProfileDTO, GetVMOrPMProfileData.
  split; intros H; rewrite H; repeat split; reflexivity.
Qed.


(** What was decoded can be encoded: on a message that [proto.Unmarshal] built,
    the marshaler returns without error, the sizer returns, and neither
    variant getter panics. *)
Theorem decoded_union_encodes (EntityDTO_EntityProperty : Type)
  (UnmarshalMerge_EntityProperty :
     list byte -> EntityDTO_EntityProperty * option error)
  (buf : list byte) (m : t EntityDTO_EntityProperty) (b : list byte) :
  Unmarshal_EntityProfileDTO _ UnmarshalMerge_EntityProperty buf = Ok m ->
  (exists out, _EntityProfileDTO_OneofMarshaler _ m b = Return (b ++ out, None))
  /\ (exists n, _EntityProfileDTO_OneofSizer _ m = Return n)
  /\ (exists vm pm,
         GetVmProfileDTO (Some m) = Return vm
         /\ GetPmProfileDTO (Some m) = Return pm
         /\ (vm = None \/ pm = None)).
Proof.
  intros H.
  unfold Unmarshal_EntityProfileDTO, UnmarshalMerge_EntityProfileDTO,
    unmarshalMerge in H.
  destruct (run _ _ new buf) as [m' [e|]] eqn:R; [ discriminate | ].
  cbn [to_result] in H.
  destruct (required_EntityProfileDTO _ m'); [ discriminate | ].
  inversion H; subst.
  apply steps_EntityProfileDTO in R. apply steps_VMOrPMProfileData in R.
  cbn [new VMOrPMProfileData] in R.
  unfold _EntityProfileDTO_OneofMarshaler, _EntityProfileDTO_OneofSizer,
    GetVmProfileDTO, GetPmProfileDTO, GetVMOrPMProfileData.
  rewrite R.
  destruct (last_variant (fields buf)) as [f|].
  - unfold variant_of_field. destruct (field_tag f =? 8).
    + destruct (DecodeMessage _ _ (field_input f)) as [[msg b1] e].
      cbn [EncodeMessage VmProfileDTO].
      split; [ eexists; rewrite <- app_assoc; reflexivity | ].
      split; [ eexists; reflexivity | ].
      eexists _, _. split; [ reflexivity | split; [ reflexivity | now right ] ].
    + destruct (DecodeMessage _ _ (field_input f)) as [[msg b1] e].
      cbn [EncodeMessage PmProfileDTO].
      split; [ eexists; rewrite <- app_assoc; reflexivity | ].
      split; [ eexists; reflexivity | ].
      eexists _, _. split; [ reflexivity | split; [ reflexivity | now left ] ].
  - split; [ exists []; now rewrite app_nil_r | ].
    split; [ eexists; reflexivity | ].
    eexists _, _. split; [ reflexivity | split; [ reflexivity | now left ] ].
Qed.

Lemma OneofUnmarshaler_OneofMarshaler_witness :
  valid_VMOrPMProfileData (VMOrPMProfileData Examples.profile1) = true
  /\ VMOrPMProfileData Examples.profile1 <> None
  /\ exists out k b1,
      _EntityProfileDTO_OneofMarshaler _ Examples.profile1 [] = Return (out, None)
      /\ DecodeVarint (out ++ ["*"%byte]) = Ok (k, b1)
      /\ _EntityProfileDTO_OneofUnmarshaler (list byte) HookExamples.decoded_pm8
           (Z.shiftr k 3) (Z.land k 7) b1
         = (Build (Id HookExamples.decoded_pm8)
              (DisplayName HookExamples.decoded_pm8)
              (EntityType HookExamples.decoded_pm8) [] None None None
              (VMOrPMProfileData Examples.profile1) None None [] [],
            ["*"%byte], (true, None)).
Proof.
  split; [ reflexivity | ]. split; [ discriminate | ].
  apply (OneofUnmarshaler_OneofMarshaler (list byte) Examples.profile1
           (Id HookExamples.decoded_pm8) (DisplayName HookExamples.decoded_pm8)
           (EntityType HookExamples.decoded_pm8) [] None None None
           (VMOrPMProfileData HookExamples.decoded_pm8) None None [] []
           ["*"%byte] eq_refl).
  discriminate.
Defined.

Lemma OneofSizer_OneofMarshaler_witness :
  _EntityProfileDTO_OneofMarshaler _ Examples.profile1 ["*"%byte]
  = Return (["*"%byte] ++ EncodeVarint (key 8 WireBytes)
            ++ EncodeRawBytes (Marshal_VMProfileDTO Examples.vm4), None)
  /\ Z.of_nat (length (["*"%byte] ++ EncodeVarint (key 8 WireBytes)
                       ++ EncodeRawBytes (Marshal_VMProfileDTO Examples.vm4)))
     < 2 ^ 63
  /\ _EntityProfileDTO_OneofSizer (list byte) Examples.profile1
     = Return (Z.of_nat (length (["*"%byte] ++ EncodeVarint (key 8 WireBytes)
                                 ++ EncodeRawBytes
                                      (Marshal_VMProfileDTO Examples.vm4)))
               - Z.of_nat (length ["*"%byte])).
Proof.
  split; [ reflexivity | ]. split; [ reflexivity | ].
  apply (OneofSizer_OneofMarshaler (list byte) Examples.profile1 ["*"%byte]
           (["*"%byte] ++ EncodeVarint (key 8 WireBytes)
            ++ EncodeRawBytes (Marshal_VMProfileDTO Examples.vm4))
           eq_refl eq_refl).
Defined.

Lemma OneofUnmarshaler_frame_witness :
  _EntityProfileDTO_OneofUnmarshaler (list byte) Examples.profile1 9 WireBytes
    (EncodeRawBytes (Marshal_PMProfileDTO Examples.pm8) ++ ["*"%byte])
  = (Build (Id Examples.profile1) (DisplayName Examples.profile1)
       (EntityType Examples.profile1) (CommodityProfile Examples.profile1)
       None None None
       (VMOrPMProfileData HookExamples.decoded_pm8)
       None (Some false) (EntityProperties Examples.profile1)
       (XXX_unrecognized Examples.profile1),
     ["*"%byte], (true, None))
  /\ exists pre,
      EncodeRawBytes (Marshal_PMProfileDTO Examples.pm8) ++ ["*"%byte]
      = pre ++ ["*"%byte].
Proof.
  split; [ reflexivity | ].
  apply (proj1 (proj2 (OneofUnmarshaler_frame (list byte) Examples.profile1
                         (Build (Id Examples.profile1)
                            (DisplayName Examples.profile1)
                            (EntityType Examples.profile1)
                            (CommodityProfile Examples.profile1)
                            None None None
                            (VMOrPMProfileData HookExamples.decoded_pm8)
                            None (Some false)
                            (EntityProperties Examples.profile1)
                            (XXX_unrecognized Examples.profile1))
                         9 WireBytes
                         (EncodeRawBytes (Marshal_PMProfileDTO Examples.pm8)
                          ++ ["*"%byte])
                         ["*"%byte] true None eq_refl))).
Defined.

Lemma OneofMarshaler_appends_witness :
  VMOrPMProfileData Examples.profile1 = VMOrPMProfileData HookExamples.bare_vm4
  /\ _EntityProfileDTO_OneofSizer (list byte) Examples.profile1
     = _EntityProfileDTO_OneofSizer (list byte) HookExamples.bare_vm4.
Proof.
  split; [ reflexivity | ].
  apply (proj2 (OneofMarshaler_appends (list byte) Examples.profile1
                  HookExamples.bare_vm4 [] ["*"%byte] eq_refl)).
Defined.

Lemma nil_wrapper_panics_witness :
  VMOrPMProfileData HookExamples.nil_wrapper = Some (is_VmProfileDTO None)
  /\ _EntityProfileDTO_OneofMarshaler (list byte) HookExamples.nil_wrapper []
     = Panic "invalid memory address or nil pointer dereference"
  /\ _EntityProfileDTO_OneofSizer (list byte) HookExamples.nil_wrapper
     = Panic "invalid memory address or nil pointer dereference"
  /\ GetVmProfileDTO (Some HookExamples.nil_wrapper)
     = Panic "invalid memory address or nil pointer dereference"
  /\ GetPmProfileDTO (Some HookExamples.nil_wrapper) = Return None.
Proof.
  split; [ reflexivity | ].
  apply (proj1 (nil_wrapper_panics (list byte) HookExamples.nil_wrapper [])
           eq_refl).
Defined.


Lemma decoded_union_encodes_witness :
  Unmarshal_EntityProfileDTO _ Examples.raw_UnmarshalMerge Examples.both_variants
  = Ok HookExamples.decoded_pm8
  /\ exists out,
      _EntityProfileDTO_OneofMarshaler _ HookExamples.decoded_pm8 ["*"%byte]
      = Return (["*"%byte] ++ out, None).
Proof.
  split; [ reflexivity | ].
  apply (proj1 (decoded_union_encodes (list byte) Examples.raw_UnmarshalMerge
                  Examples.both_variants HookExamples.decoded_pm8 ["*"%byte]
                  eq_refl)).
Defined.

End HookFacts.

Module GetterFacts.
Import Methods.

Ltac getter_present :=
  match goal with
  | |- forall m, _ -> exists m', m = Some m' /\ _ =>
      let m := fresh "m" in
      let H := fresh "H" in
      intros [m|] H; [ | now contradiction H ];
      exists m; split; [ reflexivity | ];
      cbv beta delta -[Z.eqb] iota in H |- *;
      match goal with
      | |- ?f = _ => destruct f; [ reflexivity | now contradiction H ]
      end
  end.

(** A getter that returns something else than its default tells that the
    receiver is not nil and that the field is set to the value returned.  This
    holds for every getter of an optional scalar or string of the five
    messages. *)
Theorem getter_value_is_stored (EntityDTO_EntityProperty ContextData : Type)
  (EntityDTO_SWITCH : EntityDTO_EntityType)
  (CommodityDTO_CLUSTER : CommodityDTO_CommodityType) :
  ((forall m : option (EntityProfileDTO.t EntityDTO_EntityProperty),
       EntityProfileDTO.GetId m <> [] ->
       exists m', m = Some m'
                  /\ EntityProfileDTO.Id m' = Some (EntityProfileDTO.GetId m))
   /\ (forall m : option (EntityProfileDTO.t EntityDTO_EntityProperty),
          EntityProfileDTO.GetDisplayName m <> [] ->
          exists m', m = Some m'
                     /\ EntityProfileDTO.DisplayName m'
                        = Some (EntityProfileDTO.GetDisplayName m))
   /\ (forall m : option (EntityProfileDTO.t EntityDTO_EntityProperty),
          EntityProfileDTO.GetEntityType EntityDTO_SWITCH m <> EntityDTO_SWITCH ->
          exists m', m = Some m'
                     /\ EntityProfileDTO.EntityType m'
                        = Some (EntityProfileDTO.GetEntityType EntityDTO_SWITCH m))
   /\ (forall m : option (EntityProfileDTO.t EntityDTO_EntityProperty),
          EntityProfileDTO.GetModel m <> [] ->
          exists m', m = Some m'
                     /\ EntityProfileDTO.Model m'
                        = Some (EntityProfileDTO.GetModel m))
   /\ (forall m : option (EntityProfileDTO.t EntityDTO_EntityProperty),
          EntityProfileDTO.GetVendor m <> [] ->
          exists m', m = Some m'
                     /\ EntityProfileDTO.Vendor m'
                        = Some (EntityProfileDTO.GetVendor m))
   /\ (forall m : option (EntityProfileDTO.t EntityDTO_EntityProperty),
          EntityProfileDTO.GetDescription m <> [] ->
          exists m', m = Some m'
                     /\ EntityProfileDTO.Description m'
                        = Some (EntityProfileDTO.GetDescription m))
   /\ (forall m : option (EntityProfileDTO.t EntityDTO_EntityProperty),
          EntityProfileDTO.GetEnableProvisionMatch m <> false ->
          exists m', m = Some m'
                     /\ EntityProfileDTO.EnableProvisionMatch m'
                        = Some (EntityProfileDTO.GetEnableProvisionMatch m))
   /\ (forall m : option (EntityProfileDTO.t EntityDTO_EntityProperty),
          EntityProfileDTO.GetEnableResizeMatch m <> false ->
          exists m', m = Some m'
                     /\ EntityProfileDTO.EnableResizeMatch m'
                        = Some (EntityProfileDTO.GetEnableResizeMatch m)))
  /\ ((forall m, VMProfileDTO.GetNumVCPUs m <> 0 ->
                 exists m', m = Some m'
                            /\ VMProfileDTO.NumVCPUs m'
                               = Some (VMProfileDTO.GetNumVCPUs m))
      /\ (forall m, VMProfileDTO.GetVCPUSpeed m <> 0 ->
                    exists m', m = Some m'
                               /\ VMProfileDTO.VCPUSpeed m'
                                  = Some (VMProfileDTO.GetVCPUSpeed m))
      /\ (forall m, VMProfileDTO.GetNumStorageConsumed m <> 0 ->
                    exists m', m = Some m'
                               /\ VMProfileDTO.NumStorageConsumed m'
                                  = Some (VMProfileDTO.GetNumStorageConsumed m)))
  /\ ((forall m, PMProfileDTO.GetNumCores m <> 0 ->
                 exists m', m = Some m'
                            /\ PMProfileDTO.NumCores m'
                               = Some (PMProfileDTO.GetNumCores m))
      /\ (forall m, PMProfileDTO.GetCpuCoreSpeed m <> 0 ->
                    exists m', m = Some m'
                               /\ PMProfileDTO.CpuCoreSpeed m'
                                  = Some (PMProfileDTO.GetCpuCoreSpeed m)))
  /\ ((forall m,
          CommodityProfileDTO.GetCommodityType CommodityDTO_CLUSTER m
          <> CommodityDTO_CLUSTER ->
          exists m', m = Some m'
                     /\ CommodityProfileDTO.CommodityType m'
                        = Some (CommodityProfileDTO.GetCommodityType
                                  CommodityDTO_CLUSTER m))
      /\ (forall m, CommodityProfileDTO.GetCapacity m <> 0 ->
                    exists m', m = Some m'
                               /\ CommodityProfileDTO.Capacity m'
                                  = Some (CommodityProfileDTO.GetCapacity m))
      /\ (forall m, CommodityProfileDTO.GetConsumedFactor m <> 0 ->
                    exists m', m = Some m'
                               /\ CommodityProfileDTO.ConsumedFactor m'
                                  = Some (CommodityProfileDTO.GetConsumedFactor m))
      /\ (forall m, CommodityProfileDTO.GetConsumed m <> 0 ->
                    exists m', m = Some m'
                               /\ CommodityProfileDTO.Consumed m'
                                  = Some (CommodityProfileDTO.GetConsumed m))
      /\ (forall m, CommodityProfileDTO.GetReservation m <> 0 ->
                    exists m', m = Some m'
                               /\ CommodityProfileDTO.Reservation m'
                                  = Some (CommodityProfileDTO.GetReservation m))
      /\ (forall m, CommodityProfileDTO.GetOverhead m <> 0 ->
                    exists m', m = Some m'
                               /\ CommodityProfileDTO.Overhead m'
                                  = Some (CommodityProfileDTO.GetOverhead m)))
  /\ ((forall m : option (DeploymentProfileDTO.t ContextData),
          DeploymentProfileDTO.GetId m <> [] ->
          exists m', m = Some m'
                     /\ DeploymentProfileDTO.Id m'
                        = Some (DeploymentProfileDTO.GetId m))
      /\ (forall m : option (DeploymentProfileDTO.t ContextData),
             DeploymentProfileDTO.GetProfileName m <> [] ->
             exists m', m = Some m'
                        /\ DeploymentProfileDTO.ProfileName m'
                           = Some (DeploymentProfileDTO.GetProfileName m))).
Proof.
  repeat split; getter_present.
Qed.

End GetterFacts.

(** * Properties of the server *)

Module ServerFacts.
Import Server.

Section Probe.

Variable StitchingPropertyType : Type.
Variable stitching_IP stitching_UUID : StitchingPropertyType.

Local Abbreviation createProbeConfig' :=
  (createProbeConfig StitchingPropertyType stitching_IP stitching_UUID).

Lemma set_CAdvisorPort_same (s : VMTServer) :
  set_CAdvisorPort s (CAdvisorPort s) = s.
Proof. destruct s; reflexivity. Qed.

(** The probe is never configured with port 0 for cAdvisor: a server whose
    port is 0 is given the default port 4194, and keeps it, and any other
    server is left as it is.  The port of the configuration is the one the
    server has after the call, no other field of the server changes, and a
    second call changes nothing more. *)
Theorem createProbeConfig_port (s : VMTServer) :
  let s' := fst (createProbeConfig' s) in
  let c := snd (createProbeConfig' s) in
  CadvisorPort c <> 0
  /\ CadvisorPort c = CAdvisorPort s'
  /\ (CAdvisorPort s = 0 -> CadvisorPort c = 4194)
  /\ (CAdvisorPort s <> 0 -> s' = s)
  /\ s' = set_CAdvisorPort s (CadvisorPort c)
  /\ createProbeConfig' s' = (s', c).
Proof.
  unfold createProbeConfig. cbn zeta.
  destruct (CAdvisorPort s =? 0) eqn:E; cbn [fst snd CadvisorPort].
  - apply Z.eqb_eq in E. cbn.
    repeat split; try discriminate; try reflexivity.
    intros H; contradiction.
  - rewrite E. apply Z.eqb_neq in E.
    repeat split; try assumption; try reflexivity.
    + intros H; contradiction.
    + symmetry; apply set_CAdvisorPort_same.
Qed.

(** Nodes are stitched by UUID exactly when the server is told that the
    infrastructure is VMWare, and by IP otherwise; the call leaves that setting
    of the server alone. *)
Theorem createProbeConfig_stitching (s : VMTServer)
  (Hdistinct : stitching_IP <> stitching_UUID) :
  let s' := fst (createProbeConfig' s) in
  let c := snd (createProbeConfig' s) in
  (StitchingType c = stitching_UUID <-> UseVMWare s = true)
  /\ (StitchingType c = stitching_IP <-> UseVMWare s = false)
  /\ UseVMWare s' = UseVMWare s.
Proof.
  unfold createProbeConfig. cbn zeta.
  destruct (CAdvisorPort s =? 0); cbn [fst snd StitchingType set_CAdvisorPort UseVMWare];
    destruct (UseVMWare s); repeat split; intros H;
    try reflexivity; try discriminate; try congruence.
Qed.

(** The default of the flag [cadvisor-port] is the port that
    [createProbeConfig] puts in place of 0. *)
Theorem cadvisor_port_default (s s0 : VMTServer) (v : Z) (u : string) :
  In (IntVar p_CAdvisorPort "cadvisor-port" v u) (AddFlags s) ->
  CAdvisorPort s0 = 0 ->
  CadvisorPort (snd (createProbeConfig' s0)) = v.
Proof.
  intros Hin H0. unfold createProbeConfig. cbn zeta. rewrite H0. cbn.
  cbn in Hin.
  repeat (destruct Hin as [Hin|Hin]; [ try discriminate Hin | ]);
    try contradiction.
  inversion Hin; reflexivity.
Qed.

End Probe.

(** ** Flags *)

(** The nine flags have nine different names and are bound to nine different
    fields; no flag is bound to [BindPodsQPS] or to [BindPodsBurst].  The
    defaults are taken from six fields of the server only: whatever the server
    holds for the cAdvisor port, for profiling and for VMWare, the flags'
    defaults are the same. *)
Theorem AddFlags_flags (s : VMTServer) :
  length (AddFlags s) = 9%nat
  /\ NoDup (map flag_name (AddFlags s))
  /\ NoDup (map flag_pointer (AddFlags s))
  /\ (forall f, In f (AddFlags s) ->
                flag_pointer f <> p_BindPodsQPS
                /\ flag_pointer f <> p_BindPodsBurst)
  /\ (forall s2,
         Port s2 = Port s -> Address s2 = Address s -> Master s2 = Master s ->
         K8sTAPSpec s2 = K8sTAPSpec s ->
         TestingFlagPath s2 = TestingFlagPath s ->
         KubeConfig s2 = KubeConfig s ->
         AddFlags s2 = AddFlags s).
Proof.
  split; [ reflexivity | ].
  split.
  { cbn. repeat (constructor; [ cbn; intuition discriminate | ]). constructor. }
  split.
  { cbn. repeat (constructor; [ cbn; intuition discriminate | ]). constructor. }
  split.
  { intros f Hin. cbn in Hin.
    repeat (destruct Hin as [<-|Hin]; [ split; discriminate | ]).
    contradiction. }
  intros s2 H1 H2 H3 H4 H5 H6. unfold AddFlags.
  rewrite H1, H2, H3, H4, H5, H6. reflexivity.
Qed.

(** ** The checks and the run *)

Section CheckFlag.

Variable IP : Type.
Variable ParseIP : string -> option IP.
Variable ConfigFields KubeturboService : Type.

Local Abbreviation checkFlag' :=
  (checkFlag IP ParseIP ConfigFields KubeturboService).

(** [checkFlag] written out: its events, and its verdict. *)
Lemma checkFlag_eq (s : VMTServer) :
  checkFlag' s
  = ((if ((KubeConfig s =? "") && (Master s =? ""))%string
      then [glog WARNING
              "Neither --kubeconfig nor --master was specified.  Using default API client.  This might not work."]
      else [])
     ++ (if (Master s =? "")%string then []
         else [glog (V 3) ("Master is " ++ Master s)%string])
     ++ (if (TestingFlagPath s =? "")%string then []
         else [flag_SetPath (TestingFlagPath s)]),
     Ret (match ParseIP (Address s) with
          | None => Some ("wrong ip format:" ++ Address s)%string
          | Some _ => None
          end)).
Proof.
  unfold checkFlag, when, bindM, emit, ret.
  destruct (KubeConfig s =? "")%string, (Master s =? "")%string,
    (TestingFlagPath s =? "")%string, (ParseIP (Address s)); reflexivity.
Qed.

(** [checkFlag] always returns, and its verdict is about the address alone:
    it is nil exactly when the address parses, and otherwise it is the error
    whose text is [wrong ip format:] followed by the address.  Neither the
    master, nor the kubeconfig, nor the testing flag path can make the check
    fail. *)
Theorem checkFlag_verdict (s : VMTServer) :
  exists t v,
    checkFlag' s = (t, Ret v)
    /\ (v = None <-> ParseIP (Address s) <> None)
    /\ (v <> None -> v = Some ("wrong ip format:" ++ Address s)%string)
    /\ (forall s2, Address s2 = Address s -> snd (checkFlag' s2) = Ret v).
Proof.
  rewrite checkFlag_eq. eexists. eexists. split; [ reflexivity | ].
  split; [ | split ].
  - destruct (ParseIP (Address s)); split; intros H;
      try reflexivity; try discriminate; try congruence.
  - destruct (ParseIP (Address s)); intros H; [ now contradiction H | reflexivity ].
  - intros s2 H2. rewrite checkFlag_eq. cbn [snd]. rewrite H2. reflexivity.
Qed.

(** What [checkFlag] does besides its verdict does not depend on the address,
    so it is done also when the address is then refused: the testing flag
    path is set exactly when it is not empty; the warning is logged exactly
    when neither a kubeconfig nor a master is given, the master is logged
    exactly when there is one, and so never both; and [checkFlag] itself logs
    no error. *)
Theorem checkFlag_effects (s : VMTServer) :
  let t := fst (checkFlag' s) in
  (forall p, In (flag_SetPath p) t <-> p = TestingFlagPath s /\ p <> ""%string)
  /\ ((exists m, In (glog WARNING m) t)
      <-> KubeConfig s = ""%string /\ Master s = ""%string)
  /\ (forall m, In (glog (V 3) m) t
                <-> Master s <> ""%string /\ m = ("Master is " ++ Master s)%string)
  /\ ~ ((exists m, In (glog WARNING m) t) /\ (exists m, In (glog (V 3) m) t))
  /\ (forall m, ~ In (glog ERROR m) t /\ ~ In (glog FATAL m) t)
  /\ (forall s2,
         KubeConfig s2 = KubeConfig s -> Master s2 = Master s ->
         TestingFlagPath s2 = TestingFlagPath s ->
         fst (checkFlag' s2) = t).
Proof.
  cbv zeta. rewrite checkFlag_eq. cbn [fst].
  destruct (String.eqb_spec (KubeConfig s) "") as [Ek|Ek];
    destruct (String.eqb_spec (Master s) "") as [Em|Em];
    destruct (String.eqb_spec (TestingFlagPath s) "") as [Et|Et];
    cbn [andb app];
    (split; [ | split; [ | split; [ | split; [ | split ] ] ] ]);
    try (intros s2 H1 H2 H3; rewrite checkFlag_eq; cbn [fst];
         rewrite H1, H2, H3;
         repeat match goal with
                | |- context [String.eqb ?a ?b] =>
                    destruct (String.eqb_spec a b); try congruence
                end; reflexivity);
    try (intros m; split; cbn; intuition discriminate).
  all: try (intros p; split;
            [ cbn; intros H;
              repeat (destruct H as [H|H]; try discriminate H);
              try contradiction; inversion H; subst; split; congruence
            | intros [-> H]; cbn; try congruence; auto ]).
  all: try (split;
            [ intros [m H]; cbn in H;
              repeat (destruct H as [H|H]; try discriminate H);
              try contradiction; split; congruence
            | intros [H1 H2]; try congruence; eexists; cbn; left; reflexivity ]).
  all: try (intros m; split;
            [ cbn; intros H;
              repeat (destruct H as [H|H]; try discriminate H);
              try contradiction; inversion H; subst; split; congruence
            | intros [H ->]; cbn; try congruence; auto ]).
  all: try (intros [[m H] [m' H']]; cbn in H, H';
            repeat (destruct H as [H|H]; try discriminate H);
            repeat (destruct H' as [H'|H']; try discriminate H');
            contradiction).
Qed.

End CheckFlag.

Section KubeClient.

Variable ConfigFields Clientset : Type.
Variable BuildConfigFromFlags : string -> string -> Config ConfigFields + string.
Variable NewForConfig : Config ConfigFields -> Clientset + string.
Variable KubeturboService : Type.

Local Abbreviation createKubeClient' :=
  (createKubeClient ConfigFields Clientset BuildConfigFromFlags NewForConfig
     KubeturboService).

(** [createKubeClient] written out. *)
Lemma createKubeClient_eq (s : VMTServer) :
  createKubeClient' s
  = match BuildConfigFromFlags (Master s) (KubeConfig s) with
    | inr err =>
        ([clientcmd_BuildConfigFromFlags (Master s) (KubeConfig s);
          glog ERROR ("Error getting kubeconfig:  " ++ err)%string],
         Ret (inr err))
    | inl c =>
        match NewForConfig (with_rates c) with
        | inr err =>
            ([clientcmd_BuildConfigFromFlags (Master s) (KubeConfig s);
              kubernetes_NewForConfig (with_rates c);
              glog FATAL ("Invalid API configuration: " ++ err)%string],
             Stop Fatal)
        | inl k =>
            ([clientcmd_BuildConfigFromFlags (Master s) (KubeConfig s);
              kubernetes_NewForConfig (with_rates c)],
             Ret (inl k))
        end
    end.
Proof.
  unfold createKubeClient, with_rates, bindM, emit, ret, halt.
  destruct (BuildConfigFromFlags (Master s) (KubeConfig s)) as [c|err];
    [ | reflexivity ].
  cbn [fields QPS Burst].
  destruct (NewForConfig _); reflexivity.
Qed.

Lemma createKubeClient_same (s s2 : VMTServer) :
  Master s2 = Master s -> KubeConfig s2 = KubeConfig s ->
  createKubeClient' s2 = createKubeClient' s.
Proof.
  intros H1 H2. rewrite !createKubeClient_eq, H1, H2. reflexivity.
Qed.

(** The only error [createKubeClient] returns is the one of the kubeconfig:
    a client that cannot be made from the configuration ends the process
    instead.  A client is asked for, and returned, only for a configuration
    whose QPS is 20 and whose burst is 30, whatever the kubeconfig says, the
    other fields being those of the kubeconfig. *)
Theorem createKubeClient_result (s : VMTServer) :
  let t := fst (createKubeClient' s) in
  let r := snd (createKubeClient' s) in
  (forall err, r = Ret (inr err)
               <-> BuildConfigFromFlags (Master s) (KubeConfig s) = inr err)
  /\ (r = Stop Fatal
      <-> exists c err,
            BuildConfigFromFlags (Master s) (KubeConfig s) = inl c
            /\ NewForConfig (with_rates c) = inr err)
  /\ (forall k, r = Ret (inl k)
               <-> exists c,
                     BuildConfigFromFlags (Master s) (KubeConfig s) = inl c
                     /\ NewForConfig (with_rates c) = inl k)
  /\ (forall c, In (kubernetes_NewForConfig c) t ->
                QPS c = Float32.of_dyadic 20 0 /\ Burst c = 30
                /\ exists c0,
                     BuildConfigFromFlags (Master s) (KubeConfig s) = inl c0
                     /\ fields c = fields c0)
  /\ (forall s2, Master s2 = Master s -> KubeConfig s2 = KubeConfig s ->
                 createKubeClient' s2 = createKubeClient' s).
Proof.
  cbv zeta.
  split; [ | split; [ | split; [ | split ] ] ].
  5: { intros s2 H1 H2. rewrite !createKubeClient_eq, H1, H2. reflexivity. }
  all: rewrite createKubeClient_eq;
    destruct (BuildConfigFromFlags (Master s) (KubeConfig s)) as [c0|e0];
    [ destruct (NewForConfig (with_rates c0)) as [k0|e1] eqn:En | ];
    cbn [fst snd].
  - intros err; split; intros H; discriminate.
  - intros err; split; intros H; discriminate.
  - intros err; split; intros H; inversion H; reflexivity.
  - split; [ intros H; discriminate | ].
    intros (c & err & Hc & He). inversion Hc; subst. congruence.
  - split; [ | reflexivity ].
    intros _. exists c0, e1. split; [ reflexivity | assumption ].
  - split; [ intros H; discriminate | ].
    intros (c & err & Hc & He). discriminate.
  - intros k; split.
    + intros H; inversion H; subst. exists c0. split; [ reflexivity | assumption ].
    + intros (c & Hc & Hk). inversion Hc; subst. congruence.
  - intros k; split; [ intros H; discriminate | ].
    intros (c & Hc & Hk). inversion Hc; subst. congruence.
  - intros k; split; [ intros H; discriminate | ].
    intros (c & Hc & Hk). discriminate.
  - intros c [H|[H|[]]]; [ discriminate | ]. inversion H; subst.
    repeat split. exists c0. split; reflexivity.
  - intros c [H|[H|[H|[]]]]; try discriminate. inversion H; subst.
    repeat split. exists c0. split; reflexivity.
  - intros c [H|[H|[]]]; discriminate.
Qed.

End KubeClient.

Section Http.

Variable ConfigFields KubeturboService : Type.
Variable JoinHostPort : string -> string -> string.
Variable Itoa : Z -> string.
Variable ListenAndServe : string -> list registration -> option string.

Local Abbreviation startHttp' :=
  (startHttp ConfigFields KubeturboService JoinHostPort Itoa ListenAndServe).

(** [startHttp] never returns: it listens once, on the address made of the
    server's address and port, and then serves for ever, or, when the listener
    gives up with an error, logs that error with [glog.Fatal], which ends the
    process; it does nothing else.  The health check is always installed, and
    first; the four profiling pages and the metrics are served exactly when
    profiling is enabled, and nothing but the health check otherwise. *)
Theorem startHttp_serves (s : VMTServer) :
  exists mux t st,
    startHttp' s
    = (http_ListenAndServe (JoinHostPort (Address s) (Itoa (Port s))) mux :: t,
       Stop st)
    /\ (forall addr m, ~ In (http_ListenAndServe addr m) t)
    /\ hd_error mux = Some healthz_InstallHandler
    /\ ((exists p h, In (HandleFunc p h) mux \/ In (Handle p h) mux)
        <-> EnableProfiling s = true)
    /\ (EnableProfiling s = true ->
        mux = [healthz_InstallHandler;
               HandleFunc "/debug/pprof/" pprof_Index;
               HandleFunc "/debug/pprof/profile" pprof_Profile;
               HandleFunc "/debug/pprof/symbol" pprof_Symbol;
               HandleFunc "/debug/pprof/trace" pprof_Trace;
               Handle "/metrics" prometheus_Handler])
    /\ (EnableProfiling s = false -> mux = [healthz_InstallHandler])
    /\ (st = Forever
        <-> ListenAndServe (JoinHostPort (Address s) (Itoa (Port s))) mux = None)
    /\ (st = Fatal
        <-> exists err,
              ListenAndServe (JoinHostPort (Address s) (Itoa (Port s))) mux
              = Some err
              /\ t = [glog FATAL err])
    /\ (forall err,
          ListenAndServe (JoinHostPort (Address s) (Itoa (Port s))) mux
          = Some err ->
          st = Fatal /\ t = [glog FATAL err])
    /\ (ListenAndServe (JoinHostPort (Address s) (Itoa (Port s))) mux = None ->
        st = Forever /\ t = []).
Proof.
  unfold startHttp, bindM, emit, halt. cbn [app].
  destruct (EnableProfiling s);
    match goal with
    | |- context [ListenAndServe ?a ?m] =>
        destruct (ListenAndServe a m) as [err|] eqn:El
    end;
    eexists; eexists; eexists;
    (split; [ cbn [app]; reflexivity | ]);
    rewrite ?El;
    (split; [ intros addr m H; cbn in H; intuition discriminate | ]);
    (split; [ reflexivity | ]);
    (split; [ split;
              [ intros (p & h & [H|H]); cbn in H; try reflexivity;
                intuition discriminate
              | intros H; try discriminate H;
                exists "/metrics"%string, prometheus_Handler; right; cbn; tauto ]
            | ]);
    (split; [ intros H; try discriminate H; reflexivity | ]);
    (split; [ intros H; try discriminate H; reflexivity | ]);
    (split; [ split; intros H; try discriminate H; reflexivity | ]);
    (split; [ split;
              [ intros H; try discriminate H; eexists; split; reflexivity
              | intros (e & He & Ht); try discriminate He; reflexivity ]
            | ]);
    (split; [ intros e He; try discriminate He; inversion He; subst;
              split; reflexivity
            | intros H; try discriminate H; split; reflexivity ]).
Qed.

End Http.

Section Run.

Variable IP : Type.
Variable ParseIP : string -> option IP.
Variable StitchingPropertyType : Type.
Variable stitching_IP stitching_UUID : StitchingPropertyType.
Variable ConfigFields Clientset : Type.
Variable BuildConfigFromFlags : string -> string -> Config ConfigFields + string.
Variable NewForConfig : Config ConfigFields -> Clientset + string.
Variable K8sTAPServiceSpec : Type.
Variable ParseK8sTAPServiceSpec : string -> K8sTAPServiceSpec + string.
Variable PodBroker : Type.
Variable NewPodBroker : PodBroker.
Variable EventRecorder : Type.
Variable createRecorder : Clientset -> EventRecorder.
Variable VMTConfig : Type.
Variable NewVMTConfig :
  Clientset -> ProbeConfig StitchingPropertyType -> PodBroker ->
  K8sTAPServiceSpec -> VMTConfig.
Variable set_Recorder : VMTConfig -> EventRecorder -> VMTConfig.
Variable format_VMTConfig : VMTConfig -> string.
Variable KubeturboService : Type.
Variable NewKubeturboService : VMTConfig -> KubeturboService.

Local Abbreviation checkFlag' :=
  (checkFlag IP ParseIP ConfigFields KubeturboService).
Local Abbreviation createKubeClient' :=
  (createKubeClient ConfigFields Clientset BuildConfigFromFlags NewForConfig
     KubeturboService).
Local Abbreviation createProbeConfig' :=
  (createProbeConfig StitchingPropertyType stitching_IP stitching_UUID).
Local Abbreviation Run' :=
  (Run IP ParseIP StitchingPropertyType stitching_IP stitching_UUID
     ConfigFields Clientset BuildConfigFromFlags NewForConfig
     K8sTAPServiceSpec ParseK8sTAPServiceSpec PodBroker NewPodBroker
     EventRecorder createRecorder VMTConfig NewVMTConfig set_Recorder
     format_VMTConfig KubeturboService NewKubeturboService).

Lemma createProbeConfig_fst (s : VMTServer) :
  fst (createProbeConfig' s)
  = set_CAdvisorPort s (CadvisorPort (snd (createProbeConfig' s))).
Proof.
  unfold createProbeConfig. cbn zeta.
  destruct (CAdvisorPort s =? 0); cbn [fst snd CadvisorPort];
    [ reflexivity | symmetry; apply set_CAdvisorPort_same ].
Qed.

Lemma createProbeConfig_nonzero (s : VMTServer) :
  CadvisorPort (snd (createProbeConfig' s)) <> 0.
Proof.
  unfold createProbeConfig. cbn zeta.
  destruct (CAdvisorPort s =? 0) eqn:E; cbn [snd CadvisorPort].
  - discriminate.
  - apply Z.eqb_neq, E.
Qed.

(** [Run] written out, stage by stage. *)
Lemma Run_eq (s : VMTServer) :
  Run' s
  = let s' := fst (createProbeConfig' s) in
    let probeConfig := snd (createProbeConfig' s) in
    match ParseIP (Address s) with
    | None =>
        (fst (checkFlag' s)
         ++ [glog ERROR
               ("check flag failed:" ++ ("wrong ip format:" ++ Address s)
                ++ ". abort.")%string],
         Stop (Exit 1))
    | Some _ =>
        match ParseK8sTAPServiceSpec (K8sTAPSpec s) with
        | inr err =>
            (fst (checkFlag' s)
             ++ [glog (V 3) ("spec path is: " ++ K8sTAPSpec s)%string;
                 kubeturbo_ParseK8sTAPServiceSpec (K8sTAPSpec s);
                 glog ERROR
                   ("Failed to generate correct TAP config: " ++ err)%string],
             Stop (Exit 1))
        | inl k8sTAPSpec =>
            match snd (createKubeClient' s) with
            | Stop st =>
                (fst (checkFlag' s)
                 ++ [glog (V 3) ("spec path is: " ++ K8sTAPSpec s)%string;
                     kubeturbo_ParseK8sTAPServiceSpec (K8sTAPSpec s)]
                 ++ fst (createKubeClient' s),
                 Stop st)
            | Ret (inr err) =>
                (fst (checkFlag' s)
                 ++ [glog (V 3) ("spec path is: " ++ K8sTAPSpec s)%string;
                     kubeturbo_ParseK8sTAPServiceSpec (K8sTAPSpec s)]
                 ++ fst (createKubeClient' s)
                 ++ [glog ERROR ("Failed to get kubeClient: " ++ err)%string],
                 Stop (Exit 1))
            | Ret (inl kubeClient) =>
                (fst (checkFlag' s)
                 ++ [glog (V 3) ("spec path is: " ++ K8sTAPSpec s)%string;
                     kubeturbo_ParseK8sTAPServiceSpec (K8sTAPSpec s)]
                 ++ fst (createKubeClient' s)
                 ++ [glog (V 3)
                       ("Finished creating turbo configuration: "
                        ++ format_VMTConfig
                             (NewVMTConfig kubeClient probeConfig NewPodBroker
                                k8sTAPSpec))%string;
                     go_startHttp s';
                     glog (V 2) "No leader election";
                     vmtService_Run
                       (NewKubeturboService
                          (set_Recorder
                             (NewVMTConfig kubeClient probeConfig NewPodBroker
                                k8sTAPSpec)
                             (createRecorder kubeClient)))],
                 Stop Forever)
            end
        end
    end.
Proof.
  cbv zeta. unfold Run. rewrite checkFlag_eq. cbn [fst].
  pose proof (createProbeConfig_fst s) as Es.
  destruct (createProbeConfig' s) as [s' pc]. cbn [fst snd] in Es.
  assert (Ek : K8sTAPSpec s' = K8sTAPSpec s) by (rewrite Es; reflexivity).
  rewrite (createKubeClient_same ConfigFields Clientset BuildConfigFromFlags
             NewForConfig KubeturboService s s')
    by (rewrite Es; reflexivity).
  cbn [fst snd]. unfold bindM at 1.
  destruct (ParseIP (Address s)) as [ip|].
  - unfold bindM at 1. unfold ret at 1. rewrite Ek.
    unfold emit, halt.
    destruct (ParseK8sTAPServiceSpec (K8sTAPSpec s)) as [spec|err].
    + destruct (createKubeClient' s) as [t [[k|err]|st]];
        cbn [bindM fst snd app]; rewrite ?app_nil_r, <- ?app_assoc;
        reflexivity.
    + cbn [bindM app]. rewrite ?app_nil_r. reflexivity.
  - unfold emit, halt. cbn [bindM app]. rewrite ?app_nil_r. reflexivity.
Qed.

Ltac in_cases H :=
  cbn in H;
  repeat (destruct H as [H|H]; [ try discriminate H | ]);
  try contradiction.

Ltac run_cases s :=
  destruct (ParseIP (Address s)) as [?ip|] eqn:?Ei;
  [ destruct (ParseK8sTAPServiceSpec (K8sTAPSpec s)) as [?spec|?e1] eqn:?Es;
    [ destruct (BuildConfigFromFlags (Master s) (KubeConfig s))
        as [?c|?e2] eqn:?Ec;
      [ destruct (NewForConfig (with_rates c)) as [?k|?e3] eqn:?Ek | ] | ] | ];
  cbn [fst snd] in *;
  destruct ((KubeConfig s =? "") && (Master s =? ""))%string,
    (Master s =? "")%string, (TestingFlagPath s =? "")%string;
  cbn [app] in *.

(** [Run] never returns to its caller.  It exits with code 1, after an error
    record, exactly when the address does not parse, or the specification
    cannot be read, or the kubeconfig cannot be loaded; it is ended by
    [glog.Fatalf] exactly when these three succeed and the client cannot be
    made; and exactly when all four succeed it starts the http server, runs
    the service made from the client and the specification, and then blocks
    for ever.  This is the course of [Run] itself: the http server has a
    goroutine of its own, which [startHttp] describes. *)
Theorem Run_ending (s : VMTServer) :
  exists t st,
    Run' s = (t, Stop st)
    /\ (st = Exit 1 \/ st = Fatal \/ st = Forever)
    /\ (st = Exit 1
        <-> ParseIP (Address s) = None
            \/ (exists err, ParseK8sTAPServiceSpec (K8sTAPSpec s) = inr err)
            \/ (exists err,
                  BuildConfigFromFlags (Master s) (KubeConfig s) = inr err))
    /\ (st = Fatal
        <-> ParseIP (Address s) <> None
            /\ (exists spec, ParseK8sTAPServiceSpec (K8sTAPSpec s) = inl spec)
            /\ (exists c err,
                  BuildConfigFromFlags (Master s) (KubeConfig s) = inl c
                  /\ NewForConfig (with_rates c) = inr err))
    /\ (st = Exit 1 -> exists t0 m, t = t0 ++ [glog ERROR m])
    /\ (st = Fatal -> exists t0 m, t = t0 ++ [glog FATAL m])
    /\ (st = Forever
        <-> ParseIP (Address s) <> None
            /\ (exists spec, ParseK8sTAPServiceSpec (K8sTAPSpec s) = inl spec)
            /\ (exists c k,
                  BuildConfigFromFlags (Master s) (KubeConfig s) = inl c
                  /\ NewForConfig (with_rates c) = inl k))
    /\ (st = Forever ->
        exists t0 spec c k,
          ParseK8sTAPServiceSpec (K8sTAPSpec s) = inl spec
          /\ BuildConfigFromFlags (Master s) (KubeConfig s) = inl c
          /\ NewForConfig (with_rates c) = inl k
          /\ t = t0 ++ [go_startHttp (fst (createProbeConfig' s));
                        glog (V 2) "No leader election";
                        vmtService_Run
                          (NewKubeturboService
                             (set_Recorder
                                (NewVMTConfig k (snd (createProbeConfig' s))
                                   NewPodBroker spec)
                                (createRecorder k)))]).
Proof.
  rewrite Run_eq, createKubeClient_eq. cbv zeta.
  destruct (ParseIP (Address s)) as [ip|] eqn:Ei;
    [ destruct (ParseK8sTAPServiceSpec (K8sTAPSpec s)) as [spec|e1] eqn:Es;
      [ destruct (BuildConfigFromFlags (Master s) (KubeConfig s))
          as [c|e2] eqn:Ec;
        [ destruct (NewForConfig (with_rates c)) as [k|e3] eqn:Ek | ] | ] | ];
    cbn [fst snd]; eexists; eexists; (split; [ reflexivity | ]).
  - (* everything succeeds *)
    split; [ right; right; reflexivity | ].
    split; [ split; [ discriminate | intros [H|[[e H]|[e H]]]; discriminate ] | ].
    split; [ split; [ discriminate | ] | ].
    { intros (_ & _ & c' & e & Hc & He). inversion Hc; subst. congruence. }
    split; [ discriminate | ]. split; [ discriminate | ].
    split; [ split; [ intros _ | reflexivity ] | intros _ ].
    + split; [ discriminate | ]. split; [ exists spec; reflexivity | ].
      exists c, k. split; [ reflexivity | assumption ].
    + eexists. exists spec, c, k.
      split; [ reflexivity | ]. split; [ reflexivity | ].
      split; [ assumption | ].
      rewrite !app_assoc.
      match goal with
      | |- ?a ++ [?x; ?y; ?z; ?w] = _ =>
          change (a ++ [x; y; z; w]) with (a ++ ([x] ++ [y; z; w]))
      end.
      rewrite app_assoc. reflexivity.
  - (* the client cannot be made *)
    split; [ right; left; reflexivity | ].
    split; [ split; [ discriminate | intros [H|[[e H]|[e H]]]; discriminate ] | ].
    split; [ split; [ intros _ | reflexivity ] | ].
    { split; [ discriminate | ]. split; [ exists spec; reflexivity | ].
      exists c, e3. split; [ reflexivity | assumption ]. }
    split; [ discriminate | ].
    split; [ intros _ | split; [ split; [ discriminate | ] | discriminate ] ].
    + eexists. eexists.
      rewrite !app_assoc. cbn [app].
      change [clientcmd_BuildConfigFromFlags (Master s) (KubeConfig s);
              kubernetes_NewForConfig (with_rates c);
              glog FATAL ("Invalid API configuration: " ++ e3)%string]
        with ([@clientcmd_BuildConfigFromFlags ConfigFields KubeturboService
                 (Master s) (KubeConfig s);
               kubernetes_NewForConfig (with_rates c)]
              ++ [glog FATAL ("Invalid API configuration: " ++ e3)%string]).
      rewrite app_assoc. reflexivity.
    + intros (_ & _ & c' & k' & Hc & Hk). inversion Hc; subst. congruence.
  - (* the kubeconfig cannot be loaded *)
    split; [ left; reflexivity | ].
    split; [ split; [ intros _; right; right; exists e2; reflexivity
                    | reflexivity ] | ].
    split; [ split; [ discriminate | ] | ].
    { intros (_ & _ & c' & e & Hc & He). discriminate. }
    split; [ intros _ | ].
    { eexists. eexists. rewrite !app_assoc. reflexivity. }
    split; [ discriminate | ].
    split; [ split; [ discriminate | ] | discriminate ].
    intros (_ & _ & c' & k' & Hc & Hk). discriminate.
  - (* the specification cannot be read *)
    split; [ left; reflexivity | ].
    split; [ split; [ intros _; right; left; exists e1; reflexivity
                    | reflexivity ] | ].
    split; [ split; [ discriminate | ] | ].
    { intros (_ & [sp H] & _). discriminate. }
    split; [ intros _ | ].
    { eexists. eexists.
      change [glog (V 3) ("spec path is: " ++ K8sTAPSpec s)%string;
              kubeturbo_ParseK8sTAPServiceSpec (K8sTAPSpec s);
              glog ERROR
                ("Failed to generate correct TAP config: " ++ e1)%string]
        with ([@glog ConfigFields KubeturboService (V 3)
                 ("spec path is: " ++ K8sTAPSpec s)%string;
               kubeturbo_ParseK8sTAPServiceSpec (K8sTAPSpec s)]
              ++ [glog ERROR
                    ("Failed to generate correct TAP config: " ++ e1)%string]).
      rewrite app_assoc. reflexivity. }
    split; [ discriminate | ].
    split; [ split; [ discriminate | ] | discriminate ].
    intros (_ & [sp H] & _). discriminate.
  - (* the address does not parse *)
    split; [ left; reflexivity | ].
    split; [ split; [ intros _; left; reflexivity | reflexivity ] | ].
    split; [ split; [ discriminate | ] | ].
    { intros (H & _). now contradiction H. }
    split; [ intros _ | ].
    { eexists. eexists. reflexivity. }
    split; [ discriminate | ].
    split; [ split; [ discriminate | ] | discriminate ].
    intros (H & _). now contradiction H.
Qed.

(** A server whose address does not parse is stopped by the check of the
    flags: [Run] logs [check flag failed:wrong ip format:] with the address and
    [. abort.], and exits with code 1.  Up to then it has done what
    [checkFlag] does and nothing else: the specification is not read and the
    cluster is not contacted. *)
Theorem Run_rejects_address (s : VMTServer) :
  ParseIP (Address s) = None ->
  Run' s
  = (fst (checkFlag' s)
     ++ [glog ERROR
           ("check flag failed:wrong ip format:" ++ Address s ++ ". abort.")%string],
     Stop (Exit 1))
  /\ (forall e, In e (fst (Run' s)) ->
                (exists l m, e = glog l m) \/ e = flag_SetPath (TestingFlagPath s)).
Proof.
  intros Hip. rewrite Run_eq. cbv zeta. rewrite Hip. cbn [fst].
  split; [ reflexivity | ].
  intros e Hin. apply in_app_or in Hin. destruct Hin as [Hin|[<-|[]]].
  - rewrite checkFlag_eq in Hin. cbn [fst] in Hin.
    destruct ((KubeConfig s =? "") && (Master s =? ""))%string,
      (Master s =? "")%string, (TestingFlagPath s =? "")%string;
      cbn in Hin;
      repeat (destruct Hin as [<-|Hin];
              [ first [ right; reflexivity | left; eexists; eexists; reflexivity ]
              | ]);
      contradiction.
  - left. eexists. eexists. reflexivity.
Qed.

(** The stages of [Run] come in order, each only after the one before it
    succeeded: the specification is read only for an address that parses; the
    kubeconfig is loaded, from the server's master and kubeconfig, only after
    the specification was read; a client is only asked for with QPS 20 and
    burst 30; and the http server is started only by a run that then serves,
    for a server whose cAdvisor port is not 0. *)
Theorem Run_stages (s : VMTServer) :
  let t := fst (Run' s) in
  (forall p, In (kubeturbo_ParseK8sTAPServiceSpec p) t ->
             p = K8sTAPSpec s /\ ParseIP (Address s) <> None)
  /\ (forall m k, In (clientcmd_BuildConfigFromFlags m k) t ->
                  m = Master s /\ k = KubeConfig s
                  /\ exists spec,
                       ParseK8sTAPServiceSpec (K8sTAPSpec s) = inl spec)
  /\ (forall c, In (kubernetes_NewForConfig c) t ->
                QPS c = Float32.of_dyadic 20 0 /\ Burst c = 30
                /\ exists c0,
                     BuildConfigFromFlags (Master s) (KubeConfig s) = inl c0
                     /\ c = with_rates c0)
  /\ (forall s', In (go_startHttp s') t ->
                 snd (Run' s) = Stop Forever
                 /\ s' = fst (createProbeConfig' s)
                 /\ CAdvisorPort s' <> 0).
Proof.
  cbv zeta. rewrite Run_eq, createKubeClient_eq, checkFlag_eq. cbv zeta.
  pose proof (createProbeConfig_nonzero s) as Hnz.
  pose proof (createProbeConfig_fst s) as Hfst.
  assert (Hport : CAdvisorPort (fst (createProbeConfig' s)) <> 0)
    by (rewrite Hfst; exact Hnz).
  clear Hnz Hfst.
  split; [ | split; [ | split ] ].
  - intros p H. run_cases s. all: in_cases H.
    all: inversion H; subst; split; [ reflexivity | discriminate ].
  - intros m0 k0 H. run_cases s. all: in_cases H.
    all: inversion H; subst; split; [ reflexivity | split; [ reflexivity | ] ].
    all: eexists; reflexivity.
  - intros c' H. run_cases s. all: in_cases H.
    all: inversion H; subst; split; [ reflexivity | split; [ reflexivity | ] ].
    all: eexists; split; reflexivity.
  - intros s' H. run_cases s. all: in_cases H.
    all: inversion H; subst.
    all: split; [ reflexivity | split; [ reflexivity | assumption ] ].
Qed.

(** When the address parses, the specification is read, the kubeconfig is
    loaded and the client is made, [Run] ends by starting the http server,
    logging that there is no leader election, and running the service, in this
    order, and then serves for ever.  The service is made from the client, the
    probe configuration of [createProbeConfig], a new broker and the
    specification, with the recorder of that same client; the http server is
    given the server as [createProbeConfig] left it; and no error was
    logged. *)
Theorem Run_serves (s : VMTServer) (ip : IP) (spec : K8sTAPServiceSpec)
  (c : Config ConfigFields) (k : Clientset) :
  ParseIP (Address s) = Some ip ->
  ParseK8sTAPServiceSpec (K8sTAPSpec s) = inl spec ->
  BuildConfigFromFlags (Master s) (KubeConfig s) = inl c ->
  NewForConfig (with_rates c) = inl k ->
  exists t0,
    Run' s
    = (t0 ++ [go_startHttp (fst (createProbeConfig' s));
              glog (V 2) "No leader election";
              vmtService_Run
                (NewKubeturboService
                   (set_Recorder
                      (NewVMTConfig k (snd (createProbeConfig' s)) NewPodBroker
                         spec)
                      (createRecorder k)))],
       Stop Forever)
    /\ (forall m, ~ In (glog ERROR m) t0 /\ ~ In (glog FATAL m) t0)
    /\ (forall s', ~ In (go_startHttp s') t0)
    /\ In (kubernetes_NewForConfig (with_rates c)) t0.
Proof.
  intros Hi Hs Hc Hk.
  rewrite Run_eq, createKubeClient_eq, checkFlag_eq. cbv zeta.
  rewrite Hi, Hs, Hc, Hk. cbn [fst snd].
  eexists. split.
  - rewrite !app_assoc.
    match goal with
    | |- (?a ++ [?x; ?y; ?z; ?w], _) = _ =>
        change (a ++ [x; y; z; w]) with (a ++ ([x] ++ [y; z; w]))
    end.
    rewrite app_assoc. reflexivity.
  - destruct ((KubeConfig s =? "") && (Master s =? ""))%string,
      (Master s =? "")%string, (TestingFlagPath s =? "")%string;
      cbn [app]; (split; [ | split ]).
    all: try (intros m; split; intros H; in_cases H).
    all: try (cbn; auto 10; fail).
    all: intros s' H; in_cases H.
Qed.

End Run.

(** ** The theorems at the sample servers *)

Lemma createProbeConfig_stitching_witness :
  ServerExamples.stitching_IP <> ServerExamples.stitching_UUID
  /\ StitchingType
       (snd (createProbeConfig string ServerExamples.stitching_IP
               ServerExamples.stitching_UUID ServerExamples.server1))
     = ServerExamples.stitching_UUID.
Proof.
  split; [ discriminate | ].
  apply (proj1 (createProbeConfig_stitching string ServerExamples.stitching_IP
                  ServerExamples.stitching_UUID ServerExamples.server1
                  ltac:(discriminate))).
  reflexivity.
Defined.

Lemma cadvisor_port_default_witness :
  In (IntVar p_CAdvisorPort "cadvisor-port" 4194
        "The port of the cadvisor service runs on")
    (AddFlags NewVMTServer)
  /\ CAdvisorPort ServerExamples.server2 = 0
  /\ CadvisorPort
       (snd (createProbeConfig string ServerExamples.stitching_IP
               ServerExamples.stitching_UUID ServerExamples.server2))
     = 4194.
Proof.
  split; [ right; right; left; reflexivity | ]. split; [ reflexivity | ].
  apply (cadvisor_port_default string ServerExamples.stitching_IP
           ServerExamples.stitching_UUID NewVMTServer ServerExamples.server2
           4194 "The port of the cadvisor service runs on").
  - right; right; left; reflexivity.
  - reflexivity.
Defined.

Lemma Run_rejects_address_witness :
  ServerExamples.ParseIP (Address ServerExamples.server2) = None
  /\ ServerExamples.Run ServerExamples.server2
     = ([glog WARNING
           "Neither --kubeconfig nor --master was specified.  Using default API client.  This might not work.";
         flag_SetPath "/tmp/testing";
         glog ERROR "check flag failed:wrong ip format:localhost. abort."],
        Stop (Exit 1)).
Proof.
  split; [ reflexivity | ].
  apply (proj1 (Run_rejects_address string ServerExamples.ParseIP string
                  ServerExamples.stitching_IP ServerExamples.stitching_UUID
                  string (Config string) ServerExamples.BuildConfigFromFlags
                  ServerExamples.NewForConfig string
                  ServerExamples.ParseK8sTAPServiceSpec unit tt unit
                  (fun _ => tt) ServerExamples.VMTConfig
                  ServerExamples.NewVMTConfig ServerExamples.set_Recorder
                  (fun _ => "&{...}"%string) ServerExamples.VMTConfig
                  (fun c => c) ServerExamples.server2 eq_refl)).
Defined.

Lemma Run_serves_witness :
  ServerExamples.ParseIP (Address ServerExamples.server1) = Some "127.0.0.1"%string
  /\ ServerExamples.ParseK8sTAPServiceSpec (K8sTAPSpec ServerExamples.server1)
     = inl "/etc/kubeturbo/config"%string
  /\ ServerExamples.BuildConfigFromFlags (Master ServerExamples.server1)
       (KubeConfig ServerExamples.server1)
     = inl {| fields := "https://10.0.0.1:6443"%string; QPS := 0; Burst := 0 |}
  /\ ServerExamples.NewForConfig
       (with_rates
          {| fields := "https://10.0.0.1:6443"%string; QPS := 0; Burst := 0 |})
     = inl {| fields := "https://10.0.0.1:6443"%string;
              QPS := 1101004800; Burst := 30 |}
  /\ exists t0,
      ServerExamples.Run ServerExamples.server1
      = (t0 ++ [go_startHttp ServerExamples.server1;
                glog (V 2) "No leader election";
                vmtService_Run
                  ({| fields := "https://10.0.0.1:6443"%string;
                      QPS := 1101004800; Burst := 30 |},
                   {| CadvisorPort := 4194; StitchingType := "UUID"%string |},
                   "/etc/kubeturbo/config"%string, Some tt)],
         Stop Forever).
Proof.
  split; [ reflexivity | ]. split; [ reflexivity | ].
  split; [ reflexivity | ]. split; [ reflexivity | ].
  destruct (Run_serves string ServerExamples.ParseIP string
              ServerExamples.stitching_IP ServerExamples.stitching_UUID
              string (Config string) ServerExamples.BuildConfigFromFlags
              ServerExamples.NewForConfig string
              ServerExamples.ParseK8sTAPServiceSpec unit tt unit
              (fun _ => tt) ServerExamples.VMTConfig
              ServerExamples.NewVMTConfig ServerExamples.set_Recorder
              (fun _ => "&{...}"%string) ServerExamples.VMTConfig
              (fun c => c) ServerExamples.server1
              "127.0.0.1"%string "/etc/kubeturbo/config"%string
              {| fields := "https://10.0.0.1:6443"%string; QPS := 0; Burst := 0 |}
              {| fields := "https://10.0.0.1:6443"%string;
                 QPS := 1101004800; Burst := 30 |}
              eq_refl eq_refl eq_refl eq_refl) as [t0 [H _]].
  exists t0. exact H.
Defined.

End ServerFacts.
